(** * Skaffold build backends: a shallow embedding

    The development follows four source units of the repository:
    - [pkg/skaffold/build/kaniko] : [Build] and [buildArtifactWithKaniko],
      the pod-based remote build session;
    - [pkg/skaffold/build/local]  : [buildArtifactLocally] and [buildDocker];
    - [pkg/skaffold/build/jib]    : [ValidateJibConfig], the Jib project
      detector;
    - the Go library calls those functions rely on ([strings], [bytes],
      [regexp], [encoding/json], [github.com/pkg/errors]).

    Go strings are [string] (sequences of 8-bit characters), byte slices are
    [list ascii], a nil [error] is [None].  Calls that leave the process
    (cluster API, file system, external commands, logging) are recorded as
    events of a trace; what they answer is read from a record of oracles. *)

From Stdlib Require Import String Ascii List Bool Arith NArith Lia.
Import ListNotations.

Local Open Scope string_scope.
Local Open Scope list_scope.

(** Concatenation of Go strings, as [+] and [fmt.Sprintf] with [%s] do it;
    [++] is kept for slices. *)
Infix "+++" := String.append (at level 60, right associativity).

(* ===================================================================== *)
(** ** Go errors, as [github.com/pkg/errors] and [fmt.Errorf] build them *)
(* ===================================================================== *)

Module Errors.

(** An error value is a message, possibly wrapping a cause. *)
Inductive error : Type :=
| New (msg : string)
| withMessage (cause : error) (msg : string).

(** [err.Error()]: a wrapped error prints as [msg: cause]. *)
Fixpoint Error (e : error) : string :=
  match e with
  | New msg => msg
  | withMessage cause msg => msg +++ ": " +++ Error cause
  end.

(** [errors.Wrap(err, msg)]: nil stays nil. *)
Definition Wrap (err : option error) (msg : string) : option error :=
  match err with
  | None => None
  | Some e => Some (withMessage e msg)
  end.

(** Outcome of a call that returns [(T, error)]. *)
Inductive result (T : Type) : Type :=
| Ok (v : T)
| Err (e : error).
Arguments Ok {T} v.
Arguments Err {T} e.

End Errors.
Import Errors.

(* ===================================================================== *)
(** ** The schema types the builders read ([schema/latest]) *)
(* ===================================================================== *)

Module Latest.

(** A Go struct type and a field of that type may share a name; the
    types carry the package prefix here, the fields keep their names. *)
Record latest_DockerArtifact := {
  DockerfilePath : string;
  BuildArgs : list (string * option string)
}.

Record latest_BazelArtifact := { BuildTarget : string }.
Record latest_JibMavenArtifact := { Module_ : string; Profile : string }.
Record latest_JibGradleArtifact := { Project : string }.

(** [ArtifactType]: one optional pointer per variant; nil is [None]. *)
Record latest_ArtifactType := {
  DockerArtifact : option latest_DockerArtifact;
  BazelArtifact : option latest_BazelArtifact;
  JibMavenArtifact : option latest_JibMavenArtifact;
  JibGradleArtifact : option latest_JibGradleArtifact
}.

(** [Artifact] embeds its [ArtifactType]. *)
Record latest_Artifact := {
  ImageName : string;
  Workspace : string;
  ArtifactType : latest_ArtifactType
}.

Record latest_KanikoCache := { Repo : string }.

End Latest.
Import Latest.

(* ===================================================================== *)
(** ** The remote (Kaniko) build session *)
(* ===================================================================== *)

Module Kaniko.

(** Calls that leave the process, in the order they are made. *)
Inductive Event : Type :=
| SetupSecret
| TeardownSecret
| SourceSetup (fqn : string)
| SourceCleanup
| GetClientset
| PodsCreate (args : list string)
| PodsDelete (name : string) (gracePeriodSeconds : N)
| ModifyPod (name : string)
| StreamLogs (name : string)
| WaitForPodComplete (name : string)
| WaitForLogs
| FullRemoteReference (fqn : string)
| Fatalf (msg : string).

(** How a Go function body ends: it returns, it panics, or the process is
    terminated ([logrus.Fatalf] logs and calls [os.Exit(1)]). *)
Inductive Exec (A : Type) : Type :=
| Done (a : A)
| Panic
| Exit.
Arguments Done {A} a.
Arguments Panic {A}.
Arguments Exit {A}.

(** A computation: the events it made and how it ended. *)
Definition M (A : Type) : Type := (list Event * Exec A)%type.

Definition ret {A} (a : A) : M A := ([], Done a).

Definition bind {A B} (m : M A) (f : A -> M B) : M B :=
  match m with
  | (t, Done a) => let (t', r) := f a in (t ++ t', r)
  | (t, Panic) => (t, Panic)
  | (t, Exit) => (t, Exit)
  end.

Definition emit (e : Event) : M unit := ([e], Done tt).
Definition panic {A} : M A := ([], Panic).
Definition os_Exit {A} : M A := ([], Exit).

Notation "x <- m ;; k" := (bind m (fun x => k))
  (at level 61, m at next level, right associativity).
Notation "m ;;; k" := (bind m (fun _ => k))
  (at level 61, right associativity).

(** [defer d] followed by the rest of the function, [body]: [d] runs when
    [body] returns or panics; nothing runs once the process has exited. *)
Definition defer {A} (d : M unit) (body : M A) : M A :=
  match body with
  | (t, Done a) =>
      match d with
      | (t', Done _) => (t ++ t', Done a)
      | (t', Panic) => (t ++ t', Panic)
      | (t', Exit) => (t ++ t', Exit)
      end
  | (t, Panic) =>
      match d with
      | (t', Exit) => (t ++ t', Exit)
      | (t', _) => (t ++ t', Panic)
      end
  | (t, Exit) => (t, Exit)
  end.

(** What the collaborators answer during one session. *)
Record World := {
  setupSecret : option error;
  sourceSetup : string -> result string;
  getClientset : option error;
  podsCreate : list string -> result string;
  podsDelete : string -> option error;
  modifyPod : string -> option error;
  waitForPodComplete : string -> option error;
  fullRemoteReference : string -> string * option error
}.

Record Builder := {
  AdditionalFlags : list string;
  Cache : option latest_KanikoCache;
  Namespace : string
}.

Section Session.

(** [logLevel().String()] and [docker.GetBuildArgs] are declared in
    files outside this unit. *)
Variable logLevel : string.
Variable GetBuildArgs : latest_DockerArtifact -> list string.

Variable w : World.

(** The argument list of lines 207-220. *)
Definition kanikoArgs (b : Builder) (a : latest_DockerArtifact)
    (context fqn : string) : list string :=
  let args := [ "--dockerfile=" +++ a.(DockerfilePath);
                "--context=" +++ context;
                "--destination=" +++ fqn;
                "-v=" +++ logLevel ] in
  let args := args ++ b.(AdditionalFlags) in
  let args := args ++ GetBuildArgs a in
  match b.(Cache) with
  | Some cache =>
      let args := args ++ ["--cache=true"] in
      if String.eqb cache.(Repo) "" then args
      else args ++ ["--cache-repo=" +++ cache.(Repo)]
  | None => args
  end.

(** Modelled from the spec: [streamLogs] is declared in a file outside
    this unit.  It starts the background copy of the pod's log stream
    and returns the function that joins it; the copy is known to be
    finished only once that function has been called. *)
Definition streamLogs (name : string) : M (M unit) :=
  emit (StreamLogs name) ;;; ret (emit WaitForLogs).

(** The deferred closure of lines 227-233. *)
Definition deletePod (name : string) : M unit :=
  emit (PodsDelete name 0) ;;;
  match w.(podsDelete) name with
  | Some err => emit (Fatalf ("deleting pod: " +++ Error err)) ;;; os_Exit
  | None => ret tt
  end.

Definition buildArtifactWithKaniko (b : Builder) (artifact : latest_Artifact)
    (fqn : string) : M (string * option error) :=
  emit (SourceSetup fqn) ;;;
  match w.(sourceSetup) fqn with
  | Err err => ret ("", Wrap (Some err) "setting up build context")
  | Ok context =>
    defer (emit SourceCleanup) (
      emit GetClientset ;;;
      match w.(getClientset) with
      | Some err => ret ("", Wrap (Some err) "")
      | None =>
        match artifact.(ArtifactType).(DockerArtifact) with
        | None => panic
        | Some a =>
          let args := kanikoArgs b a context fqn in
          emit (PodsCreate args) ;;;
          match w.(podsCreate) args with
          | Err err => ret ("", Wrap (Some err) "creating kaniko pod")
          | Ok p =>
            defer (deletePod p) (
              emit (ModifyPod p) ;;;
              match w.(modifyPod) p with
              | Some err => ret ("", Wrap (Some err) "modifying kaniko pod")
              | None =>
                waitForLogs <- streamLogs p ;;
                emit (WaitForPodComplete p) ;;;
                match w.(waitForPodComplete) p with
                | Some err =>
                    ret ("", Wrap (Some err) "waiting for pod to complete")
                | None =>
                    waitForLogs ;;;
                    emit (FullRemoteReference fqn) ;;;
                    ret (w.(fullRemoteReference) fqn)
                end
              end)
          end
        end
      end)
  end.

(** [build.InParallel] and the result type [build.Artifact] are declared
    outside this unit. *)
Variable BuildArtifact : Type.
Variable InParallel :
  list latest_Artifact -> (latest_Artifact -> string -> M (string * option error)) ->
  M (list BuildArtifact * option error).

Definition Build (b : Builder) (artifacts : list latest_Artifact)
    : M (list BuildArtifact * option error) :=
  emit SetupSecret ;;;
  match w.(setupSecret) with
  | Some err => ret ([], Wrap (Some err) "setting up secret")
  | None =>
      defer (emit TeardownSecret)
            (InParallel artifacts (buildArtifactWithKaniko b))
  end.

End Session.

End Kaniko.

(* ===================================================================== *)
(** ** The local builder: backend dispatch and the Docker backend *)
(* ===================================================================== *)

Module Local.

(** [exec.Cmd], as far as [buildDocker] fills it in; a nil [Env] makes the
    child inherit the environment. *)
Record Cmd := {
  Path : string;
  Args : list string;
  Env : option (list string)
}.

Inductive Event : Type :=
| NormalizeDockerfilePath (workspace dockerfilePath : string)
| RunCmd (cmd : Cmd)
| DaemonBuild (workspace : string) (a : latest_DockerArtifact) (fqn : string)
| DaemonPush (fqn : string).

(** A computation of the local builder: its calls and its return value. *)
Definition M (A : Type) : Type := (list Event * A)%type.

Definition ret {A} (a : A) : M A := ([], a).
Definition bind {A B} (m : M A) (f : A -> M B) : M B :=
  let (t, a) := m in let (t', r) := f a in (t ++ t', r).
Definition emit (e : Event) : M unit := ([e], tt).

Notation "m ;;; k" := (bind m (fun _ => k))
  (at level 61, right associativity).

Record World := {
  normalizeDockerfilePath : string -> string -> result string;
  os_Environ : list string;
  util_RunCmd : Cmd -> option error;
  localDocker_Build :
    string -> latest_DockerArtifact -> string -> result string;
  localDocker_Push : string -> result string
}.

Record Config := {
  UseDockerCLI : bool;
  UseBuildkit : bool
}.

Record Builder := {
  cfg : Config;
  pushImages : bool;
  localCluster : bool;
  kubeContext : string
}.

Section Backends.

Variable w : World.

(** [docker.GetBuildArgs] is declared outside this unit. *)
Variable GetBuildArgs : latest_DockerArtifact -> list string.

(** Lines 58-67 of [buildDocker]: what follows a build that went
    through. *)
Definition pushOrTag (b : Builder) (fqn : string)
    : M (string * option error) :=
  if b.(pushImages) then
    emit (DaemonPush fqn) ;;;
    match w.(localDocker_Push) fqn with
    | Err err => ret ("", Wrap (Some err) "pushing image")
    | Ok digest => ret (fqn +++ "@" +++ digest, None)
    end
  else ret (fqn, None).

Definition buildDocker (b : Builder) (workspace : string)
    (a : latest_DockerArtifact) (fqn : string)
    : M (string * option error) :=
  if b.(cfg).(UseDockerCLI) || b.(cfg).(UseBuildkit) then
    emit (NormalizeDockerfilePath workspace a.(DockerfilePath)) ;;;
    match w.(normalizeDockerfilePath) workspace a.(DockerfilePath) with
    | Err err => ret ("", Wrap (Some err) "normalizing dockerfile path")
    | Ok dockerfilePath =>
        let args :=
          ["build"; workspace; "--file"; dockerfilePath; "-t"; fqn] in
        let args := args ++ GetBuildArgs a in
        let cmd := {| Path := "docker";
                      Args := args;
                      Env := if b.(cfg).(UseBuildkit)
                             then Some (w.(os_Environ)
                                          ++ ["DOCKER_BUILDKIT=1"])
                             else None |} in
        emit (RunCmd cmd) ;;;
        match w.(util_RunCmd) cmd with
        | Some err => ret ("", Wrap (Some err) "running build")
        | None => pushOrTag b fqn
        end
    end
  else
    emit (DaemonBuild workspace a fqn) ;;;
    match w.(localDocker_Build) workspace a fqn with
    | Err err => ret ("", Wrap (Some err) "running build")
    | Ok _ => pushOrTag b fqn
    end.

(** The other backends of the builder and the [%+v] rendering of an
    [ArtifactType] are declared outside this unit. *)
Variable buildBazel :
  Builder -> string -> latest_BazelArtifact -> string ->
  M (string * option error).
Variable buildJibMaven :
  Builder -> string -> latest_JibMavenArtifact -> string ->
  M (string * option error).
Variable buildJibGradle :
  Builder -> string -> latest_JibGradleArtifact -> string ->
  M (string * option error).
Variable fmt_plus_v : latest_ArtifactType -> string.

Definition buildArtifactLocally (b : Builder) (artifact : latest_Artifact)
    (fqn : string) : M (string * option error) :=
  match artifact.(ArtifactType).(DockerArtifact) with
  | Some a => buildDocker b artifact.(Workspace) a fqn
  | None =>
  match artifact.(ArtifactType).(BazelArtifact) with
  | Some a => buildBazel b artifact.(Workspace) a fqn
  | None =>
  match artifact.(ArtifactType).(JibMavenArtifact) with
  | Some a => buildJibMaven b artifact.(Workspace) a fqn
  | None =>
  match artifact.(ArtifactType).(JibGradleArtifact) with
  | Some a => buildJibGradle b artifact.(Workspace) a fqn
  | None =>
      ret ("", Some (New ("undefined artifact type: "
                          +++ fmt_plus_v artifact.(ArtifactType))))
  end end end end.

End Backends.

End Local.

(* ===================================================================== *)
(** ** Go library functions the detector calls *)
(* ===================================================================== *)

(** Characters that a literal cannot hold. *)
Module Chars.
Definition LF : ascii := Eval cbv in ascii_of_nat 10.
Definition CR : ascii := Eval cbv in ascii_of_nat 13.
Definition TAB : ascii := Eval cbv in ascii_of_nat 9.
Definition BS : ascii := Eval cbv in ascii_of_nat 8.
Definition FF : ascii := Eval cbv in ascii_of_nat 12.
Definition DQUOTE : ascii := Eval cbv in ascii_of_nat 34.
Definition BACKSLASH : ascii := "\"%char.
End Chars.
Import Chars.

(** Package [strings]. *)
Module Strings.

(** [strings.HasSuffix]:
    [len(s) >= len(suffix) && s[len(s)-len(suffix):] == suffix]. *)
Definition HasSuffix (s suffix : string) : bool :=
  Nat.leb (String.length suffix) (String.length s)
  && String.eqb
       (substring (String.length s - String.length suffix)
                  (String.length suffix) s)
       suffix.

(** [strings.Contains]: [substr] starts at some index of [s]. *)
Fixpoint Contains (s substr : string) : bool :=
  prefix substr s
  || match s with
     | EmptyString => false
     | String _ s' => Contains s' substr
     end.

End Strings.

(** Package [bytes]. *)
Module Bytes.

Fixpoint HasPrefix (s prefix : list ascii) {struct prefix} : bool :=
  match prefix, s with
  | [], _ => true
  | p :: prefix', c :: s' => Ascii.eqb p c && HasPrefix s' prefix'
  | _ :: _, [] => false
  end.

(** The scan of [bytes.Replace(s, old, new, -1)] for a non-empty [old]:
    left to right, an occurrence of [old] is replaced and the scan goes
    on after it.  [skip] counts the bytes of an occurrence still to be
    passed over. *)
Fixpoint replaceFrom (skip : nat) (s old new : list ascii) : list ascii :=
  match s with
  | [] => []
  | c :: s' =>
      match skip with
      | S k => replaceFrom k s' old new
      | O =>
          if HasPrefix s old
          then new ++ replaceFrom (List.length old - 1) s' old new
          else c :: replaceFrom 0 s' old new
      end
  end.

(** [bytes.Replace(s, old, new, -1)].  The empty [old], which Go matches
    between runes, does not occur in this repository: [s] is returned. *)
Definition Replace (s old new : list ascii) : list ascii :=
  match old with
  | [] => s
  | _ :: _ => replaceFrom 0 s old new
  end.

End Bytes.

(** Package [regexp], for the constructs of the detector's pattern:
    literals, [.], [?], [*] (both greedy), concatenation and capture
    groups, matched leftmost-first as Go does (the first match that a
    backtracking search finds, trying the greedy choice first). *)
Module Regexp.

Inductive re : Type :=
| Lit (c : ascii)            (* one byte *)
| AnyNotNL                   (* [.] : any byte but a line feed *)
| Seq (r1 r2 : re)
| Quest (r : re)             (* [r?] *)
| Star (r : re)              (* [r*] *)
| Group (i : nat) (r : re).  (* the [i]-th capture group *)

(** The literal [s] as a pattern; [rest] follows it. *)
Fixpoint lits (s : string) (rest : re) : re :=
  match s with
  | EmptyString => rest
  | String c s' => Seq (Lit c) (lits s' rest)
  end.

(** Submatches: index 0 is the whole match, index [i] the [i]-th group. *)
Definition submatches := list (list ascii).

Fixpoint setNth (i : nat) (v : list ascii) (caps : submatches)
    : submatches :=
  match i, caps with
  | O, [] => [v]
  | O, _ :: caps' => v :: caps'
  | S i', [] => [] :: setNth i' v []
  | S i', c :: caps' => c :: setNth i' v caps'
  end.

(** [run r s caps k]: match [r] at the head of [s], then go on with [k] on
    what is left; [None] makes the search backtrack.  A [*] takes as many
    iterations as the rest of the match allows; an iteration that
    consumes nothing is not taken. *)
Fixpoint run {R : Type} (r : re) (s : list ascii) (caps : submatches)
    (k : list ascii -> submatches -> option R) : option R :=
  match r with
  | Lit c =>
      match s with
      | x :: s' => if Ascii.eqb x c then k s' caps else None
      | [] => None
      end
  | AnyNotNL =>
      match s with
      | x :: s' => if Ascii.eqb x LF then None else k s' caps
      | [] => None
      end
  | Seq r1 r2 => run r1 s caps (fun s' caps' => run r2 s' caps' k)
  | Quest r1 =>
      match run r1 s caps k with
      | Some m => Some m
      | None => k s caps
      end
  | Star r1 =>
      (fix star (fuel : nat) (s : list ascii) (caps : submatches)
         {struct fuel} : option R :=
         match fuel with
         | O => k s caps
         | S fuel' =>
             match run r1 s caps
                     (fun s' caps' =>
                        if Nat.ltb (List.length s') (List.length s)
                        then star fuel' s' caps'
                        else None) with
             | Some m => Some m
             | None => k s caps
             end
         end) (List.length s) s caps
  | Group i r1 =>
      run r1 s caps
          (fun s' caps' =>
             k s' (setNth i (firstn (List.length s - List.length s') s)
                          caps'))
  end.

(** A match of [r] that starts at the head of [s]: its submatches. *)
Definition matchHere (r : re) (s : list ascii) : option submatches :=
  run r s []
      (fun s' caps =>
         Some (setNth 0 (firstn (List.length s - List.length s') s) caps)).

(** The leftmost matches, one after the other.  [skip] counts the bytes
    of the last match still to be passed over. *)
Fixpoint findAllFrom (r : re) (skip : nat) (s : list ascii)
    : list submatches :=
  match s with
  | [] => []
  | _ :: s' =>
      match skip with
      | S k => findAllFrom r k s'
      | O =>
          match matchHere r s with
          | Some m => m :: findAllFrom r (List.length (nth 0 m []) - 1) s'
          | None => findAllFrom r 0 s'
          end
      end
  end.

(** [re.FindAllSubmatch(b, -1)], for patterns whose matches are never
    empty. *)
Definition FindAllSubmatch (r : re) (b : list ascii) : list submatches :=
  findAllFrom r 0 b.

End Regexp.

(** Package [unicode/utf8] and [unicode/utf16], on runes as numbers. *)
Module Utf8.

Local Open Scope N_scope.

Definition RuneError : N := 65533.   (* U+FFFD *)

Definition byte (n : N) : ascii := ascii_of_N (n mod 256).

Definition inRange (lo hi b : N) : bool := (lo <=? b) && (b <=? hi).

(** The table [first] of the package: for a leading byte, the length of
    the sequence and the range its second byte must lie in. *)
Definition first (p0 : N) : option (nat * N * N) :=
  if p0 <? 194 then None                                (* 80..C1 *)
  else if p0 <=? 223 then Some (2%nat, 128, 191)        (* C2..DF *)
  else if p0 =? 224 then Some (3%nat, 160, 191)         (* E0 *)
  else if p0 <=? 236 then Some (3%nat, 128, 191)        (* E1..EC *)
  else if p0 =? 237 then Some (3%nat, 128, 159)         (* ED *)
  else if p0 <=? 239 then Some (3%nat, 128, 191)        (* EE..EF *)
  else if p0 =? 240 then Some (4%nat, 144, 191)         (* F0 *)
  else if p0 <=? 243 then Some (4%nat, 128, 191)        (* F1..F3 *)
  else if p0 =? 244 then Some (4%nat, 128, 143)         (* F4 *)
  else None.                                            (* F5..FF *)

(** [utf8.DecodeRune(p)] for a non-empty [p]: the rune and its width; an
    invalid or cut-off sequence is [(RuneError, 1)]. *)
Definition DecodeRune (p : list ascii) : N * nat :=
  match map N_of_ascii p with
  | [] => (RuneError, 0%nat)
  | p0 :: rest =>
      if p0 <? 128 then (p0, 1%nat)
      else
        match first p0 with
        | None => (RuneError, 1%nat)
        | Some (sz, lo, hi) =>
            match sz, rest with
            | 2%nat, b1 :: _ =>
                if inRange lo hi b1
                then (N.land p0 31 * 64 + N.land b1 63, 2%nat)
                else (RuneError, 1%nat)
            | 3%nat, b1 :: b2 :: _ =>
                if inRange lo hi b1 && inRange 128 191 b2
                then (N.land p0 15 * 4096 + N.land b1 63 * 64
                      + N.land b2 63, 3%nat)
                else (RuneError, 1%nat)
            | 4%nat, b1 :: b2 :: b3 :: _ =>
                if inRange lo hi b1 && inRange 128 191 b2
                   && inRange 128 191 b3
                then (N.land p0 7 * 262144 + N.land b1 63 * 4096
                      + N.land b2 63 * 64 + N.land b3 63, 4%nat)
                else (RuneError, 1%nat)
            | _, _ => (RuneError, 1%nat)
            end
        end
  end.

(** [utf16.IsSurrogate]. *)
Definition IsSurrogate (r : N) : bool := (55296 <=? r) && (r <? 57344).

(** [utf8.EncodeRune]: surrogates and runes beyond U+10FFFF are written as
    [RuneError]. *)
Definition EncodeRune (r : N) : list ascii :=
  let r := if IsSurrogate r || (1114111 <? r) then RuneError else r in
  if r <=? 127 then [byte r]
  else if r <=? 2047 then [byte (192 + r / 64); byte (128 + r mod 64)]
  else if r <=? 65535 then
    [byte (224 + r / 4096); byte (128 + (r / 64) mod 64);
     byte (128 + r mod 64)]
  else
    [byte (240 + r / 262144); byte (128 + (r / 4096) mod 64);
     byte (128 + (r / 64) mod 64); byte (128 + r mod 64)].

(** [utf16.DecodeRune(r1, r2)], a missing [r2] being Go's [-1]. *)
Definition DecodeSurrogates (r1 : N) (r2 : option N) : N :=
  match r2 with
  | Some r2 =>
      if (55296 <=? r1) && (r1 <? 56320) && (56320 <=? r2) && (r2 <? 57344)
      then (r1 - 55296) * 1024 + (r2 - 56320) + 65536
      else RuneError
  | None => RuneError
  end.

End Utf8.

(** Package [encoding/json]: the syntax check of [scanner.go], and the
    decoding of a value into the detector's [jibJSON] struct. *)
Module Json.

Definition isSpace (c : ascii) : bool :=
  Ascii.eqb c " " || Ascii.eqb c TAB || Ascii.eqb c CR || Ascii.eqb c LF.

Definition isDigit (c : ascii) : bool :=
  (N.leb 48 (N_of_ascii c)) && (N.leb (N_of_ascii c) 57).

Definition isDigit19 (c : ascii) : bool :=
  (N.leb 49 (N_of_ascii c)) && (N.leb (N_of_ascii c) 57).

Definition isHex (c : ascii) : bool :=
  isDigit c
  || ((N.leb 97 (N_of_ascii c)) && (N.leb (N_of_ascii c) 102))
  || ((N.leb 65 (N_of_ascii c)) && (N.leb (N_of_ascii c) 70)).

(** *** The scanner *)

Inductive parseState : Type :=
| parseObjectKey
| parseObjectValue
| parseArrayValue.

(** The state functions of [scanner.go]. *)
Inductive stepFn : Type :=
| stateBeginValueOrEmpty | stateBeginValue
| stateBeginStringOrEmpty | stateBeginString
| stateEndValue | stateEndTop
| stateInString | stateInStringEsc
| stateInStringEscU | stateInStringEscU1
| stateInStringEscU12 | stateInStringEscU123
| stateNeg | state1 | state0
| stateDot | stateDot0 | stateE | stateESign | stateE0
| stateT | stateTr | stateTru
| stateF | stateFa | stateFal | stateFals
| stateN | stateNu | stateNul
| stateError.

(** The scanner: its current state function, the stack of what is being
    parsed (innermost first) and whether the top-level value is complete.
    [err] is non-nil exactly when [step] is [stateError]. *)
Record scanner := {
  step : stepFn;
  parseStack : list parseState;
  endTop : bool
}.

Definition reset : scanner :=
  {| step := stateBeginValue; parseStack := []; endTop := false |}.

Definition goto (s : scanner) (f : stepFn) : scanner :=
  {| step := f; parseStack := s.(parseStack); endTop := s.(endTop) |}.

Definition error (s : scanner) : scanner := goto s stateError.

Definition pushParseState (s : scanner) (p : parseState) (f : stepFn)
    : scanner :=
  {| step := f; parseStack := p :: s.(parseStack); endTop := s.(endTop) |}.

Definition popParseState (s : scanner) : scanner :=
  match s.(parseStack) with
  | [] | [_] =>
      {| step := stateEndTop; parseStack := []; endTop := true |}
  | _ :: rest =>
      {| step := stateEndValue; parseStack := rest; endTop := s.(endTop) |}
  end.

Definition setTop (s : scanner) (p : parseState) (f : stepFn) : scanner :=
  {| step := f; parseStack := p :: tl s.(parseStack);
     endTop := s.(endTop) |}.

Definition do_stateEndTop (s : scanner) (c : ascii) : scanner :=
  if isSpace c then s else error s.

Definition do_stateEndValue (s : scanner) (c : ascii) : scanner :=
  match s.(parseStack) with
  | [] =>
      do_stateEndTop
        {| step := stateEndTop; parseStack := []; endTop := true |} c
  | ps :: _ =>
      if isSpace c then goto s stateEndValue
      else
        match ps with
        | parseObjectKey =>
            if Ascii.eqb c ":" then setTop s parseObjectValue stateBeginValue
            else error s
        | parseObjectValue =>
            if Ascii.eqb c "," then setTop s parseObjectKey stateBeginString
            else if Ascii.eqb c "}" then popParseState s
            else error s
        | parseArrayValue =>
            if Ascii.eqb c "," then goto s stateBeginValue
            else if Ascii.eqb c "]" then popParseState s
            else error s
        end
  end.

Definition do_stateBeginValue (s : scanner) (c : ascii) : scanner :=
  if isSpace c then s
  else if Ascii.eqb c "{" then
    pushParseState s parseObjectKey stateBeginStringOrEmpty
  else if Ascii.eqb c "[" then
    pushParseState s parseArrayValue stateBeginValueOrEmpty
  else if Ascii.eqb c DQUOTE then goto s stateInString
  else if Ascii.eqb c "-" then goto s stateNeg
  else if Ascii.eqb c "0" then goto s state0
  else if Ascii.eqb c "t" then goto s stateT
  else if Ascii.eqb c "f" then goto s stateF
  else if Ascii.eqb c "n" then goto s stateN
  else if isDigit19 c then goto s state1
  else error s.

Definition do_stateBeginValueOrEmpty (s : scanner) (c : ascii) : scanner :=
  if isSpace c then s
  else if Ascii.eqb c "]" then do_stateEndValue s c
  else do_stateBeginValue s c.

Definition do_stateBeginString (s : scanner) (c : ascii) : scanner :=
  if isSpace c then s
  else if Ascii.eqb c DQUOTE then goto s stateInString
  else error s.

Definition do_stateBeginStringOrEmpty (s : scanner) (c : ascii) : scanner :=
  if isSpace c then s
  else if Ascii.eqb c "}" then
    do_stateEndValue (setTop s parseObjectValue s.(step)) c
  else do_stateBeginString s c.

Definition do_stateInString (s : scanner) (c : ascii) : scanner :=
  if Ascii.eqb c DQUOTE then goto s stateEndValue
  else if Ascii.eqb c BACKSLASH then goto s stateInStringEsc
  else if N.ltb (N_of_ascii c) 32 then error s
  else s.

Definition do_stateInStringEsc (s : scanner) (c : ascii) : scanner :=
  if Ascii.eqb c "b" || Ascii.eqb c "f" || Ascii.eqb c "n"
     || Ascii.eqb c "r" || Ascii.eqb c "t" || Ascii.eqb c BACKSLASH
     || Ascii.eqb c "/" || Ascii.eqb c DQUOTE
  then goto s stateInString
  else if Ascii.eqb c "u" then goto s stateInStringEscU
  else error s.

Definition hexThen (next : stepFn) (s : scanner) (c : ascii) : scanner :=
  if isHex c then goto s next else error s.

Definition do_state0 (s : scanner) (c : ascii) : scanner :=
  if Ascii.eqb c "." then goto s stateDot
  else if Ascii.eqb c "e" || Ascii.eqb c "E" then goto s stateE
  else do_stateEndValue s c.

Definition do_state1 (s : scanner) (c : ascii) : scanner :=
  if isDigit c then goto s state1 else do_state0 s c.

Definition do_stateNeg (s : scanner) (c : ascii) : scanner :=
  if Ascii.eqb c "0" then goto s state0
  else if isDigit19 c then goto s state1
  else error s.

Definition do_stateDot (s : scanner) (c : ascii) : scanner :=
  if isDigit c then goto s stateDot0 else error s.

Definition do_stateDot0 (s : scanner) (c : ascii) : scanner :=
  if isDigit c then s
  else if Ascii.eqb c "e" || Ascii.eqb c "E" then goto s stateE
  else do_stateEndValue s c.

Definition do_stateESign (s : scanner) (c : ascii) : scanner :=
  if isDigit c then goto s stateE0 else error s.

Definition do_stateE (s : scanner) (c : ascii) : scanner :=
  if Ascii.eqb c "+" || Ascii.eqb c "-" then goto s stateESign
  else do_stateESign s c.

Definition do_stateE0 (s : scanner) (c : ascii) : scanner :=
  if isDigit c then s else do_stateEndValue s c.

(** One letter of [true], [false] or [null]. *)
Definition letterThen (l : ascii) (next : stepFn) (s : scanner) (c : ascii)
    : scanner :=
  if Ascii.eqb c l then goto s next else error s.

(** [s.step(s, c)]. *)
Definition scan (s : scanner) (c : ascii) : scanner :=
  match s.(step) with
  | stateBeginValueOrEmpty => do_stateBeginValueOrEmpty s c
  | stateBeginValue => do_stateBeginValue s c
  | stateBeginStringOrEmpty => do_stateBeginStringOrEmpty s c
  | stateBeginString => do_stateBeginString s c
  | stateEndValue => do_stateEndValue s c
  | stateEndTop => do_stateEndTop s c
  | stateInString => do_stateInString s c
  | stateInStringEsc => do_stateInStringEsc s c
  | stateInStringEscU => hexThen stateInStringEscU1 s c
  | stateInStringEscU1 => hexThen stateInStringEscU12 s c
  | stateInStringEscU12 => hexThen stateInStringEscU123 s c
  | stateInStringEscU123 => hexThen stateInString s c
  | stateNeg => do_stateNeg s c
  | state1 => do_state1 s c
  | state0 => do_state0 s c
  | stateDot => do_stateDot s c
  | stateDot0 => do_stateDot0 s c
  | stateE => do_stateE s c
  | stateESign => do_stateESign s c
  | stateE0 => do_stateE0 s c
  | stateT => letterThen "r" stateTr s c
  | stateTr => letterThen "u" stateTru s c
  | stateTru => letterThen "e" stateEndValue s c
  | stateF => letterThen "a" stateFa s c
  | stateFa => letterThen "l" stateFal s c
  | stateFal => letterThen "s" stateFals s c
  | stateFals => letterThen "e" stateEndValue s c
  | stateN => letterThen "u" stateNu s c
  | stateNu => letterThen "l" stateNul s c
  | stateNul => letterThen "l" stateEndValue s c
  | stateError => s
  end.

Definition hasErr (s : scanner) : bool :=
  match s.(step) with stateError => true | _ => false end.

(** [s.eof()]: true when the input was a complete value. *)
Definition eof (s : scanner) : bool :=
  if hasErr s then false
  else if s.(endTop) then true
  else (scan s " ").(endTop).

(** [checkValid(data, scan)]: true when it returns nil. *)
Definition checkValid (data : list ascii) : bool :=
  eof (fold_left scan data reset).

(** *** String literals *)

Definition hexVal (c : ascii) : N :=
  let n := N_of_ascii c in
  if isDigit c then (n - 48)%N
  else if N.leb 97 n then (n - 87)%N
  else (n - 55)%N.

(** [getu4(s)]: the rune of a leading [\uXXXX], if [s] starts with one. *)
Definition getu4 (s : list ascii) : option N :=
  match s with
  | b :: u :: h1 :: h2 :: h3 :: h4 :: _ =>
      if Ascii.eqb b BACKSLASH && Ascii.eqb u "u"
         && isHex h1 && isHex h2 && isHex h3 && isHex h4
      then Some (hexVal h1 * 4096 + hexVal h2 * 256
                 + hexVal h3 * 16 + hexVal h4)%N
      else None
  | _ => None
  end.

(** The byte a one-letter escape stands for. *)
Definition escaped (e : ascii) : option ascii :=
  if Ascii.eqb e DQUOTE || Ascii.eqb e BACKSLASH || Ascii.eqb e "/"
     || Ascii.eqb e "'" then Some e
  else if Ascii.eqb e "b" then Some BS
  else if Ascii.eqb e "f" then Some FF
  else if Ascii.eqb e "n" then Some LF
  else if Ascii.eqb e "r" then Some CR
  else if Ascii.eqb e "t" then Some TAB
  else None.

Definition prepend (l : list ascii) (o : option (list ascii))
    : option (list ascii) :=
  match o with
  | Some r => Some (l ++ r)
  | None => None
  end.

(** The loop of [unquoteBytes] over the bytes between the quotes of a
    literal.  [skip] counts the bytes of the escape or of the UTF-8
    sequence at hand that are still to be passed over. *)
Fixpoint unquoteFrom (skip : nat) (s : list ascii)
    : option (list ascii) :=
  match s with
  | [] => Some []
  | c :: s' =>
      match skip with
      | S k => unquoteFrom k s'
      | O =>
          if Ascii.eqb c BACKSLASH then
            match s' with
            | [] => None
            | e :: _ =>
                if Ascii.eqb e "u" then
                  match getu4 s with
                  | None => None
                  | Some rr =>
                      if Utf8.IsSurrogate rr then
                        let dec :=
                          Utf8.DecodeSurrogates rr (getu4 (skipn 6 s)) in
                        if N.eqb dec Utf8.RuneError
                        then prepend (Utf8.EncodeRune Utf8.RuneError)
                                     (unquoteFrom 5 s')
                        else prepend (Utf8.EncodeRune dec)
                                     (unquoteFrom 11 s')
                      else prepend (Utf8.EncodeRune rr) (unquoteFrom 5 s')
                  end
                else
                  match escaped e with
                  | Some b => prepend [b] (unquoteFrom 1 s')
                  | None => None
                  end
            end
          else if Ascii.eqb c DQUOTE || N.ltb (N_of_ascii c) 32 then None
          else if N.ltb (N_of_ascii c) 128 then
            prepend [c] (unquoteFrom 0 s')
          else
            let (rr, size) := Utf8.DecodeRune s in
            prepend (Utf8.EncodeRune rr) (unquoteFrom (size - 1) s')
      end
  end.

Definition unquote (s : list ascii) : option (list ascii) :=
  unquoteFrom 0 s.

(** *** Values *)

#[local] Unset Elimination Schemes.
Inductive value : Type :=
| Null
| Bool (b : bool)
| Number (lit : list ascii)
| Str (s : list ascii)
| Array (elems : list value)
| Object (members : list (list ascii * value)).
#[local] Set Elimination Schemes.

Fixpoint skipSpace (s : list ascii) : list ascii :=
  match s with
  | c :: s' => if isSpace c then skipSpace s' else s
  | [] => []
  end.

(** After an opening quote: the bytes up to the closing one, and what
    follows it. *)
Fixpoint stringLit (s : list ascii)
    : option (list ascii * list ascii) :=
  match s with
  | [] => None
  | c :: s' =>
      if Ascii.eqb c DQUOTE then Some ([], s')
      else if Ascii.eqb c BACKSLASH then
        match s' with
        | [] => None
        | e :: s'' =>
            match stringLit s'' with
            | Some (raw, rest) => Some (c :: e :: raw, rest)
            | None => None
            end
        end
      else
        match stringLit s' with
        | Some (raw, rest) => Some (c :: raw, rest)
        | None => None
        end
  end.

Definition isNumberByte (c : ascii) : bool :=
  isDigit c || Ascii.eqb c "-" || Ascii.eqb c "+" || Ascii.eqb c "."
  || Ascii.eqb c "e" || Ascii.eqb c "E".

(** The bytes of a number literal, and what follows it. *)
Fixpoint numberLit (s : list ascii) : list ascii * list ascii :=
  match s with
  | c :: s' =>
      if isNumberByte c
      then let (lit, rest) := numberLit s' in (c :: lit, rest)
      else ([], s)
  | [] => ([], [])
  end.

Fixpoint stripPrefix (p s : list ascii) : option (list ascii) :=
  match p, s with
  | [], _ => Some s
  | x :: p', c :: s' => if Ascii.eqb x c then stripPrefix p' s' else None
  | _ :: _, [] => None
  end.

Definition stringValue (s : list ascii) : option (value * list ascii) :=
  match stringLit s with
  | Some (raw, rest) =>
      match unquote raw with
      | Some str => Some (Str str, rest)
      | None => None
      end
  | None => None
  end.

Definition scalar (c : ascii) (s : list ascii)
    : option (value * list ascii) :=
  if Ascii.eqb c DQUOTE then stringValue (tl s)
  else if Ascii.eqb c "t" then
    option_map (pair (Bool true))
               (stripPrefix (list_ascii_of_string "true") s)
  else if Ascii.eqb c "f" then
    option_map (pair (Bool false))
               (stripPrefix (list_ascii_of_string "false") s)
  else if Ascii.eqb c "n" then
    option_map (pair Null) (stripPrefix (list_ascii_of_string "null") s)
  else if isNumberByte c then
    let (lit, rest) := numberLit s in Some (Number lit, rest)
  else None.

(** The value at the head of data that [checkValid] has accepted, and
    what follows it.  Each call spends one unit of [fuel] and a nested
    call comes after at least one byte, so the length of the data, plus
    one, is enough. *)
Fixpoint parseValue (fuel : nat) (s : list ascii) {struct fuel}
    : option (value * list ascii) :=
  match fuel with
  | O => None
  | S fuel' =>
      match skipSpace s with
      | [] => None
      | c :: r =>
          if Ascii.eqb c "{" then
            match skipSpace r with
            | [] => None
            | c1 :: r1 =>
                if Ascii.eqb c1 "}" then Some (Object [], r1)
                else
                  match parseMembers fuel' r with
                  | Some (ms, rest) => Some (Object ms, rest)
                  | None => None
                  end
            end
          else if Ascii.eqb c "[" then
            match skipSpace r with
            | [] => None
            | c1 :: r1 =>
                if Ascii.eqb c1 "]" then Some (Array [], r1)
                else
                  match parseElements fuel' r with
                  | Some (vs, rest) => Some (Array vs, rest)
                  | None => None
                  end
            end
          else scalar c (c :: r)
      end
  end

with parseMembers (fuel : nat) (s : list ascii) {struct fuel}
    : option (list (list ascii * value) * list ascii) :=
  match fuel with
  | O => None
  | S fuel' =>
      match skipSpace s with
      | [] => None
      | q :: r =>
          if negb (Ascii.eqb q DQUOTE) then None
          else
            match stringValue r with
            | Some (Str key, r1) =>
                match skipSpace r1 with
                | [] => None
                | colon :: r2 =>
                    if negb (Ascii.eqb colon ":") then None
                    else
                      match parseValue fuel' r2 with
                      | None => None
                      | Some (v, r3) =>
                          match skipSpace r3 with
                          | [] => None
                          | sep :: r4 =>
                              if Ascii.eqb sep "}"
                              then Some ([(key, v)], r4)
                              else if Ascii.eqb sep "," then
                                match parseMembers fuel' r4 with
                                | Some (ms, rest) =>
                                    Some ((key, v) :: ms, rest)
                                | None => None
                                end
                              else None
                          end
                      end
                end
            | _ => None
            end
      end
  end

with parseElements (fuel : nat) (s : list ascii) {struct fuel}
    : option (list value * list ascii) :=
  match fuel with
  | O => None
  | S fuel' =>
      match parseValue fuel' s with
      | None => None
      | Some (v, r1) =>
          match skipSpace r1 with
          | [] => None
          | sep :: r2 =>
              if Ascii.eqb sep "]" then Some ([v], r2)
              else if Ascii.eqb sep "," then
                match parseElements fuel' r2 with
                | Some (vs, rest) => Some (v :: vs, rest)
                | None => None
                end
              else None
          end
      end
  end.

(** *** Decoding into a struct of string fields *)

Inductive json_error : Type :=
| SyntaxError
| UnmarshalTypeError (Value : string).

(** The Go struct being filled: its fields, by JSON name, with their
    current values. *)
Definition strukt := list (string * string).

Definition clearCase (c : ascii) : N := N.land (N_of_ascii c) 223.

(** [simpleLetterEqualFold], the folding [foldFunc] selects for a field
    name made of ASCII letters other than K and S: bytes are compared
    with the case bit cleared. *)
Fixpoint simpleLetterEqualFold (s t : list ascii) : bool :=
  match s, t with
  | [], [] => true
  | b :: s', c :: t' =>
      N.eqb (clearCase b) (clearCase c) && simpleLetterEqualFold s' t'
  | _, _ => false
  end.

Fixpoint bytesEqual (s t : list ascii) : bool :=
  match s, t with
  | [], [] => true
  | b :: s', c :: t' => Ascii.eqb b c && bytesEqual s' t'
  | _, _ => false
  end.

(** The field an object key selects: the one of that very name, else the
    first whose name folds to it. *)
Definition findField (fields : strukt) (key : list ascii)
    : option string :=
  let names := map fst fields in
  match find (fun n => bytesEqual (list_ascii_of_string n) key) names with
  | Some n => Some n
  | None =>
      find (fun n => simpleLetterEqualFold (list_ascii_of_string n) key)
           names
  end.

Fixpoint setField (name val : string) (fields : strukt) : strukt :=
  match fields with
  | [] => []
  | (n, v) :: rest =>
      if String.eqb n name then (n, val) :: rest
      else (n, v) :: setField name val rest
  end.

Definition getField (name : string) (fields : strukt) : string :=
  match find (fun nv => String.eqb (fst nv) name) fields with
  | Some (_, v) => v
  | None => ""
  end.

Definition kindOf (v : value) : string :=
  match v with
  | Null => "null"
  | Bool _ => "bool"
  | Number _ => "number"
  | Str _ => "string"
  | Array _ => "array"
  | Object _ => "object"
  end.

(** [d.saveError]: the first error is the one reported. *)
Definition saveError (saved : option json_error) (e : json_error)
    : option json_error :=
  match saved with
  | Some _ => saved
  | None => Some e
  end.

(** [d.object] on a struct whose fields are strings: a string is stored,
    null leaves the field alone, any other value is a type error; a key
    that selects no field is passed over with its value. *)
Fixpoint decodeMembers (members : list (list ascii * value))
    (st : strukt) (saved : option json_error)
    : strukt * option json_error :=
  match members with
  | [] => (st, saved)
  | (key, v) :: rest =>
      match findField st key with
      | None => decodeMembers rest st saved
      | Some name =>
          match v with
          | Str s =>
              decodeMembers rest
                (setField name (string_of_list_ascii s) st) saved
          | Null => decodeMembers rest st saved
          | _ =>
              decodeMembers rest st
                (saveError saved (UnmarshalTypeError (kindOf v)))
          end
      end
  end.

(** [d.value] on a struct. *)
Definition decode (v : value) (st : strukt) : strukt * option json_error :=
  match v with
  | Object members => decodeMembers members st None
  | Null => (st, None)
  | _ => (st, Some (UnmarshalTypeError (kindOf v)))
  end.

(** [json.Unmarshal(data, &st)]: the syntax is checked first, and only
    then is the value decoded. *)
Definition Unmarshal (data : list ascii) (st : strukt)
    : strukt * option json_error :=
  if checkValid data then
    match parseValue (S (List.length data)) data with
    | Some (v, _) => decode v st
    | None => (st, Some SyntaxError)
    end
  else (st, Some SyntaxError).

End Json.

(* ===================================================================== *)
(** ** The Jib project detector *)
(* ===================================================================== *)

Module Jib.

(** [PluginType] and its two constants are declared in another file of
    the package. *)
Inductive PluginType : Type :=
| JibMaven
| JibGradle.

(** Jib holds information about a Jib project. *)
Record Jib := {
  BuilderName : string;
  Image : string;
  FilePath : string;
  Project : string
}.

(** [exec.Cmd], as far as the detector fills it in. *)
Record Cmd := {
  Args : list string;
  Dir : string
}.

Inductive Event : Type :=
| ReadFile (path : string)
| AbsFile (dir name : string)
| RunCmdOut (cmd : Cmd)
| Warnf (format : string) (err : Json.json_error).

Definition M (A : Type) : Type := (list Event * A)%type.

Definition ret {A} (a : A) : M A := ([], a).
Definition bind {A B} (m : M A) (f : A -> M B) : M B :=
  let (t, a) := m in let (t', r) := f a in (t ++ t', r).
Definition emit (e : Event) : M unit := ([e], tt).

Notation "x <- m ;; k" := (bind m (fun x => k))
  (at level 61, m at next level, right associativity).
Notation "m ;;; k" := (bind m (fun _ => k))
  (at level 61, right associativity).

(** What the file system and the build tool answer. *)
Record World := {
  ioutil_ReadFile : string -> result string;
  filepath_Dir : string -> string;
  util_AbsFile : string -> string -> result string;
  util_RunCmdOut : Cmd -> result (list ascii)
}.

(** What the [switch] of lines 96-111 fixes for a build-tool family. *)
Record family := {
  builderType : PluginType;
  executable : string;
  wrapper : string;
  searchString : string;
  taskName : string
}.

Definition classify (path : string) : option family :=
  if Strings.HasSuffix path "pom.xml" then
    Some {| builderType := JibMaven;
            executable := "mvn";
            wrapper := "mvnw";
            searchString := "<artifactId>jib-maven-plugin</artifactId>";
            taskName := "jib:_skaffold-init" |}
  else if Strings.HasSuffix path "build.gradle"
          || Strings.HasSuffix path "build.gradle.kts" then
    Some {| builderType := JibGradle;
            executable := "gradle";
            wrapper := "gradlew";
            searchString := "com.google.cloud.tools.jib";
            taskName := "_jibSkaffoldInit" |}
  else None.

(** The pattern [BEGIN JIB JSON\r?\n({.*})]. *)
Definition jibPattern : Regexp.re :=
  Regexp.lits "BEGIN JIB JSON"
    (Regexp.Seq (Regexp.Quest (Regexp.Lit CR))
       (Regexp.Seq (Regexp.Lit LF)
          (Regexp.Group 1
             (Regexp.Seq (Regexp.Lit "{")
                (Regexp.Seq (Regexp.Star Regexp.AnyNotNL)
                   (Regexp.Lit "}")))))).

(** The zero value of [jibJSON], fields by their JSON names. *)
Definition jibJSON : Json.strukt := [("image", ""); ("project", "")].

(** Line 138: escape windows path separators. *)
Definition escapeSeparators (m : list ascii) : list ascii :=
  Bytes.Replace m [BACKSLASH] [BACKSLASH; BACKSLASH].

(** Lines 118-123: the command that runs the init task, with the
    wrapper script of the project's directory if there is one. *)
Definition initCommand (w : World) (f : family) (path : string) : Cmd :=
  let dir := w.(filepath_Dir) path in
  let executable :=
    match w.(util_AbsFile) dir f.(wrapper) with
    | Ok wrapperExecutable => wrapperExecutable
    | Err _ => f.(executable)
    end in
  {| Args := [executable; f.(taskName); "-q"]; Dir := dir |}.

Section Detector.

(** [PluginName] is declared in another file of the package. *)
Variable PluginName : PluginType -> string.

Variable w : World.

(** The loop of lines 136-146 from the match at hand onwards: [None]
    when a match fails to parse, in which case the function returns
    nil whatever was parsed before. *)
Fixpoint parseMatches (builderType : PluginType) (path : string)
    (matches : list Regexp.submatches) : M (option (list Jib)) :=
  match matches with
  | [] => ret (Some [])
  | match_ :: rest =>
      let line := escapeSeparators (nth 1 match_ []) in
      match Json.Unmarshal line jibJSON with
      | (_, Some err) =>
          emit (Warnf "failed to parse jib json: %s" err) ;;; ret None
      | (parsedJSON, None) =>
          let j := {| BuilderName := PluginName builderType;
                      Image := Json.getField "image" parsedJSON;
                      FilePath := path;
                      Project := Json.getField "project" parsedJSON |} in
          results <- parseMatches builderType path rest ;;
          ret (option_map (cons j) results)
      end
  end.

(** [ValidateJibConfig]; a nil slice is the empty list. *)
Definition ValidateJibConfig (path : string) : M (list Jib) :=
  match classify path with
  | None => ret []
  | Some f =>
      emit (ReadFile path) ;;;
      match w.(ioutil_ReadFile) path with
      | Err _ => ret []
      | Ok content =>
          if negb (Strings.Contains content f.(searchString)) then ret []
          else
            emit (AbsFile (w.(filepath_Dir) path) f.(wrapper)) ;;;
            let cmd := initCommand w f path in
            emit (RunCmdOut cmd) ;;;
            match w.(util_RunCmdOut) cmd with
            | Err _ => ret []
            | Ok stdout =>
                let matches :=
                  Regexp.FindAllSubmatch jibPattern stdout in
                match matches with
                | [] => ret []
                | _ :: _ =>
                    results <- parseMatches f.(builderType) path matches ;;
                    match results with
                    | Some results => ret results
                    | None => ret []
                    end
                end
            end
      end
  end.

End Detector.

End Jib.

(* ===================================================================== *)
(** ** Where the bytes of a text lie with respect to its string literals *)
(* ===================================================================== *)

Module Lex.

(** Outside any literal, inside one, or inside one right after a
    backslash. *)
Inductive position : Type :=
| Outside
| Inside
| Escaped.

(** One byte further; a backslash outside a literal has no place in a
    JSON text. *)
Definition advance (p : position) (c : ascii) : option position :=
  match p with
  | Outside =>
      if Ascii.eqb c DQUOTE then Some Inside
      else if Ascii.eqb c BACKSLASH then None
      else Some Outside
  | Inside =>
      if Ascii.eqb c DQUOTE then Some Outside
      else if Ascii.eqb c BACKSLASH then Some Escaped
      else Some Inside
  | Escaped => Some Inside
  end.

Fixpoint run (p : position) (s : list ascii) : option position :=
  match s with
  | [] => Some p
  | c :: s' =>
      match advance p c with
      | Some p' => run p' s'
      | None => None
      end
  end.

(** Some double quote of [s] comes right after the backslash that
    escapes it. *)
Fixpoint escapedQuoteFrom (p : position) (s : list ascii) : bool :=
  match s with
  | [] => false
  | c :: s' =>
      match p with
      | Escaped => Ascii.eqb c DQUOTE
      | _ => false
      end
      || match advance p c with
         | Some p' => escapedQuoteFrom p' s'
         | None => false
         end
  end.

(** The text holds the escape sequence of a double quote. *)
Definition hasEscapedQuote (s : list ascii) : bool :=
  escapedQuoteFrom Outside s.

(** What line 138 does to one byte. *)
Definition double (c : ascii) : list ascii :=
  if Ascii.eqb c BACKSLASH then [BACKSLASH; BACKSLASH] else [c].

(** The position the scanner of [encoding/json] is at. *)
Definition positionOf (f : Json.stepFn) : position :=
  match f with
  | Json.stateInString
  | Json.stateInStringEscU | Json.stateInStringEscU1
  | Json.stateInStringEscU12 | Json.stateInStringEscU123 => Inside
  | Json.stateInStringEsc => Escaped
  | _ => Outside
  end.

(** Once the top-level value is complete, only white space may follow:
    the scanner is at [stateEndTop], or at [stateError]. *)
Definition settled (s : Json.scanner) : Prop :=
  Json.endTop s = true ->
  Json.step s = Json.stateEndTop \/ Json.step s = Json.stateError.

(** The scanner is reading an escape sequence. *)
Definition inEscape (f : Json.stepFn) : bool :=
  match f with
  | Json.stateInStringEsc
  | Json.stateInStringEscU | Json.stateInStringEscU1
  | Json.stateInStringEscU12 | Json.stateInStringEscU123 => true
  | _ => false
  end.

(** The scanner of the escaped text, seen from the scanner of the text:
    inside the literal while the latter reads an escape, the same
    otherwise. *)
Definition shadow (s : Json.scanner) : Json.scanner :=
  if inEscape (Json.step s) then Json.goto s Json.stateInString else s.

End Lex.

(* ===================================================================== *)
(** ** Concrete inputs, for runs of the models *)
(* ===================================================================== *)

(** A cluster on which every call goes through. *)
Definition kanikoHappy : Kaniko.World :=
  {| Kaniko.setupSecret := None;
     Kaniko.sourceSetup := fun _ => Ok "gs://bucket/context.tar.gz";
     Kaniko.getClientset := None;
     Kaniko.podsCreate := fun _ => Ok "kaniko-x7f2q";
     Kaniko.podsDelete := fun _ => None;
     Kaniko.modifyPod := fun _ => None;
     Kaniko.waitForPodComplete := fun _ => None;
     Kaniko.fullRemoteReference :=
       fun fqn => (fqn +++ "@sha256:0a1b", None) |}.

(** The same cluster with one call failing. *)
Definition kanikoSecretFails : Kaniko.World :=
  {| Kaniko.setupSecret := Some (New "forbidden");
     Kaniko.sourceSetup := Kaniko.sourceSetup kanikoHappy;
     Kaniko.getClientset := None;
     Kaniko.podsCreate := Kaniko.podsCreate kanikoHappy;
     Kaniko.podsDelete := fun _ => None;
     Kaniko.modifyPod := fun _ => None;
     Kaniko.waitForPodComplete := fun _ => None;
     Kaniko.fullRemoteReference := Kaniko.fullRemoteReference kanikoHappy |}.

Definition kanikoContextFails : Kaniko.World :=
  {| Kaniko.setupSecret := None;
     Kaniko.sourceSetup := fun _ => Err (New "bucket not found");
     Kaniko.getClientset := None;
     Kaniko.podsCreate := Kaniko.podsCreate kanikoHappy;
     Kaniko.podsDelete := fun _ => None;
     Kaniko.modifyPod := fun _ => None;
     Kaniko.waitForPodComplete := fun _ => None;
     Kaniko.fullRemoteReference := Kaniko.fullRemoteReference kanikoHappy |}.

Definition kanikoCreateFails : Kaniko.World :=
  {| Kaniko.setupSecret := None;
     Kaniko.sourceSetup := Kaniko.sourceSetup kanikoHappy;
     Kaniko.getClientset := None;
     Kaniko.podsCreate := fun _ => Err (New "quota exceeded");
     Kaniko.podsDelete := fun _ => None;
     Kaniko.modifyPod := fun _ => None;
     Kaniko.waitForPodComplete := fun _ => None;
     Kaniko.fullRemoteReference := Kaniko.fullRemoteReference kanikoHappy |}.

Definition kanikoModifyFails : Kaniko.World :=
  {| Kaniko.setupSecret := None;
     Kaniko.sourceSetup := Kaniko.sourceSetup kanikoHappy;
     Kaniko.getClientset := None;
     Kaniko.podsCreate := Kaniko.podsCreate kanikoHappy;
     Kaniko.podsDelete := fun _ => None;
     Kaniko.modifyPod := fun _ => Some (New "copy failed");
     Kaniko.waitForPodComplete := fun _ => None;
     Kaniko.fullRemoteReference := Kaniko.fullRemoteReference kanikoHappy |}.

Definition kanikoWaitFails : Kaniko.World :=
  {| Kaniko.setupSecret := None;
     Kaniko.sourceSetup := Kaniko.sourceSetup kanikoHappy;
     Kaniko.getClientset := None;
     Kaniko.podsCreate := Kaniko.podsCreate kanikoHappy;
     Kaniko.podsDelete := fun _ => None;
     Kaniko.modifyPod := fun _ => None;
     Kaniko.waitForPodComplete := fun _ => Some (New "timed out");
     Kaniko.fullRemoteReference := Kaniko.fullRemoteReference kanikoHappy |}.

Definition kanikoDeleteFails : Kaniko.World :=
  {| Kaniko.setupSecret := None;
     Kaniko.sourceSetup := Kaniko.sourceSetup kanikoHappy;
     Kaniko.getClientset := None;
     Kaniko.podsCreate := Kaniko.podsCreate kanikoHappy;
     Kaniko.podsDelete := fun _ => Some (New "connection refused");
     Kaniko.modifyPod := fun _ => None;
     Kaniko.waitForPodComplete := fun _ => None;
     Kaniko.fullRemoteReference := Kaniko.fullRemoteReference kanikoHappy |}.

Definition kanikoBuilder : Kaniko.Builder :=
  {| Kaniko.AdditionalFlags := ["--insecure"];
     Kaniko.Cache := Some {| Repo := "gcr.io/p/cache" |};
     Kaniko.Namespace := "default" |}.

Definition appDockerfile : latest_DockerArtifact :=
  {| DockerfilePath := "Dockerfile"; BuildArgs := [("VERSION", Some "1")] |}.

Definition dockerArtifact : latest_Artifact :=
  {| ImageName := "gcr.io/p/app";
     Workspace := ".";
     ArtifactType :=
       {| DockerArtifact := Some appDockerfile;
          BazelArtifact := None;
          JibMavenArtifact := None;
          JibGradleArtifact := None |} |}.

(** A stand-in for [docker.GetBuildArgs]. *)
Definition someBuildArgs (_ : latest_DockerArtifact) : list string :=
  ["--build-arg"; "VERSION=1"].

(** A stand-in for [build.InParallel]: the artifacts one after the other,
    the first error ending the run. *)
Fixpoint inOrder (artifacts : list latest_Artifact)
    (f : latest_Artifact -> string -> Kaniko.M (string * option error))
    : Kaniko.M (list (string * string) * option error) :=
  match artifacts with
  | [] => Kaniko.ret ([], None)
  | a :: rest =>
      Kaniko.bind (f a (ImageName a +++ ":latest"))
        (fun r =>
           match r with
           | (_, Some err) => Kaniko.ret ([], Some err)
           | (tag, None) =>
               Kaniko.bind (inOrder rest f)
                 (fun rs => Kaniko.ret ((ImageName a, tag) :: fst rs, snd rs))
           end)
  end.

(** A host whose docker daemon and CLI answer every call. *)
Definition localHappy : Local.World :=
  {| Local.normalizeDockerfilePath := fun ws path => Ok (ws +++ "/" +++ path);
     Local.os_Environ := ["HOME=/root"];
     Local.util_RunCmd := fun _ => None;
     Local.localDocker_Build := fun _ _ _ => Ok "sha256:1d2e";
     Local.localDocker_Push := fun _ => Ok "sha256:9f8e" |}.

Definition pushingBuilder : Local.Builder :=
  {| Local.cfg := {| Local.UseDockerCLI := false;
                     Local.UseBuildkit := false |};
     Local.pushImages := true;
     Local.localCluster := false;
     Local.kubeContext := "gke" |}.

Definition taggingBuilder : Local.Builder :=
  {| Local.cfg := {| Local.UseDockerCLI := true;
                     Local.UseBuildkit := true |};
     Local.pushImages := false;
     Local.localCluster := true;
     Local.kubeContext := "minikube" |}.

(** Stand-ins for the backends declared outside the unit: each answers
    with a reference that names it. *)
Definition bazelStub (_ : Local.Builder) (_ : string)
    (a : latest_BazelArtifact) (fqn : string)
    : Local.M (string * option error) :=
  ([], ("bazel:" +++ BuildTarget a +++ ":" +++ fqn, None)).

Definition jibMavenStub (_ : Local.Builder) (_ : string)
    (a : latest_JibMavenArtifact) (fqn : string)
    : Local.M (string * option error) :=
  ([], ("maven:" +++ Module_ a +++ ":" +++ fqn, None)).

Definition jibGradleStub (_ : Local.Builder) (_ : string)
    (a : latest_JibGradleArtifact) (fqn : string)
    : Local.M (string * option error) :=
  ([], ("gradle:" +++ Project a +++ ":" +++ fqn, None)).

Definition showType (_ : latest_ArtifactType) : string :=
  "{DockerArtifact:<nil> BazelArtifact:<nil> JibMavenArtifact:<nil> JibGradleArtifact:<nil>}".

Definition untypedArtifact : latest_Artifact :=
  {| ImageName := "gcr.io/p/none";
     Workspace := ".";
     ArtifactType :=
       {| DockerArtifact := None;
          BazelArtifact := None;
          JibMavenArtifact := None;
          JibGradleArtifact := None |} |}.

Definition bazelArtifact : latest_Artifact :=
  {| ImageName := "gcr.io/p/bz";
     Workspace := "svc";
     ArtifactType :=
       {| DockerArtifact := None;
          BazelArtifact := Some {| BuildTarget := "//:app.tar" |};
          JibMavenArtifact := None;
          JibGradleArtifact := None |} |}.

Definition mavenArtifact : latest_Artifact :=
  {| ImageName := "gcr.io/p/mvn";
     Workspace := "svc";
     ArtifactType :=
       {| DockerArtifact := None;
          BazelArtifact := None;
          JibMavenArtifact := Some {| Module_ := "web"; Profile := "" |};
          JibGradleArtifact := None |} |}.

Definition gradleArtifact : latest_Artifact :=
  {| ImageName := "gcr.io/p/gr";
     Workspace := "svc";
     ArtifactType :=
       {| DockerArtifact := None;
          BazelArtifact := None;
          JibMavenArtifact := None;
          JibGradleArtifact := Some {| Project := ":web" |} |} |}.

(** The bytes of a literal. *)
Definition bytes (s : string) : list ascii := list_ascii_of_string s.

(** The bytes of a literal in which an apostrophe stands for a double
    quote: [quoted "{'image':'a'}"] is the JSON text of an object with
    the key [image]. *)
Definition quoted (s : string) : list ascii :=
  map (fun c => if Ascii.eqb c "'" then DQUOTE else c)
      (list_ascii_of_string s).

(** The output of the init task for a project of two modules. *)
Definition twoModules : list ascii :=
  bytes "BEGIN JIB JSON" ++ [LF]
  ++ quoted "{'image':'a','project':'p1'}" ++ [LF]
  ++ bytes "BEGIN JIB JSON" ++ [LF]
  ++ quoted "{'image':'b','project':'p2'}" ++ [LF].

(** The same two blocks as a Windows build prints them, between other
    lines of output. *)
Definition twoModulesCRLF : list ascii :=
  bytes "> Task :a:_jibSkaffoldInit" ++ [CR; LF]
  ++ bytes "BEGIN JIB JSON" ++ [CR; LF]
  ++ quoted "{'image':'a','project':'p1'}" ++ [CR; LF]
  ++ bytes "> Task :b:_jibSkaffoldInit" ++ [CR; LF]
  ++ bytes "BEGIN JIB JSON" ++ [CR; LF]
  ++ quoted "{'image':'b','project':'p2'}" ++ [CR; LF].

(** A first block that parses and a second one that does not. *)
Definition secondBlockBroken : list ascii :=
  bytes "BEGIN JIB JSON" ++ [LF]
  ++ quoted "{'image':'a','project':'p1'}" ++ [LF]
  ++ bytes "BEGIN JIB JSON" ++ [LF]
  ++ quoted "{'image':'b','project':}" ++ [LF].

(** A payload whose image name holds the escape of a backslash, and the
    output that carries it. *)
Definition backslashPayload : list ascii :=
  quoted "{'image':'a\\b','project':'p'}".

Definition backslashOutput : list ascii :=
  bytes "BEGIN JIB JSON" ++ [LF] ++ backslashPayload ++ [LF].

(** A payload whose image name holds the escape of a double quote. *)
Definition quotePayload : list ascii :=
  quoted "{'image':'a\'b','project':'p'}".

Definition quoteOutput : list ascii :=
  bytes "BEGIN JIB JSON" ++ [LF] ++ quotePayload ++ [LF].

(** A Maven project whose [pom.xml] names the Jib plugin and whose init
    task prints [stdout]; there is no wrapper script. *)
Definition mavenProject (stdout : list ascii) : Jib.World :=
  {| Jib.ioutil_ReadFile :=
       fun _ => Ok "<plugin><artifactId>jib-maven-plugin</artifactId></plugin>";
     Jib.filepath_Dir := fun _ => "svc";
     Jib.util_AbsFile := fun _ _ => Err (New "no such file");
     Jib.util_RunCmdOut := fun _ => Ok stdout |}.

(** A Maven project that does not use Jib. *)
Definition plainMavenProject : Jib.World :=
  {| Jib.ioutil_ReadFile := fun _ => Ok "<project></project>";
     Jib.filepath_Dir := fun _ => "svc";
     Jib.util_AbsFile := fun _ _ => Err (New "no such file");
     Jib.util_RunCmdOut := fun _ => Ok twoModules |}.

Definition mavenFamily : Jib.family :=
  {| Jib.builderType := Jib.JibMaven;
     Jib.executable := "mvn";
     Jib.wrapper := "mvnw";
     Jib.searchString := "<artifactId>jib-maven-plugin</artifactId>";
     Jib.taskName := "jib:_skaffold-init" |}.

(** A stand-in for [PluginName]. *)
Definition pluginName (t : Jib.PluginType) : string :=
  match t with
  | Jib.JibMaven => "Jib Maven Plugin"
  | Jib.JibGradle => "Jib Gradle Plugin"
  end.


(* ===================================================================== *)
(** ** What the detector makes of a marker block *)
(* ===================================================================== *)

(** The result a marker block contributes when it unmarshals: the name of
    the plugin, the path that was probed and the two fields of the
    payload. *)
Definition resultOf (PluginName : Jib.PluginType -> string)
    (t : Jib.PluginType) (path : string)
    (m : Regexp.submatches) (j : Jib.Jib) : Prop :=
  exists parsed,
    Json.Unmarshal (Jib.escapeSeparators (nth 1 m [])) Jib.jibJSON
    = (parsed, None)
    /\ j = {| Jib.BuilderName := PluginName t;
              Jib.Image := Json.getField "image" parsed;
              Jib.FilePath := path;
              Jib.Project := Json.getField "project" parsed |}.

(* ===================================================================== *)
(** ** The build context of a Docker artifact, as a tar stream *)
(* ===================================================================== *)

Module DockerContext.

Inductive Event : Type :=
| GetDependencies (workspace dockerfilePath : string)
    (buildArgs : list (string * option string))
| CreateTar (root : string) (paths : list string).

(** What the dependency resolver, [filepath.Join] and [util.CreateTar]
    answer. *)
Record World := {
  getDependencies :
    string -> string -> list (string * option string) ->
    result (list string);
  filepath_Join : string -> string -> string;
  util_CreateTar : string -> list string -> option error
}.

(** The loop of lines 36-39: [p] grows by one joined path per dependency. *)
Definition absolutePaths (w : World) (workspace : string)
    (paths : list string) : list string :=
  fold_left (fun p path => p ++ [w.(filepath_Join) workspace path])
            paths [].

(** [CreateDockerTarContext]: the calls it makes and the error it
    returns. *)
Definition CreateDockerTarContext (w : World) (workspace : string)
    (a : latest_DockerArtifact) : list Event * option error :=
  match w.(getDependencies) workspace a.(DockerfilePath) a.(BuildArgs) with
  | Err err =>
      ([GetDependencies workspace a.(DockerfilePath) a.(BuildArgs)],
       Wrap (Some err) "getting relative tar paths")
  | Ok paths =>
      let p := absolutePaths w workspace paths in
      ([GetDependencies workspace a.(DockerfilePath) a.(BuildArgs);
        CreateTar workspace p],
       match w.(util_CreateTar) workspace p with
       | Some err => Wrap (Some err) "creating tar gz"
       | None => None
       end)
  end.

End DockerContext.

(* ===================================================================== *)
(** ** The methods of a detected Jib project *)
(* ===================================================================== *)

Module JibBuilder.

Section Methods.

(** The file is compiled against a schema whose [ArtifactType] has a
    [JibArtifact] variant; [jibArtifactType project] is the literal
    [latest.ArtifactType{JibArtifact: &latest.JibArtifact{Project: project}}]
    of lines 63-67.  [filepath.Dir] is the library's. *)
Variable ArtifactTypeOf : Type.
Variable jibArtifactType : string -> ArtifactTypeOf.
Variable filepath_Dir : string -> string.

Record Artifact := {
  ImageName : string;
  Workspace : string;
  ArtifactType : ArtifactTypeOf
}.

(** Name returns the name of the builder. *)
Definition Name (j : Jib.Jib) : string := Jib.BuilderName j.

(** Describe returns the initBuilder's string representation. *)
Definition Describe (j : Jib.Jib) : string :=
  if negb (String.eqb (Jib.Project j) "") then
    Jib.BuilderName j +++ " (" +++ Jib.Project j +++ ", "
    +++ Jib.FilePath j +++ ")"
  else Jib.BuilderName j +++ " (" +++ Jib.FilePath j +++ ")".

(** UpdateArtifact, on the artifact it is given a pointer to: the
    artifact after the call. *)
Definition UpdateArtifact (j : Jib.Jib) (a : Artifact) : Artifact :=
  let workspace := filepath_Dir (Jib.FilePath j) in
  {| ImageName := a.(ImageName);
     Workspace := if negb (String.eqb workspace ".") then workspace
                  else a.(Workspace);
     ArtifactType := jibArtifactType (Jib.Project j) |}.

(** ConfiguredImage returns the target image configured by the builder. *)
Definition ConfiguredImage (j : Jib.Jib) : string := Jib.Image j.

(** Path returns the path to the build definition. *)
Definition Path (j : Jib.Jib) : string := Jib.FilePath j.

End Methods.

End JibBuilder.

(* ===================================================================== *)
(** ** The payload of one module, as the init task prints it *)
(* ===================================================================== *)

(** A byte of printable ASCII other than the double quote; the backslash
    is one of them. *)
Definition plainByte (c : ascii) : bool :=
  N.leb 32 (N_of_ascii c) && N.ltb (N_of_ascii c) 128
  && negb (Ascii.eqb c DQUOTE).

(** The JSON object with the two fields, their texts written as they
    are, between double quotes. *)
Definition payloadOf (image project : list ascii) : list ascii :=
  quoted "{'image':'" ++ image ++ quoted "','project':'" ++ project
  ++ quoted "'}".

(* ===================================================================== *)
(** ** The loop of [.*] *)
(* ===================================================================== *)

(** What [Regexp.run] does on [Star AnyNotNL], with the fuel of the loop
    as an argument. *)
Fixpoint starAnyNotNL {R : Type}
    (k : list ascii -> Regexp.submatches -> option R)
    (fuel : nat) (s : list ascii) (caps : Regexp.submatches)
    {struct fuel} : option R :=
  match fuel with
  | O => k s caps
  | S fuel' =>
      match Regexp.run Regexp.AnyNotNL s caps
              (fun s' caps' =>
                 if Nat.ltb (List.length s') (List.length s)
                 then starAnyNotNL k fuel' s' caps'
                 else None) with
      | Some m => Some m
      | None => k s caps
      end
  end.

(** No byte of the text is a line feed. *)
Definition oneLine (s : list ascii) : bool :=
  forallb (fun c => negb (Ascii.eqb c LF)) s.

(* ===================================================================== *)
(** ** More concrete inputs *)
(* ===================================================================== *)

(** The cluster of [kanikoHappy] when no client can be had. *)
Definition kanikoClientFails : Kaniko.World :=
  {| Kaniko.setupSecret := None;
     Kaniko.sourceSetup := Kaniko.sourceSetup kanikoHappy;
     Kaniko.getClientset := Some (New "no kubeconfig");
     Kaniko.podsCreate := Kaniko.podsCreate kanikoHappy;
     Kaniko.podsDelete := fun _ => None;
     Kaniko.modifyPod := fun _ => None;
     Kaniko.waitForPodComplete := fun _ => None;
     Kaniko.fullRemoteReference := Kaniko.fullRemoteReference kanikoHappy |}.


(** A Maven project whose [pom.xml] cannot be read. *)
Definition unreadableProject : Jib.World :=
  {| Jib.ioutil_ReadFile := fun _ => Err (New "permission denied");
     Jib.filepath_Dir := fun _ => "svc";
     Jib.util_AbsFile := fun _ _ => Err (New "no such file");
     Jib.util_RunCmdOut := fun _ => Ok twoModules |}.

(** A Maven project that names the Jib plugin and whose init task
    fails. *)
Definition failingMavenProject : Jib.World :=
  {| Jib.ioutil_ReadFile :=
       fun _ => Ok "<plugin><artifactId>jib-maven-plugin</artifactId></plugin>";
     Jib.filepath_Dir := fun _ => "svc";
     Jib.util_AbsFile := fun _ _ => Err (New "no such file");
     Jib.util_RunCmdOut := fun _ => Err (New "exit status 1") |}.

(** The same project with a wrapper script beside the [pom.xml]. *)
Definition wrappedMavenProject : Jib.World :=
  {| Jib.ioutil_ReadFile :=
       fun _ => Ok "<plugin><artifactId>jib-maven-plugin</artifactId></plugin>";
     Jib.filepath_Dir := fun _ => "svc";
     Jib.util_AbsFile := fun dir name => Ok ("/src/" +++ dir +++ "/" +++ name);
     Jib.util_RunCmdOut := fun _ => Ok twoModules |}.

(** A workspace with two dependencies, and one whose Dockerfile cannot be
    parsed. *)
Definition contextHappy : DockerContext.World :=
  {| DockerContext.getDependencies :=
       fun _ _ _ => Ok ["Dockerfile"; "main.go"];
     DockerContext.filepath_Join := fun dir name => dir +++ "/" +++ name;
     DockerContext.util_CreateTar := fun _ _ => None |}.

Definition contextUnresolved : DockerContext.World :=
  {| DockerContext.getDependencies :=
       fun _ _ _ => Err (New "unknown instruction");
     DockerContext.filepath_Join := fun dir name => dir +++ "/" +++ name;
     DockerContext.util_CreateTar := fun _ _ => None |}.

(** The output of the init task on Windows, for a module whose project
    is named by a path of the machine. *)
Definition windowsOutput : list ascii :=
  bytes "BEGIN JIB JSON" ++ [LF]
  ++ payloadOf (bytes "gcr.io/p/app") (bytes "C:\work\app") ++ [LF].

(* ===================================================================== *)
(** * The remote build session *)
(* ===================================================================== *)

Section KanikoFacts.

Import Kaniko.

Variable logLevel : string.
Variable GetBuildArgs : latest_DockerArtifact -> list string.

(** The argument list in one piece. *)
Lemma kanikoArgs_eq (b : Builder) (a : latest_DockerArtifact)
    (context fqn : string) :
  kanikoArgs logLevel GetBuildArgs b a context fqn =
  [ "--dockerfile=" +++ DockerfilePath a;
    "--context=" +++ context;
    "--destination=" +++ fqn;
    "-v=" +++ logLevel ]
  ++ AdditionalFlags b
  ++ GetBuildArgs a
  ++ match Cache b with
     | None => []
     | Some cache =>
         "--cache=true"
         :: (if String.eqb (Repo cache) "" then []
             else ["--cache-repo=" +++ Repo cache])
     end.
Proof.
  unfold kanikoArgs. destruct (Cache b) as [cache|].
  - destruct (String.eqb (Repo cache) "");
      now rewrite <- ?app_assoc.
  - now rewrite <- ?app_assoc, app_nil_r.
Qed.

(** C1 (as amended): once the pod exists, a failing deletion ends the
    session in [logrus.Fatalf]: the failure is logged as
    [deleting pod: <error>], the process exits, and no result reaches the
    caller. *)
Theorem pod_deletion_failure_is_fatal
    (w : World) (b : Builder) (artifact : latest_Artifact)
    (fqn context p : string) (a : latest_DockerArtifact) (err : error) :
  sourceSetup w fqn = Ok context ->
  getClientset w = None ->
  DockerArtifact (ArtifactType artifact) = Some a ->
  podsCreate w (kanikoArgs logLevel GetBuildArgs b a context fqn) = Ok p ->
  podsDelete w p = Some err ->
  snd (buildArtifactWithKaniko logLevel GetBuildArgs w b artifact fqn)
    = Exit
  /\ exists t,
      fst (buildArtifactWithKaniko logLevel GetBuildArgs w b artifact fqn)
      = t ++ [PodsDelete p 0; Fatalf ("deleting pod: " +++ Error err)].
Proof.
  intros Hs Hc Ha Hp Hd. unfold buildArtifactWithKaniko.
  rewrite Hs, Hc, Ha. cbn. rewrite Hp. cbn. unfold deletePod.
  rewrite Hd.
  destruct (modifyPod w p); cbn;
    [| destruct (waitForPodComplete w p); cbn;
       [| destruct (fullRemoteReference w fqn); cbn ] ];
    (split; [reflexivity |]).
  - now exists [SourceSetup fqn; GetClientset;
      PodsCreate (kanikoArgs logLevel GetBuildArgs b a context fqn);
      ModifyPod p].
  - now exists [SourceSetup fqn; GetClientset;
      PodsCreate (kanikoArgs logLevel GetBuildArgs b a context fqn);
      ModifyPod p; StreamLogs p; WaitForPodComplete p].
  - now exists [SourceSetup fqn; GetClientset;
      PodsCreate (kanikoArgs logLevel GetBuildArgs b a context fqn);
      ModifyPod p; StreamLogs p; WaitForPodComplete p; WaitForLogs;
      FullRemoteReference fqn].
Qed.

(** C2 (as amended): the first phase to fail ends the session, no later
    phase is started, and the caller gets that failure wrapped with
    "setting up secret", "setting up build context",
    "creating kaniko pod", "modifying kaniko pod" or
    "waiting for pod to complete"; once the pod exists this needs its
    deletion to go through. *)
Theorem first_failure_is_wrapped_with_its_phase
    (w : World) (b : Builder) (artifact : latest_Artifact) (fqn : string)
    (BuildArtifact : Type)
    (InParallel :
       list latest_Artifact ->
       (latest_Artifact -> string -> M (string * option error)) ->
       M (list BuildArtifact * option error))
    (artifacts : list latest_Artifact) :
  (forall err,
      setupSecret w = Some err ->
      Build logLevel GetBuildArgs w BuildArtifact InParallel b artifacts
      = ([SetupSecret],
         Done ([], Some (withMessage err "setting up secret"))))
  /\ (forall err,
      sourceSetup w fqn = Err err ->
      buildArtifactWithKaniko logLevel GetBuildArgs w b artifact fqn
      = ([SourceSetup fqn],
         Done ("", Some (withMessage err "setting up build context"))))
  /\ (forall context a err,
      sourceSetup w fqn = Ok context ->
      getClientset w = None ->
      DockerArtifact (ArtifactType artifact) = Some a ->
      podsCreate w (kanikoArgs logLevel GetBuildArgs b a context fqn)
        = Err err ->
      buildArtifactWithKaniko logLevel GetBuildArgs w b artifact fqn
      = ([SourceSetup fqn; GetClientset;
          PodsCreate (kanikoArgs logLevel GetBuildArgs b a context fqn);
          SourceCleanup],
         Done ("", Some (withMessage err "creating kaniko pod"))))
  /\ (forall context a p err,
      sourceSetup w fqn = Ok context ->
      getClientset w = None ->
      DockerArtifact (ArtifactType artifact) = Some a ->
      podsCreate w (kanikoArgs logLevel GetBuildArgs b a context fqn)
        = Ok p ->
      modifyPod w p = Some err ->
      podsDelete w p = None ->
      buildArtifactWithKaniko logLevel GetBuildArgs w b artifact fqn
      = ([SourceSetup fqn; GetClientset;
          PodsCreate (kanikoArgs logLevel GetBuildArgs b a context fqn);
          ModifyPod p; PodsDelete p 0; SourceCleanup],
         Done ("", Some (withMessage err "modifying kaniko pod"))))
  /\ (forall context a p err,
      sourceSetup w fqn = Ok context ->
      getClientset w = None ->
      DockerArtifact (ArtifactType artifact) = Some a ->
      podsCreate w (kanikoArgs logLevel GetBuildArgs b a context fqn)
        = Ok p ->
      modifyPod w p = None ->
      waitForPodComplete w p = Some err ->
      podsDelete w p = None ->
      buildArtifactWithKaniko logLevel GetBuildArgs w b artifact fqn
      = ([SourceSetup fqn; GetClientset;
          PodsCreate (kanikoArgs logLevel GetBuildArgs b a context fqn);
          ModifyPod p; StreamLogs p; WaitForPodComplete p;
          PodsDelete p 0; SourceCleanup],
         Done ("", Some (withMessage err "waiting for pod to complete")))).
Proof.
  repeat split.
  - intros err H. unfold Build. now rewrite H.
  - intros err H. unfold buildArtifactWithKaniko. now rewrite H.
  - intros context a err Hs Hc Ha Hp. unfold buildArtifactWithKaniko.
    rewrite Hs, Hc, Ha. cbn. now rewrite Hp.
  - intros context a p err Hs Hc Ha Hp Hm Hd.
    unfold buildArtifactWithKaniko. rewrite Hs, Hc, Ha. cbn.
    rewrite Hp. cbn. unfold deletePod. now rewrite Hm, Hd.
  - intros context a p err Hs Hc Ha Hp Hm Hw Hd.
    unfold buildArtifactWithKaniko. rewrite Hs, Hc, Ha. cbn.
    rewrite Hp. cbn. unfold deletePod. now rewrite Hm, Hw, Hd.
Qed.

(** On the path where nothing fails the log copy is joined before the
    reference is resolved and returned. *)
Lemma success_path_joins_the_log_copy
    (w : World) (b : Builder) (artifact : latest_Artifact)
    (fqn context p : string) (a : latest_DockerArtifact) :
  sourceSetup w fqn = Ok context ->
  getClientset w = None ->
  DockerArtifact (ArtifactType artifact) = Some a ->
  podsCreate w (kanikoArgs logLevel GetBuildArgs b a context fqn) = Ok p ->
  modifyPod w p = None ->
  waitForPodComplete w p = None ->
  podsDelete w p = None ->
  buildArtifactWithKaniko logLevel GetBuildArgs w b artifact fqn
  = ([SourceSetup fqn; GetClientset;
      PodsCreate (kanikoArgs logLevel GetBuildArgs b a context fqn);
      ModifyPod p; StreamLogs p; WaitForPodComplete p; WaitForLogs;
      FullRemoteReference fqn; PodsDelete p 0; SourceCleanup],
     Done (fullRemoteReference w fqn)).
Proof.
  intros Hs Hc Ha Hp Hm Hw Hd. unfold buildArtifactWithKaniko.
  rewrite Hs, Hc, Ha. cbn. rewrite Hp. cbn. unfold deletePod.
  rewrite Hm, Hw, Hd. cbn. now destruct (fullRemoteReference w fqn).
Qed.

(** C4: the pod is created with, in this order, the four fixed flags, the
    additional flags, the build-arg flags and, with a cache configured,
    [--cache=true] and then [--cache-repo=<repo>] if a repo is set; it is
    created once. *)
Theorem kaniko_pod_arguments
    (w : World) (b : Builder) (artifact : latest_Artifact)
    (fqn context : string) (a : latest_DockerArtifact) :
  sourceSetup w fqn = Ok context ->
  getClientset w = None ->
  DockerArtifact (ArtifactType artifact) = Some a ->
  exists t,
    fst (buildArtifactWithKaniko logLevel GetBuildArgs w b artifact fqn)
    = [ SourceSetup fqn; GetClientset;
        PodsCreate
          ([ "--dockerfile=" +++ DockerfilePath a;
             "--context=" +++ context;
             "--destination=" +++ fqn;
             "-v=" +++ logLevel ]
           ++ AdditionalFlags b
           ++ GetBuildArgs a
           ++ match Cache b with
              | None => []
              | Some cache =>
                  "--cache=true"
                  :: (if String.eqb (Repo cache) "" then []
                      else ["--cache-repo=" +++ Repo cache])
              end) ] ++ t
    /\ forall args, ~ In (PodsCreate args) t.
Proof.
  intros Hs Hc Ha. rewrite <- kanikoArgs_eq.
  unfold buildArtifactWithKaniko. rewrite Hs, Hc, Ha. cbn.
  destruct (podsCreate w _) as [p|e]; cbn.
  - unfold deletePod.
    destruct (modifyPod w p); cbn;
      [| destruct (waitForPodComplete w p); cbn;
         [| destruct (fullRemoteReference w fqn); cbn ] ];
      destruct (podsDelete w p); cbn;
      eexists; (split; [reflexivity |]);
      intros args H; cbn in H; intuition discriminate.
  - eexists; split; [reflexivity |].
    intros args H; cbn in H; intuition discriminate.
Qed.

End KanikoFacts.

(** C1, the claim at a concrete session: the build went through and only
    the deletion of the pod fails; the caller gets no result, where the
    same session with a working deletion returns the reference. *)
Lemma pod_deletion_failure_loses_the_result :
  Kaniko.podsDelete kanikoDeleteFails "kaniko-x7f2q"
    = Some (New "connection refused")
  /\ snd (Kaniko.buildArtifactWithKaniko "info" someBuildArgs kanikoHappy
            kanikoBuilder dockerArtifact "gcr.io/p/app:v1")
     = Kaniko.Done ("gcr.io/p/app:v1@sha256:0a1b", None)
  /\ forall r,
       snd (Kaniko.buildArtifactWithKaniko "info" someBuildArgs
              kanikoDeleteFails kanikoBuilder dockerArtifact
              "gcr.io/p/app:v1")
       <> Kaniko.Done r.
Proof.
  split; [reflexivity | split; [reflexivity |]].
  intros r. vm_compute. discriminate.
Qed.

Lemma pod_deletion_failure_is_fatal_witness :
  snd (Kaniko.buildArtifactWithKaniko "info" someBuildArgs
         kanikoDeleteFails kanikoBuilder dockerArtifact "gcr.io/p/app:v1")
    = Kaniko.Exit
  /\ exists t,
      fst (Kaniko.buildArtifactWithKaniko "info" someBuildArgs
             kanikoDeleteFails kanikoBuilder dockerArtifact
             "gcr.io/p/app:v1")
      = t ++ [Kaniko.PodsDelete "kaniko-x7f2q" 0;
              Kaniko.Fatalf ("deleting pod: "
                             +++ Error (New "connection refused"))].
Proof.
  apply (pod_deletion_failure_is_fatal "info" someBuildArgs
           kanikoDeleteFails kanikoBuilder dockerArtifact "gcr.io/p/app:v1"
           "gs://bucket/context.tar.gz" "kaniko-x7f2q" appDockerfile
           (New "connection refused")); reflexivity.
Defined.

(** C2, the claim at a concrete session: pod creation is the first call to
    fail, and the error the caller gets is not the one wrapped with
    "creating pod": its text starts with "creating kaniko pod". *)
Lemma pod_creation_failure_is_not_wrapped_as_creating_pod :
  Kaniko.sourceSetup kanikoCreateFails "gcr.io/p/app:v1"
    = Ok "gs://bucket/context.tar.gz"
  /\ Kaniko.getClientset kanikoCreateFails = None
  /\ (forall args,
        Kaniko.podsCreate kanikoCreateFails args
        = Err (New "quota exceeded"))
  /\ snd (Kaniko.buildArtifactWithKaniko "info" someBuildArgs
            kanikoCreateFails kanikoBuilder dockerArtifact "gcr.io/p/app:v1")
     <> Kaniko.Done ("", Wrap (Some (New "quota exceeded")) "creating pod")
  /\ exists e,
       snd (Kaniko.buildArtifactWithKaniko "info" someBuildArgs
              kanikoCreateFails kanikoBuilder dockerArtifact
              "gcr.io/p/app:v1")
       = Kaniko.Done ("", Some e)
       /\ Error e = "creating kaniko pod: quota exceeded".
Proof.
  repeat split; try reflexivity.
  - vm_compute. discriminate.
  - eexists. split; reflexivity.
Qed.

Lemma first_failure_is_wrapped_with_its_phase_witness :
  Kaniko.Build "info" someBuildArgs kanikoSecretFails _ inOrder
    kanikoBuilder [dockerArtifact]
  = ([Kaniko.SetupSecret],
     Kaniko.Done ([], Some (withMessage (New "forbidden")
                                        "setting up secret")))
  /\ snd (Kaniko.buildArtifactWithKaniko "info" someBuildArgs
            kanikoContextFails kanikoBuilder dockerArtifact "gcr.io/p/app:v1")
     = Kaniko.Done ("", Some (withMessage (New "bucket not found")
                                          "setting up build context"))
  /\ snd (Kaniko.buildArtifactWithKaniko "info" someBuildArgs
            kanikoCreateFails kanikoBuilder dockerArtifact "gcr.io/p/app:v1")
     = Kaniko.Done ("", Some (withMessage (New "quota exceeded")
                                          "creating kaniko pod"))
  /\ snd (Kaniko.buildArtifactWithKaniko "info" someBuildArgs
            kanikoModifyFails kanikoBuilder dockerArtifact "gcr.io/p/app:v1")
     = Kaniko.Done ("", Some (withMessage (New "copy failed")
                                          "modifying kaniko pod"))
  /\ snd (Kaniko.buildArtifactWithKaniko "info" someBuildArgs
            kanikoWaitFails kanikoBuilder dockerArtifact "gcr.io/p/app:v1")
     = Kaniko.Done ("", Some (withMessage (New "timed out")
                                          "waiting for pod to complete")).
Proof.
  pose (T := fun w =>
    first_failure_is_wrapped_with_its_phase "info" someBuildArgs w
      kanikoBuilder dockerArtifact "gcr.io/p/app:v1" _ inOrder
      [dockerArtifact]).
  split; [| split; [| split; [| split]]].
  - apply (proj1 (T kanikoSecretFails)). reflexivity.
  - rewrite (proj1 (proj2 (T kanikoContextFails)) (New "bucket not found"));
      reflexivity.
  - rewrite (proj1 (proj2 (proj2 (T kanikoCreateFails)))
               "gs://bucket/context.tar.gz" appDockerfile
               (New "quota exceeded")); reflexivity.
  - rewrite (proj1 (proj2 (proj2 (proj2 (T kanikoModifyFails))))
               "gs://bucket/context.tar.gz" appDockerfile "kaniko-x7f2q"
               (New "copy failed")); reflexivity.
  - rewrite (proj2 (proj2 (proj2 (proj2 (T kanikoWaitFails))))
               "gs://bucket/context.tar.gz" appDockerfile "kaniko-x7f2q"
               (New "timed out")); reflexivity.
Defined.

(** C3, at a session whose wait for the pod fails: the log copy was
    started, the function that joins it is not called, and the session
    returns the wrapped error with the copy still running. *)
Theorem wait_failure_returns_without_joining_the_log_copy :
  Kaniko.buildArtifactWithKaniko "info" someBuildArgs kanikoWaitFails
    kanikoBuilder dockerArtifact "gcr.io/p/app:v1"
  = ([Kaniko.SourceSetup "gcr.io/p/app:v1"; Kaniko.GetClientset;
      Kaniko.PodsCreate
        ["--dockerfile=Dockerfile";
         "--context=gs://bucket/context.tar.gz";
         "--destination=gcr.io/p/app:v1"; "-v=info"; "--insecure";
         "--build-arg"; "VERSION=1"; "--cache=true";
         "--cache-repo=gcr.io/p/cache"];
      Kaniko.ModifyPod "kaniko-x7f2q"; Kaniko.StreamLogs "kaniko-x7f2q";
      Kaniko.WaitForPodComplete "kaniko-x7f2q";
      Kaniko.PodsDelete "kaniko-x7f2q" 0; Kaniko.SourceCleanup],
     Kaniko.Done ("", Some (withMessage (New "timed out")
                                        "waiting for pod to complete")))
  /\ ~ In Kaniko.WaitForLogs
          (fst (Kaniko.buildArtifactWithKaniko "info" someBuildArgs
                  kanikoWaitFails kanikoBuilder dockerArtifact
                  "gcr.io/p/app:v1")).
Proof.
  split; [reflexivity |].
  cbn. intuition discriminate.
Qed.

Lemma kaniko_pod_arguments_witness :
  exists t,
    fst (Kaniko.buildArtifactWithKaniko "info" someBuildArgs kanikoHappy
           kanikoBuilder dockerArtifact "gcr.io/p/app:v1")
    = [ Kaniko.SourceSetup "gcr.io/p/app:v1"; Kaniko.GetClientset;
        Kaniko.PodsCreate
          ["--dockerfile=Dockerfile";
           "--context=gs://bucket/context.tar.gz";
           "--destination=gcr.io/p/app:v1"; "-v=info"; "--insecure";
           "--build-arg"; "VERSION=1"; "--cache=true";
           "--cache-repo=gcr.io/p/cache"] ] ++ t
    /\ forall args, ~ In (Kaniko.PodsCreate args) t.
Proof.
  apply (kaniko_pod_arguments "info" someBuildArgs kanikoHappy kanikoBuilder
           dockerArtifact "gcr.io/p/app:v1" "gs://bucket/context.tar.gz"
           appDockerfile); reflexivity.
Defined.

(* ===================================================================== *)
(** * The local builder *)
(* ===================================================================== *)

Lemma prefix_append (p s : string) : prefix p (p +++ s) = true.
Proof.
  induction p as [|c p IH]; cbn.
  - now destruct s.
  - destruct (ascii_dec c c); [exact IH | congruence].
Qed.

Lemma Contains_prefix (s p : string) :
  prefix p s = true -> Strings.Contains s p = true.
Proof. intros H. destruct s; cbn in *; now rewrite H. Qed.

Section LocalFacts.

Import Local.

Variable w : World.
Variable GetBuildArgs : latest_DockerArtifact -> list string.
Variable buildBazel :
  Builder -> string -> latest_BazelArtifact -> string ->
  M (string * option error).
Variable buildJibMaven :
  Builder -> string -> latest_JibMavenArtifact -> string ->
  M (string * option error).
Variable buildJibGradle :
  Builder -> string -> latest_JibGradleArtifact -> string ->
  M (string * option error).
Variable fmt_plus_v : latest_ArtifactType -> string.

(** C5: an artifact with no variant set gets an empty reference and an
    error whose text contains "undefined artifact type", no backend being
    called; an artifact with a variant set is handed to the backend of
    that variant (of the first one set, in the order Docker, Bazel,
    JibMaven, JibGradle) and gets what that backend returns. *)
Theorem dispatch_on_artifact_type
    (b : Builder) (artifact : latest_Artifact) (fqn : string) :
  (DockerArtifact (ArtifactType artifact) = None ->
   BazelArtifact (ArtifactType artifact) = None ->
   JibMavenArtifact (ArtifactType artifact) = None ->
   JibGradleArtifact (ArtifactType artifact) = None ->
   exists err,
     buildArtifactLocally w GetBuildArgs buildBazel buildJibMaven
       buildJibGradle fmt_plus_v b artifact fqn
     = ([], ("", Some err))
     /\ Strings.Contains (Error err) "undefined artifact type" = true)
  /\ (forall a,
      DockerArtifact (ArtifactType artifact) = Some a ->
      buildArtifactLocally w GetBuildArgs buildBazel buildJibMaven
        buildJibGradle fmt_plus_v b artifact fqn
      = buildDocker w GetBuildArgs b (Workspace artifact) a fqn)
  /\ (forall a,
      DockerArtifact (ArtifactType artifact) = None ->
      BazelArtifact (ArtifactType artifact) = Some a ->
      buildArtifactLocally w GetBuildArgs buildBazel buildJibMaven
        buildJibGradle fmt_plus_v b artifact fqn
      = buildBazel b (Workspace artifact) a fqn)
  /\ (forall a,
      DockerArtifact (ArtifactType artifact) = None ->
      BazelArtifact (ArtifactType artifact) = None ->
      JibMavenArtifact (ArtifactType artifact) = Some a ->
      buildArtifactLocally w GetBuildArgs buildBazel buildJibMaven
        buildJibGradle fmt_plus_v b artifact fqn
      = buildJibMaven b (Workspace artifact) a fqn)
  /\ (forall a,
      DockerArtifact (ArtifactType artifact) = None ->
      BazelArtifact (ArtifactType artifact) = None ->
      JibMavenArtifact (ArtifactType artifact) = None ->
      JibGradleArtifact (ArtifactType artifact) = Some a ->
      buildArtifactLocally w GetBuildArgs buildBazel buildJibMaven
        buildJibGradle fmt_plus_v b artifact fqn
      = buildJibGradle b (Workspace artifact) a fqn).
Proof.
  unfold buildArtifactLocally. repeat split.
  - intros Hd Hb Hm Hg. rewrite Hd, Hb, Hm, Hg.
    eexists. split; [reflexivity |].
    apply Contains_prefix.
    change (prefix "undefined artifact type"
              (("undefined artifact type" +++ ": ")
               +++ fmt_plus_v (ArtifactType artifact)) = true).
    rewrite <- (prefix_append "undefined artifact type"
                  (": " +++ fmt_plus_v (ArtifactType artifact))).
    reflexivity.
  - intros a Hd. now rewrite Hd.
  - intros a Hd Hb. now rewrite Hd, Hb.
  - intros a Hd Hb Hm. now rewrite Hd, Hb, Hm.
  - intros a Hd Hb Hm Hg. now rewrite Hd, Hb, Hm, Hg.
Qed.

(** C6: a Docker build that returns no error returns [fqn@digest], with
    the digest the push answered, when pushing is enabled, and [fqn]
    itself when it is not. *)
Theorem docker_build_reference
    (b : Builder) (workspace : string) (a : latest_DockerArtifact)
    (fqn ref : string) :
  snd (buildDocker w GetBuildArgs b workspace a fqn) = (ref, None) ->
  if pushImages b
  then exists digest,
         localDocker_Push w fqn = Ok digest
         /\ ref = fqn +++ "@" +++ digest
  else ref = fqn.
Proof.
  assert (P : snd (pushOrTag w b fqn) = (ref, None) ->
              if pushImages b
              then exists digest,
                     localDocker_Push w fqn = Ok digest
                     /\ ref = fqn +++ "@" +++ digest
              else ref = fqn).
  { unfold pushOrTag. destruct (pushImages b); cbn.
    - destruct (localDocker_Push w fqn) as [digest|e]; cbn; intros H.
      + exists digest. split; [reflexivity | congruence].
      + discriminate.
    - congruence. }
  unfold buildDocker.
  destruct (UseDockerCLI (cfg b) || UseBuildkit (cfg b)); cbn.
  - destruct (normalizeDockerfilePath w workspace (DockerfilePath a))
      as [dockerfilePath|e]; cbn; [| discriminate].
    destruct (util_RunCmd w _); cbn; [discriminate |].
    destruct (pushOrTag w b fqn) as [t r] eqn:E; cbn in *. exact P.
  - destruct (localDocker_Build w workspace a fqn) as [id|e]; cbn;
      [| discriminate].
    destruct (pushOrTag w b fqn) as [t r] eqn:E; cbn in *. exact P.
Qed.

End LocalFacts.

Lemma dispatch_on_artifact_type_witness :
  (exists err,
     Local.buildArtifactLocally localHappy someBuildArgs bazelStub
       jibMavenStub jibGradleStub showType pushingBuilder untypedArtifact
       "gcr.io/p/none:v1"
     = ([], ("", Some err))
     /\ Strings.Contains (Error err) "undefined artifact type" = true)
  /\ snd (Local.buildArtifactLocally localHappy someBuildArgs bazelStub
            jibMavenStub jibGradleStub showType pushingBuilder
            dockerArtifact "gcr.io/p/app:v1")
     = ("gcr.io/p/app:v1@sha256:9f8e", None)
  /\ snd (Local.buildArtifactLocally localHappy someBuildArgs bazelStub
            jibMavenStub jibGradleStub showType pushingBuilder
            bazelArtifact "gcr.io/p/bz:v1")
     = ("bazel://:app.tar:gcr.io/p/bz:v1", None)
  /\ snd (Local.buildArtifactLocally localHappy someBuildArgs bazelStub
            jibMavenStub jibGradleStub showType pushingBuilder
            mavenArtifact "gcr.io/p/mvn:v1")
     = ("maven:web:gcr.io/p/mvn:v1", None)
  /\ snd (Local.buildArtifactLocally localHappy someBuildArgs bazelStub
            jibMavenStub jibGradleStub showType pushingBuilder
            gradleArtifact "gcr.io/p/gr:v1")
     = ("gradle::web:gcr.io/p/gr:v1", None).
Proof.
  pose (T := dispatch_on_artifact_type localHappy someBuildArgs bazelStub
               jibMavenStub jibGradleStub showType pushingBuilder).
  split; [| split; [| split; [| split]]].
  - apply (proj1 (T untypedArtifact "gcr.io/p/none:v1")); reflexivity.
  - rewrite (proj1 (proj2 (T dockerArtifact "gcr.io/p/app:v1"))
               appDockerfile); reflexivity.
  - rewrite (proj1 (proj2 (proj2 (T bazelArtifact "gcr.io/p/bz:v1")))
               {| BuildTarget := "//:app.tar" |}); reflexivity.
  - rewrite (proj1 (proj2 (proj2 (proj2 (T mavenArtifact
                                           "gcr.io/p/mvn:v1"))))
               {| Module_ := "web"; Profile := "" |}); reflexivity.
  - rewrite (proj2 (proj2 (proj2 (proj2 (T gradleArtifact
                                           "gcr.io/p/gr:v1"))))
               {| Project := ":web" |}); reflexivity.
Defined.

Lemma docker_build_reference_witness :
  (exists digest,
     Local.localDocker_Push localHappy "gcr.io/p/app:v1" = Ok digest
     /\ "gcr.io/p/app:v1@sha256:9f8e" = "gcr.io/p/app:v1" +++ "@" +++ digest)
  /\ "gcr.io/p/app:v1" = "gcr.io/p/app:v1".
Proof.
  split.
  - apply (docker_build_reference localHappy someBuildArgs pushingBuilder
             "." appDockerfile "gcr.io/p/app:v1"
             "gcr.io/p/app:v1@sha256:9f8e"). reflexivity.
  - apply (docker_build_reference localHappy someBuildArgs taggingBuilder
             "." appDockerfile "gcr.io/p/app:v1" "gcr.io/p/app:v1").
    reflexivity.
Defined.

(* ===================================================================== *)
(** * The Jib project detector *)
(* ===================================================================== *)

Section JibFacts.

Import Jib.

Variable PluginName : PluginType -> string.
Variable w : World.

(** C7: for a file name with none of the three suffixes the detector
    returns nil without a single call; for a file whose contents lack
    the marker of its family it returns nil after reading the file; in
    both cases no command is run. *)
Theorem detection_gates
    (path : string) :
  (Strings.HasSuffix path "pom.xml" = false ->
   Strings.HasSuffix path "build.gradle" = false ->
   Strings.HasSuffix path "build.gradle.kts" = false ->
   ValidateJibConfig PluginName w path = ([], []))
  /\ (forall f content,
      classify path = Some f ->
      ioutil_ReadFile w path = Ok content ->
      Strings.Contains content (searchString f) = false ->
      ValidateJibConfig PluginName w path = ([ReadFile path], []))
  /\ ((Strings.HasSuffix path "pom.xml" = false
       /\ Strings.HasSuffix path "build.gradle" = false
       /\ Strings.HasSuffix path "build.gradle.kts" = false)
      \/ (exists f content,
            classify path = Some f
            /\ ioutil_ReadFile w path = Ok content
            /\ Strings.Contains content (searchString f) = false) ->
      snd (ValidateJibConfig PluginName w path) = []
      /\ forall cmd,
           ~ In (RunCmdOut cmd) (fst (ValidateJibConfig PluginName w path))).
Proof.
  assert (A : Strings.HasSuffix path "pom.xml" = false ->
              Strings.HasSuffix path "build.gradle" = false ->
              Strings.HasSuffix path "build.gradle.kts" = false ->
              ValidateJibConfig PluginName w path = ([], [])).
  { intros H1 H2 H3. unfold ValidateJibConfig, classify.
    now rewrite H1, H2, H3. }
  assert (B : forall f content,
              classify path = Some f ->
              ioutil_ReadFile w path = Ok content ->
              Strings.Contains content (searchString f) = false ->
              ValidateJibConfig PluginName w path = ([ReadFile path], [])).
  { intros f content Hf Hr Hc. unfold ValidateJibConfig.
    now rewrite Hf, Hr, Hc. }
  split; [exact A | split; [exact B |]].
  intros [(H1 & H2 & H3) | (f & content & Hf & Hr & Hc)].
  - rewrite (A H1 H2 H3). cbn. intuition.
  - rewrite (B f content Hf Hr Hc). cbn. intuition discriminate.
Qed.

(** The run of the detector once the gates are passed and the command
    has printed [stdout]. *)
Lemma detection_after_gates (path : string) (f : family)
    (content : string) (stdout : list ascii) :
  classify path = Some f ->
  ioutil_ReadFile w path = Ok content ->
  Strings.Contains content (searchString f) = true ->
  util_RunCmdOut w (initCommand w f path) = Ok stdout ->
  ValidateJibConfig PluginName w path =
  (emit (ReadFile path) ;;;
   emit (AbsFile (filepath_Dir w path) (wrapper f)) ;;;
   emit (RunCmdOut (initCommand w f path)) ;;;
   match Regexp.FindAllSubmatch jibPattern stdout with
   | [] => ret []
   | matches =>
       results <- parseMatches PluginName (builderType f) path matches ;;
       match results with
       | Some results => ret results
       | None => ret []
       end
   end).
Proof.
  intros Hf Hr Hc Ho. unfold ValidateJibConfig.
  rewrite Hf, Hr, Hc. cbv zeta. cbn [negb]. rewrite Ho.
  now destruct (Regexp.FindAllSubmatch jibPattern stdout).
Qed.

(** C8: when the command prints the two marker blocks, the detector
    returns two results, image "a" with project "p1" first, image "b"
    with project "p2" second. *)
Theorem two_marker_blocks_give_two_results
    (path : string) (f : family) (content : string) :
  classify path = Some f ->
  ioutil_ReadFile w path = Ok content ->
  Strings.Contains content (searchString f) = true ->
  util_RunCmdOut w (initCommand w f path) = Ok twoModules ->
  snd (ValidateJibConfig PluginName w path)
  = [ {| BuilderName := PluginName (builderType f);
         Image := "a"; FilePath := path; Project := "p1" |};
      {| BuilderName := PluginName (builderType f);
         Image := "b"; FilePath := path; Project := "p2" |} ].
Proof.
  intros Hf Hr Hc Ho.
  rewrite (detection_after_gates path f content twoModules Hf Hr Hc Ho).
  assert (Hm : Regexp.FindAllSubmatch jibPattern twoModules
               = [ [bytes "BEGIN JIB JSON" ++ [LF]
                    ++ quoted "{'image':'a','project':'p1'}";
                    quoted "{'image':'a','project':'p1'}"];
                   [bytes "BEGIN JIB JSON" ++ [LF]
                    ++ quoted "{'image':'b','project':'p2'}";
                    quoted "{'image':'b','project':'p2'}"] ])
    by (vm_compute; reflexivity).
  rewrite Hm. clear Hm.
  assert (H1 : Json.Unmarshal
                 (escapeSeparators (quoted "{'image':'a','project':'p1'}"))
                 jibJSON
               = ([("image", "a"); ("project", "p1")], None))
    by (vm_compute; reflexivity).
  assert (H2 : Json.Unmarshal
                 (escapeSeparators (quoted "{'image':'b','project':'p2'}"))
                 jibJSON
               = ([("image", "b"); ("project", "p2")], None))
    by (vm_compute; reflexivity).
  unfold parseMatches.
  change (nth 1 [?a; ?b] []) with b.
  cbn [nth]. rewrite H1, H2. reflexivity.
Qed.

(** The loop gives up at the first match that does not parse, with a
    warning, whatever it had parsed till then. *)
Lemma parseMatches_gives_up
    (t : PluginType) (path : string) (matches : list Regexp.submatches)
    (m : Regexp.submatches) :
  In m matches ->
  snd (Json.Unmarshal (escapeSeparators (nth 1 m [])) jibJSON) <> None ->
  snd (parseMatches PluginName t path matches) = None
  /\ exists err,
       In (Warnf "failed to parse jib json: %s" err)
          (fst (parseMatches PluginName t path matches)).
Proof.
  intros Hin Hbad. induction matches as [|m0 rest IH]; [contradiction |].
  cbn [parseMatches].
  destruct (Json.Unmarshal (escapeSeparators (nth 1 m0 [])) jibJSON)
    as [parsed [err|]] eqn:E.
  - cbn. split; [reflexivity |]. exists err. left. reflexivity.
  - destruct Hin as [-> | Hin]; [now rewrite E in Hbad |].
    destruct (IH Hin) as [Hnone (err & Hwarn)].
    destruct (parseMatches PluginName t path rest) as [tr r].
    cbn in *. subst r. split; [reflexivity |].
    exists err. rewrite app_nil_r. exact Hwarn.
Qed.

(** The detector returns nil when a block of the output does not
    unmarshal. *)
Lemma nil_when_a_block_does_not_unmarshal
    (path : string) (f : family) (content : string)
    (stdout : list ascii) (m : Regexp.submatches) :
  classify path = Some f ->
  ioutil_ReadFile w path = Ok content ->
  Strings.Contains content (searchString f) = true ->
  util_RunCmdOut w (initCommand w f path) = Ok stdout ->
  In m (Regexp.FindAllSubmatch jibPattern stdout) ->
  snd (Json.Unmarshal (escapeSeparators (nth 1 m [])) jibJSON) <> None ->
  snd (ValidateJibConfig PluginName w path) = [].
Proof.
  intros Hf Hr Hc Ho Hin Hbad.
  rewrite (detection_after_gates path f content stdout Hf Hr Hc Ho).
  destruct (parseMatches_gives_up (builderType f) path _ m Hin Hbad)
    as [Hnone _].
  destruct (Regexp.FindAllSubmatch jibPattern stdout) as [|m0 rest];
    [contradiction |].
  destruct (parseMatches PluginName (builderType f) path (m0 :: rest))
    as [tr r].
  cbn in *. now subst r.
Qed.

(** C9: when one of the marker blocks of the output does not unmarshal,
    the detector returns nil, having logged a warning; its only result
    is the list, so the caller sees no error. *)
Theorem unparsable_block_discards_all_results
    (path : string) (f : family) (content : string)
    (stdout : list ascii) (m : Regexp.submatches) :
  classify path = Some f ->
  ioutil_ReadFile w path = Ok content ->
  Strings.Contains content (searchString f) = true ->
  util_RunCmdOut w (initCommand w f path) = Ok stdout ->
  In m (Regexp.FindAllSubmatch jibPattern stdout) ->
  snd (Json.Unmarshal (escapeSeparators (nth 1 m [])) jibJSON) <> None ->
  snd (ValidateJibConfig PluginName w path) = []
  /\ exists err,
       In (Warnf "failed to parse jib json: %s" err)
          (fst (ValidateJibConfig PluginName w path)).
Proof.
  intros Hf Hr Hc Ho Hin Hbad. split.
  - exact (nil_when_a_block_does_not_unmarshal path f content stdout m
             Hf Hr Hc Ho Hin Hbad).
  - rewrite (detection_after_gates path f content stdout Hf Hr Hc Ho).
    destruct (parseMatches_gives_up (builderType f) path _ m Hin Hbad)
      as [_ (err & Hwarn)].
    destruct (Regexp.FindAllSubmatch jibPattern stdout) as [|m0 rest];
      [contradiction |].
    destruct (parseMatches PluginName (builderType f) path (m0 :: rest))
      as [tr [r|]]; cbn in *;
      exists err; do 3 right; rewrite app_nil_r; exact Hwarn.
Qed.

End JibFacts.

Lemma detection_gates_witness :
  Jib.ValidateJibConfig pluginName (mavenProject twoModules) "svc/Makefile"
    = ([], [])
  /\ Jib.ValidateJibConfig pluginName plainMavenProject "svc/pom.xml"
     = ([Jib.ReadFile "svc/pom.xml"], [])
  /\ (snd (Jib.ValidateJibConfig pluginName plainMavenProject "svc/pom.xml")
      = []
      /\ forall cmd,
           ~ In (Jib.RunCmdOut cmd)
                (fst (Jib.ValidateJibConfig pluginName plainMavenProject
                        "svc/pom.xml"))).
Proof.
  split; [| split].
  - apply (proj1 (detection_gates pluginName (mavenProject twoModules)
                    "svc/Makefile")); reflexivity.
  - apply (proj1 (proj2 (detection_gates pluginName plainMavenProject
                           "svc/pom.xml"))
             mavenFamily "<project></project>"); reflexivity.
  - apply (proj2 (proj2 (detection_gates pluginName plainMavenProject
                           "svc/pom.xml"))).
    right. exists mavenFamily, "<project></project>".
    repeat split; reflexivity.
Defined.

Lemma two_marker_blocks_give_two_results_witness :
  snd (Jib.ValidateJibConfig pluginName (mavenProject twoModules)
         "svc/pom.xml")
  = [ {| Jib.BuilderName := "Jib Maven Plugin"; Jib.Image := "a";
         Jib.FilePath := "svc/pom.xml"; Jib.Project := "p1" |};
      {| Jib.BuilderName := "Jib Maven Plugin"; Jib.Image := "b";
         Jib.FilePath := "svc/pom.xml"; Jib.Project := "p2" |} ].
Proof.
  apply (two_marker_blocks_give_two_results pluginName
           (mavenProject twoModules) "svc/pom.xml" mavenFamily
           "<plugin><artifactId>jib-maven-plugin</artifactId></plugin>");
    reflexivity.
Defined.

(** The two blocks with CR LF line ends and other output around them give
    the same two results. *)
Example two_marker_blocks_crlf :
  snd (Jib.ValidateJibConfig pluginName (mavenProject twoModulesCRLF)
         "svc/pom.xml")
  = [ {| Jib.BuilderName := "Jib Maven Plugin"; Jib.Image := "a";
         Jib.FilePath := "svc/pom.xml"; Jib.Project := "p1" |};
      {| Jib.BuilderName := "Jib Maven Plugin"; Jib.Image := "b";
         Jib.FilePath := "svc/pom.xml"; Jib.Project := "p2" |} ].
Proof. vm_compute. reflexivity. Qed.

Lemma unparsable_block_discards_all_results_witness :
  snd (Jib.ValidateJibConfig pluginName (mavenProject secondBlockBroken)
         "svc/pom.xml") = []
  /\ exists err,
       In (Jib.Warnf "failed to parse jib json: %s" err)
          (fst (Jib.ValidateJibConfig pluginName
                  (mavenProject secondBlockBroken) "svc/pom.xml")).
Proof.
  apply (unparsable_block_discards_all_results pluginName
           (mavenProject secondBlockBroken) "svc/pom.xml" mavenFamily
           "<plugin><artifactId>jib-maven-plugin</artifactId></plugin>"
           secondBlockBroken
           [bytes "BEGIN JIB JSON" ++ [LF]
            ++ quoted "{'image':'b','project':}";
            quoted "{'image':'b','project':}"]).
  - reflexivity.
  - reflexivity.
  - reflexivity.
  - reflexivity.
  - vm_compute. right. left. reflexivity.
  - vm_compute. discriminate.
Defined.

(* ===================================================================== *)
(** * Escaping the separators of a payload *)
(* ===================================================================== *)

Section Escaping.

Import Lex.

(** Line 138 replaces each backslash by two and leaves the other bytes
    alone. *)
Lemma escapeSeparators_doubles (m : list ascii) :
  Jib.escapeSeparators m = flat_map double m.
Proof.
  unfold Jib.escapeSeparators, Bytes.Replace.
  induction m as [|c m IH]; [reflexivity |].
  cbn [Bytes.replaceFrom Bytes.HasPrefix List.length Nat.sub flat_map].
  unfold double at 1. rewrite Ascii.eqb_sym, andb_true_r.
  destruct (Ascii.eqb c BACKSLASH); cbn; now rewrite IH.
Qed.

Lemma run_app (p : position) (s t : list ascii) :
  run p (s ++ t) = match run p s with
                   | Some p' => run p' t
                   | None => None
                   end.
Proof.
  revert p. induction s as [|c s IH]; intros p; cbn; [reflexivity |].
  destruct (advance p c); [apply IH | reflexivity].
Qed.

(** The three kinds of byte the positions tell apart. *)
Lemma byte_cases (c : ascii) :
  c = DQUOTE \/ c = BACKSLASH
  \/ (Ascii.eqb c DQUOTE = false /\ Ascii.eqb c BACKSLASH = false).
Proof.
  destruct (Ascii.eqb c DQUOTE) eqn:Q;
    [left; now apply Ascii.eqb_eq |].
  destruct (Ascii.eqb c BACKSLASH) eqn:B;
    [right; left; now apply Ascii.eqb_eq |].
  right; right; now split.
Qed.

(** Once an escaped quote has closed a literal of the escaped text, the
    two texts disagree on every later byte, and cannot both end outside
    a literal. *)
Lemma out_of_step (s : list ascii) :
  forall p q,
    (p = Inside /\ q = Outside) \/ (p = Outside /\ q = Inside) ->
    run p s = Some Outside ->
    run q (flat_map double s) <> Some Outside.
Proof.
  induction s as [|c s IH]; intros p q Hpq Hrun.
  - cbn in *. destruct Hpq as [[-> ->] | [-> ->]]; congruence.
  - cbn [flat_map]. rewrite run_app.
    destruct Hpq as [[-> ->] | [-> ->]];
      destruct (byte_cases c) as [-> | [-> | [Q B]]];
      cbn in Hrun |- *; try (unfold double at 1);
      rewrite ?Q, ?B in Hrun; rewrite ?Q, ?B; cbn;
      rewrite ?Q, ?B; try discriminate;
      (refine (IH _ _ _ Hrun); auto).
Qed.

(** Up to the first escaped quote the two texts are in step. *)
Lemma in_step (s : list ascii) :
  forall p q,
    (p = q /\ p <> Escaped) \/ (p = Escaped /\ q = Inside) ->
    run p s = Some Outside ->
    escapedQuoteFrom p s = true ->
    run q (flat_map double s) <> Some Outside.
Proof.
  induction s as [|c s IH]; intros p q Hpq Hrun Hesc.
  - discriminate.
  - cbn [flat_map]. rewrite run_app.
    destruct Hpq as [[<- Hp] | [-> ->]]; [destruct p; [| | congruence] |];
      destruct (byte_cases c) as [-> | [-> | [Q B]]];
      cbn in Hrun, Hesc |- *; try (unfold double at 1);
      rewrite ?Q, ?B in Hrun; rewrite ?Q, ?B in Hesc; rewrite ?Q, ?B; cbn;
      rewrite ?Q, ?B; try discriminate;
      try (refine (IH _ _ _ Hrun Hesc);
           solve [auto | left; split; congruence]).
    apply (out_of_step s Inside Outside); auto.
Qed.

End Escaping.

Section ScannerPositions.

Import Json Lex.

Ltac unfold_scan :=
  cbv beta iota zeta delta
    [scan do_stateBeginValueOrEmpty do_stateBeginValue
     do_stateBeginStringOrEmpty do_stateBeginString do_stateEndValue
     do_stateEndTop do_stateInString do_stateInStringEsc hexThen
     do_stateNeg do_state1 do_state0 do_stateDot do_stateDot0 do_stateE
     do_stateESign do_stateE0 letterThen goto error pushParseState
     popParseState setTop hasErr eof step parseStack endTop tl
     positionOf advance inEscape shadow].

Ltac scanner_cases s :=
  destruct s as [f stack e]; destruct f; destruct stack as [|[] [|? ?]];
  unfold_scan.

Ltac split_ifs :=
  repeat match goal with
         | |- context [if ?b then _ else _] => destruct b
         end.

Lemma scan_settled (s : scanner) (c : ascii) :
  settled s -> settled (scan s c).
Proof.
  unfold settled. scanner_cases s; intros H;
    split_ifs; unfold_scan; intros E; auto;
    try discriminate; try (destruct (H E); discriminate).
Qed.

Lemma fold_settled (data : list ascii) :
  forall s, settled s -> settled (fold_left scan data s).
Proof.
  induction data as [|c data IH]; intros s H; cbn; [exact H |].
  apply IH, scan_settled, H.
Qed.

(** An error stays. *)
Lemma fold_error (data : list ascii) :
  forall s, hasErr s = true -> hasErr (fold_left scan data s) = true.
Proof.
  induction data as [|c data IH]; intros s H; cbn; [exact H |].
  apply IH. destruct s as [[] stack e]; cbn in *; congruence.
Qed.

(** A byte moves the scanner as it moves the position. *)
Lemma scan_advance (s : scanner) (c : ascii) :
  hasErr (scan s c) = false ->
  advance (positionOf (step s)) c = Some (positionOf (step (scan s c))).
Proof.
  destruct (byte_cases c) as [-> | [-> | [Q B]]].
  - destruct s as [f stack e]; destruct f;
      destruct stack as [|[] [|? ?]]; cbn; congruence.
  - destruct s as [f stack e]; destruct f;
      destruct stack as [|[] [|? ?]]; cbn; congruence.
  - scanner_cases s; rewrite ?Q, ?B; split_ifs; unfold_scan;
      rewrite ?Q, ?B; congruence.
Qed.

Lemma fold_run (data : list ascii) :
  forall s,
    hasErr (fold_left scan data s) = false ->
    run (positionOf (step s)) data
    = Some (positionOf (step (fold_left scan data s))).
Proof.
  induction data as [|c data IH]; intros s H; cbn in *; [reflexivity |].
  assert (E : hasErr (scan s c) = false).
  { destruct (hasErr (scan s c)) eqn:E; [| reflexivity].
    now rewrite (fold_error data _ E) in H. }
  rewrite (scan_advance s c E). now apply IH.
Qed.

Lemma eof_outside (s : scanner) :
  settled s -> eof s = true -> positionOf (step s) = Outside.
Proof.
  unfold settled, eof.
  destruct s as [f stack e]; destruct f; cbn; intros H E;
    try reflexivity; try discriminate;
    destruct e; try discriminate;
    destruct (H eq_refl); discriminate.
Qed.

(** A text the scanner accepts ends outside its string literals, and
    has no backslash outside them. *)
Lemma checkValid_run (data : list ascii) :
  checkValid data = true -> run Outside data = Some Outside.
Proof.
  unfold checkValid. intros H.
  assert (S : settled (fold_left scan data reset))
    by (apply fold_settled; intros E; discriminate).
  assert (E : hasErr (fold_left scan data reset) = false).
  { unfold eof in H. now destruct (hasErr _). }
  change (run (positionOf (step reset)) data = Some Outside).
  rewrite (fold_run data reset E). f_equal. exact (eof_outside _ S H).
Qed.

(** While the scanner reads an escape of the payload, the scanner of the
    escaped text is inside the same literal; elsewhere the two agree. *)
Lemma scan_shadow (s : scanner) (c : ascii) :
  hasErr (scan s c) = false ->
  (positionOf (step s) = Escaped -> c <> DQUOTE) ->
  fold_left scan (double c) (shadow s) = shadow (scan s c).
Proof.
  destruct (inEscape (step s)) eqn:I.
  - destruct s as [f stack e]; destruct f; try discriminate I;
      destruct c as [[] [] [] [] [] [] [] []]; cbn; intros H N;
      try reflexivity; try discriminate H;
      exfalso; now apply N.
  - destruct (byte_cases c) as [-> | [-> | [Q B]]]; intros H _.
    + destruct s as [f stack e]; destruct f; try discriminate I;
        destruct stack as [|[] [|? ?]]; cbn in *; congruence.
    + destruct s as [f stack e]; destruct f; try discriminate I;
        destruct stack as [|[] [|? ?]]; cbn in *; congruence.
    + unfold double. rewrite B. cbn [fold_left]. unfold shadow at 1.
      rewrite I. revert H.
      destruct s as [f stack e]; destruct f; try discriminate I;
        destruct stack as [|[] [|? ?]];
        unfold_scan; rewrite ?Q, ?B; split_ifs; unfold_scan;
        congruence.
Qed.

Lemma fold_shadow (data : list ascii) :
  forall s,
    hasErr (fold_left scan data s) = false ->
    escapedQuoteFrom (positionOf (step s)) data = false ->
    fold_left scan (flat_map double data) (shadow s)
    = shadow (fold_left scan data s).
Proof.
  induction data as [|c data IH]; intros s H E;
    cbn [flat_map fold_left]; [reflexivity |].
  rewrite fold_left_app.
  assert (H' : hasErr (scan s c) = false).
  { destruct (hasErr (scan s c)) eqn:X; [| reflexivity].
    cbn in H. now rewrite (fold_error data _ X) in H. }
  cbn [escapedQuoteFrom] in E. apply orb_false_iff in E as [E1 E2].
  rewrite (scan_advance s c H') in E2.
  rewrite scan_shadow; [apply IH; assumption | assumption |].
  intros P ->. rewrite P in E1. discriminate.
Qed.

(** A payload that is valid JSON and holds no escaped double quote is
    still valid JSON once its backslashes are doubled. *)
Lemma escaping_keeps_other_payloads_valid (payload : list ascii) :
  checkValid payload = true ->
  hasEscapedQuote payload = false ->
  checkValid (Jib.escapeSeparators payload) = true.
Proof.
  unfold checkValid, hasEscapedQuote. intros H E.
  assert (S : settled (fold_left scan payload reset))
    by (apply fold_settled; intros X; discriminate).
  assert (X : hasErr (fold_left scan payload reset) = false).
  { unfold eof in H. now destruct (hasErr _). }
  rewrite escapeSeparators_doubles.
  change reset with (shadow reset) at 1.
  rewrite (fold_shadow payload reset X E).
  pose proof (eof_outside _ S H) as O.
  unfold shadow.
  destruct (step (fold_left scan payload reset)); try discriminate O;
    exact H.
Qed.

End ScannerPositions.

(** C10 (as amended): line 138 replaces every backslash of a captured
    payload by two before it is unmarshalled; a payload that is valid JSON
    and holds the escape of a double quote is no longer valid JSON after
    that, so it fails to unmarshal with a syntax error, and the detector
    returns nil for an output one of whose blocks is such a payload. *)
Theorem escaping_breaks_escaped_quotes :
  (forall payload,
      Jib.escapeSeparators payload
      = flat_map (fun c => if Ascii.eqb c BACKSLASH
                           then [BACKSLASH; BACKSLASH] else [c]) payload)
  /\ (forall payload st,
      Json.checkValid payload = true ->
      Lex.hasEscapedQuote payload = true ->
      Json.Unmarshal (Jib.escapeSeparators payload) st
      = (st, Some Json.SyntaxError))
  /\ (forall PluginName w path f content stdout m,
      Jib.classify path = Some f ->
      Jib.ioutil_ReadFile w path = Ok content ->
      Strings.Contains content (Jib.searchString f) = true ->
      Jib.util_RunCmdOut w (Jib.initCommand w f path) = Ok stdout ->
      In m (Regexp.FindAllSubmatch Jib.jibPattern stdout) ->
      Json.checkValid (nth 1 m []) = true ->
      Lex.hasEscapedQuote (nth 1 m []) = true ->
      snd (Jib.ValidateJibConfig PluginName w path) = []).
Proof.
  assert (A : forall payload st,
             Json.checkValid payload = true ->
             Lex.hasEscapedQuote payload = true ->
             Json.Unmarshal (Jib.escapeSeparators payload) st
             = (st, Some Json.SyntaxError)).
  { intros payload st Hv He. unfold Json.Unmarshal.
    destruct (Json.checkValid (Jib.escapeSeparators payload)) eqn:V;
      [| reflexivity].
    exfalso. apply checkValid_run in V. apply checkValid_run in Hv.
    rewrite escapeSeparators_doubles in V.
    refine (in_step payload Lex.Outside Lex.Outside _ Hv He V).
    left. split; congruence. }
  split; [exact escapeSeparators_doubles | split; [exact A |]].
  intros PluginName w path f content stdout m Hf Hr Hc Ho Hin Hv He.
  refine (nil_when_a_block_does_not_unmarshal PluginName w path f content
            stdout m Hf Hr Hc Ho Hin _).
  rewrite (A _ Jib.jibJSON Hv He). discriminate.
Qed.

(** C10, the claim at a payload that holds the escape of a backslash: the
    payload is valid JSON, its escaped form unmarshals without an error,
    the image name now holding two backslashes, and the detector returns
    one result for the output that carries it. *)
Lemma escaped_backslash_still_unmarshals :
  Json.Unmarshal backslashPayload Jib.jibJSON
    = ([("image", "a\b"); ("project", "p")], None)
  /\ Json.Unmarshal (Jib.escapeSeparators backslashPayload) Jib.jibJSON
     = ([("image", "a\\b"); ("project", "p")], None)
  /\ snd (Jib.ValidateJibConfig pluginName (mavenProject backslashOutput)
            "svc/pom.xml")
     = [ {| Jib.BuilderName := "Jib Maven Plugin"; Jib.Image := "a\\b";
            Jib.FilePath := "svc/pom.xml"; Jib.Project := "p" |} ].
Proof. repeat split; vm_compute; reflexivity. Qed.

Lemma escaping_breaks_escaped_quotes_witness :
  Json.Unmarshal quotePayload Jib.jibJSON
    = ([("image", String "a" (String DQUOTE "b")); ("project", "p")], None)
  /\ Json.Unmarshal (Jib.escapeSeparators quotePayload) Jib.jibJSON
     = (Jib.jibJSON, Some Json.SyntaxError)
  /\ snd (Jib.ValidateJibConfig pluginName (mavenProject quoteOutput)
            "svc/pom.xml") = [].
Proof.
  split; [vm_compute; reflexivity | split].
  - apply (proj1 (proj2 escaping_breaks_escaped_quotes) quotePayload
             Jib.jibJSON); vm_compute; reflexivity.
  - apply (proj2 (proj2 escaping_breaks_escaped_quotes) pluginName
             (mavenProject quoteOutput) "svc/pom.xml" mavenFamily
             "<plugin><artifactId>jib-maven-plugin</artifactId></plugin>"
             quoteOutput
             [bytes "BEGIN JIB JSON" ++ [LF] ++ quotePayload;
              quotePayload]);
      try reflexivity.
    vm_compute. left. reflexivity.
Defined.


(* ===================================================================== *)
(** * More on the remote build session: what is cleaned up, and when *)
(* ===================================================================== *)

Section KanikoCleanup.

Import Kaniko.

Variable logLevel : string.
Variable GetBuildArgs : latest_DockerArtifact -> list string.

(** Every path of a session, one goal each. *)
Ltac all_paths w artifact fqn :=
  unfold buildArtifactWithKaniko;
  destruct (sourceSetup w fqn) as [ctx|e0] eqn:Esetup; cbn;
  [ destruct (getClientset w) as [e1|] eqn:Eclient; cbn;
    [ | destruct (DockerArtifact (ArtifactType artifact)) as [a|] eqn:Edocker;
        cbn;
        [ destruct (podsCreate w
                      (kanikoArgs logLevel GetBuildArgs _ a ctx fqn))
            as [p|e2] eqn:Ecreate; cbn;
          [ unfold deletePod;
            destruct (modifyPod w p) as [e3|] eqn:Emodify; cbn;
            [ | destruct (waitForPodComplete w p) as [e4|] eqn:Ewait; cbn;
                [ | destruct (fullRemoteReference w fqn) as [ref oe]
                      eqn:Eref; cbn ] ];
            destruct (podsDelete w p) as [e5|] eqn:Edelete; cbn
          | ]
        | ] ]
  | ].

(** X1: once the build context is set up, its cleanup is the last call of
    the session, and is made once, on every path on which the function
    returns or panics (that is, unless the process is terminated). *)
Theorem context_cleanup_runs_last
    (w : World) (b : Builder) (artifact : latest_Artifact)
    (fqn context : string) :
  sourceSetup w fqn = Ok context ->
  snd (buildArtifactWithKaniko logLevel GetBuildArgs w b artifact fqn)
    <> Exit ->
  exists t,
    fst (buildArtifactWithKaniko logLevel GetBuildArgs w b artifact fqn)
    = SourceSetup fqn :: t ++ [SourceCleanup]
    /\ ~ In SourceCleanup t.
Proof.
  intros Hs. revert Hs. all_paths w artifact fqn; intros Hs Hx;
    try discriminate Hs; try (exfalso; apply Hx; reflexivity).
  all: match goal with
       | |- exists t, SourceSetup _ :: ?l = _ /\ _ =>
           exists (removelast l)
       end; cbn; split; [reflexivity | intuition discriminate].
Qed.

(** X2: the session deletes no pod but the one it created, with a grace
    period of zero; and once it has created a pod it deletes it, once,
    after its last use. *)
Theorem created_pod_is_deleted_once
    (w : World) (b : Builder) (artifact : latest_Artifact) (fqn : string) :
  (forall name grace,
      In (PodsDelete name grace)
         (fst (buildArtifactWithKaniko logLevel GetBuildArgs w b artifact
                 fqn)) ->
      grace = 0%N
      /\ exists args,
           In (PodsCreate args)
              (fst (buildArtifactWithKaniko logLevel GetBuildArgs w b
                      artifact fqn))
           /\ podsCreate w args = Ok name)
  /\ (forall args pod,
      In (PodsCreate args)
         (fst (buildArtifactWithKaniko logLevel GetBuildArgs w b artifact
                 fqn)) ->
      podsCreate w args = Ok pod ->
      exists before after,
        fst (buildArtifactWithKaniko logLevel GetBuildArgs w b artifact fqn)
        = before ++ PodsDelete pod 0 :: after
        /\ In (PodsCreate args) before
        /\ (forall name grace, ~ In (PodsDelete name grace) before)
        /\ (forall name grace, ~ In (PodsDelete name grace) after)
        /\ (forall name, ~ In (ModifyPod name) after)
        /\ (forall name, ~ In (WaitForPodComplete name) after)).
Proof.
  split.
  - intros name grace. all_paths w artifact fqn; intros H;
      repeat (destruct H as [H | H]; try discriminate H);
      try contradiction;
      injection H as <- <-; (split; [reflexivity |]);
      eexists; (split; [right; right; left; reflexivity | exact Ecreate]).
  - intros args pod. all_paths w artifact fqn; intros H Hc;
      repeat (destruct H as [H | H]; try discriminate H);
      try contradiction;
      injection H as <-; rewrite Ecreate in Hc;
      try discriminate Hc; injection Hc as <-.
    all: match goal with
         | |- exists before after,
               ?x1 :: ?x2 :: ?x3 :: ?l = _ /\ _ =>
             match l with
             | context [PodsDelete _ _ :: ?tl] =>
                 exists (x1 :: x2 :: x3 :: removelast (firstn
                           (List.length l - List.length tl) l)), tl
             end
         end; cbn; (split; [reflexivity |]);
      repeat split; try (intros; intuition discriminate);
      right; right; left; reflexivity.
Qed.

(** X3: when the deletion of the pod fails, the fatal log ends the process
    before the remaining deferred call: the build context is not cleaned
    up. *)
Theorem fatal_deletion_skips_context_cleanup
    (w : World) (b : Builder) (artifact : latest_Artifact)
    (fqn context pod : string) (da : latest_DockerArtifact) (err : error) :
  sourceSetup w fqn = Ok context ->
  getClientset w = None ->
  DockerArtifact (ArtifactType artifact) = Some da ->
  podsCreate w (kanikoArgs logLevel GetBuildArgs b da context fqn)
    = Ok pod ->
  podsDelete w pod = Some err ->
  ~ In SourceCleanup
       (fst (buildArtifactWithKaniko logLevel GetBuildArgs w b artifact fqn)).
Proof.
  intros Hs Hc Ha Hp Hd. unfold buildArtifactWithKaniko.
  rewrite Hs, Hc, Ha. cbn. rewrite Hp. cbn. unfold deletePod. rewrite Hd.
  destruct (modifyPod w pod); cbn;
    [| destruct (waitForPodComplete w pod); cbn;
       [| destruct (fullRemoteReference w fqn); cbn ] ];
    intuition discriminate.
Qed.

(** X4: a failure to get the cluster client is returned wrapped with an
    empty message, so that its text starts with a colon; no pod is created
    and the build context is cleaned up. *)
Theorem clientset_failure_has_no_phase_name
    (w : World) (b : Builder) (artifact : latest_Artifact)
    (fqn context : string) (err : error) :
  sourceSetup w fqn = Ok context ->
  getClientset w = Some err ->
  buildArtifactWithKaniko logLevel GetBuildArgs w b artifact fqn
  = ([SourceSetup fqn; GetClientset; SourceCleanup],
     Done ("", Some (withMessage err "")))
  /\ Error (withMessage err "") = ": " +++ Error err.
Proof.
  intros Hs Hc. unfold buildArtifactWithKaniko. rewrite Hs, Hc.
  split; reflexivity.
Qed.

(** X5: an artifact without a Docker variant makes the session panic when
    it reads the Dockerfile path, after the client was obtained; no pod is
    created, and the deferred cleanup of the build context still runs. *)
Theorem missing_docker_artifact_panics
    (w : World) (b : Builder) (artifact : latest_Artifact)
    (fqn context : string) :
  sourceSetup w fqn = Ok context ->
  getClientset w = None ->
  DockerArtifact (ArtifactType artifact) = None ->
  buildArtifactWithKaniko logLevel GetBuildArgs w b artifact fqn
  = ([SourceSetup fqn; GetClientset; SourceCleanup], Panic).
Proof.
  intros Hs Hc Ha. unfold buildArtifactWithKaniko.
  now rewrite Hs, Hc, Ha.
Qed.

(** X6: the session returns a nil error only on the path where every call
    went through: the reference is then the one [FullRemoteReference]
    answered, the log copy has been joined, the pod deleted and the build
    context cleaned up. *)
Theorem nil_error_means_every_phase_went_through
    (w : World) (b : Builder) (artifact : latest_Artifact)
    (fqn reference : string) :
  snd (buildArtifactWithKaniko logLevel GetBuildArgs w b artifact fqn)
    = Done (reference, None) ->
  fullRemoteReference w fqn = (reference, None)
  /\ exists context da pod,
       sourceSetup w fqn = Ok context
       /\ DockerArtifact (ArtifactType artifact) = Some da
       /\ podsCreate w (kanikoArgs logLevel GetBuildArgs b da context fqn)
          = Ok pod
       /\ fst (buildArtifactWithKaniko logLevel GetBuildArgs w b artifact
                 fqn)
          = [SourceSetup fqn; GetClientset;
             PodsCreate (kanikoArgs logLevel GetBuildArgs b da context fqn);
             ModifyPod pod; StreamLogs pod; WaitForPodComplete pod;
             WaitForLogs; FullRemoteReference fqn; PodsDelete pod 0;
             SourceCleanup].
Proof.
  all_paths w artifact fqn; intros H; try discriminate H.
  injection H as -> ->. split; [reflexivity |].
  exists ctx, a, p. repeat split; try reflexivity; assumption.
Qed.

(** X7: with the secret set up, [Build] returns what the builds returned
    and tears the secret down after them, also when they panic; when a
    build has terminated the process the secret is not torn down. *)
Theorem secret_teardown_follows_the_builds
    (w : World) (b : Builder) (BuildArtifact : Type)
    (InParallel :
       list latest_Artifact ->
       (latest_Artifact -> string -> M (string * option error)) ->
       M (list BuildArtifact * option error))
    (artifacts : list latest_Artifact) :
  setupSecret w = None ->
  let builds :=
    InParallel artifacts (buildArtifactWithKaniko logLevel GetBuildArgs w b)
  in
  (snd builds <> Exit ->
   Build logLevel GetBuildArgs w BuildArtifact InParallel b artifacts
   = (SetupSecret :: fst builds ++ [TeardownSecret], snd builds))
  /\ (snd builds = Exit ->
      Build logLevel GetBuildArgs w BuildArtifact InParallel b artifacts
      = (SetupSecret :: fst builds, Exit)).
Proof.
  intros Hs builds. unfold Build. rewrite Hs. fold builds.
  destruct builds as [t [r| |]]; cbn; split; intros H;
    try reflexivity; try discriminate H; now contradiction H.
Qed.

End KanikoCleanup.

(* ===================================================================== *)
(** * More on the Docker backend of the local builder *)
(* ===================================================================== *)

Section DockerBackend.

Import Local.

Variable w : World.
Variable GetBuildArgs : latest_DockerArtifact -> list string.





End DockerBackend.

(* ===================================================================== *)
(** * More on the Jib project detector *)
(* ===================================================================== *)

Lemma Forall2_In_right {A B : Type} (R : A -> B -> Prop)
    (l : list A) (l' : list B) (y : B) :
  Forall2 R l l' -> In y l' -> exists x, In x l /\ R x y.
Proof.
  induction 1 as [|x y' l l' HR _ IH]; intros Hin; [contradiction |].
  destruct Hin as [<- | Hin].
  - exists x. split; [now left | exact HR].
  - destruct (IH Hin) as (x' & Hx & HR'). exists x'. split; [now right |].
    exact HR'.
Qed.

Section DetectorResults.

Import Jib.

Variable PluginName : PluginType -> string.
Variable w : World.

(** The loop either turns every match into a result, in order and
    without a log line, or logs one warning and gives up. *)
Lemma parseMatches_shape
    (t : PluginType) (path : string) (matches : list Regexp.submatches) :
  match parseMatches PluginName t path matches with
  | (tr, Some results) => tr = [] /\ Forall2 (resultOf PluginName t path) matches results
  | (tr, None) =>
      exists err, tr = [Warnf "failed to parse jib json: %s" err]
  end.
Proof.
  induction matches as [|m rest IH]; cbn [parseMatches].
  - cbn. split; [reflexivity | constructor].
  - destruct (Json.Unmarshal (escapeSeparators (nth 1 m [])) jibJSON)
      as [parsed [err|]] eqn:E.
    + cbn. now exists err.
    + destruct (parseMatches PluginName t path rest) as [tr [results|]];
        cbn.
      * destruct IH as [-> IH]. split; [reflexivity |].
        constructor; [| exact IH]. now exists parsed.
      * destruct IH as [err ->]. now exists err.
Qed.

(** The loop goes through when every match unmarshals. *)
Lemma parseMatches_gives_up_or_not
    (t : PluginType) (path : string) (matches : list Regexp.submatches) :
  (forall m,
      In m matches ->
      snd (Json.Unmarshal (escapeSeparators (nth 1 m [])) jibJSON) = None) ->
  exists results,
    snd (parseMatches PluginName t path matches) = Some results.
Proof.
  induction matches as [|m rest IH]; intros Hall; cbn [parseMatches].
  - now exists [].
  - pose proof (Hall m (or_introl eq_refl)) as Hm.
    destruct (Json.Unmarshal (escapeSeparators (nth 1 m [])) jibJSON)
      as [parsed [err|]]; [discriminate Hm |].
    destruct IH as [results Hres];
      [intros m' Hin; apply Hall; now right |].
    destruct (parseMatches PluginName t path rest) as [tr r].
    cbn in *. subst r. now eexists.
Qed.

(** Every path of the detector, one goal each. *)
Ltac detector_paths path :=
  unfold ValidateJibConfig;
  destruct (classify path) as [f|] eqn:Eclass; cbv beta iota zeta;
  [ destruct (ioutil_ReadFile w path) as [content|e0] eqn:Eread;
    cbv beta iota zeta;
    [ destruct (Strings.Contains content (searchString f)) eqn:Emark;
      cbv beta iota zeta delta [negb];
      [ destruct (util_RunCmdOut w (initCommand w f path))
          as [stdout|e1] eqn:Eout; cbv beta iota zeta;
        [ destruct (Regexp.FindAllSubmatch jibPattern stdout)
            as [|m0 rest] eqn:Ematch; cbv beta iota zeta;
          [ | pose proof (parseMatches_shape (builderType f) path
                            (m0 :: rest)) as Hshape;
              destruct (parseMatches PluginName (builderType f) path
                          (m0 :: rest)) as [tr [results|]] ]
        | ]
      | ]
    | ]
  | ];
  cbn [bind emit ret fst snd app].

(** X11: every result carries the path that was probed and the name of
    the plugin of the family the path belongs to. *)
Theorem results_carry_path_and_plugin (path : string) (j : Jib) :
  In j (snd (ValidateJibConfig PluginName w path)) ->
  FilePath j = path
  /\ exists f,
       classify path = Some f
       /\ BuilderName j = PluginName (builderType f).
Proof.
  detector_paths path; intros H; try contradiction.
  destruct Hshape as [_ Hall].
  destruct (Forall2_In_right _ _ _ _ Hall H) as (m & _ & parsed & _ & ->).
  cbn. split; [reflexivity |]. now exists f.
Qed.

(** X12: when every marker block of the output unmarshals, the detector
    returns one result per block, in the order of the blocks, each with
    the image and the project of its block, and logs nothing. *)
Theorem one_result_per_block
    (path : string) (f : family) (content : string) (stdout : list ascii) :
  classify path = Some f ->
  ioutil_ReadFile w path = Ok content ->
  Strings.Contains content (searchString f) = true ->
  util_RunCmdOut w (initCommand w f path) = Ok stdout ->
  (forall m,
      In m (Regexp.FindAllSubmatch jibPattern stdout) ->
      snd (Json.Unmarshal (escapeSeparators (nth 1 m [])) jibJSON) = None) ->
  Forall2 (resultOf PluginName (builderType f) path)
          (Regexp.FindAllSubmatch jibPattern stdout)
          (snd (ValidateJibConfig PluginName w path))
  /\ forall format err,
       ~ In (Warnf format err) (fst (ValidateJibConfig PluginName w path)).
Proof.
  intros Hf Hr Hc Ho Hall.
  rewrite (detection_after_gates PluginName w path f content stdout
             Hf Hr Hc Ho).
  destruct (Regexp.FindAllSubmatch jibPattern stdout) as [|m0 rest] eqn:E.
  - cbn. split; [constructor | intuition discriminate].
  - pose proof (parseMatches_shape (builderType f) path (m0 :: rest))
      as Hshape.
    destruct (parseMatches_gives_up_or_not (builderType f) path
                (m0 :: rest) Hall) as [results Hres].
    destruct (parseMatches PluginName (builderType f) path (m0 :: rest))
      as [tr r].
    cbn in Hres. subst r. destruct Hshape as [-> Hshape].
    cbn. split; [exact Hshape | intuition discriminate].
Qed.

(** X13: a warning is logged at most once per call, as the last thing
    the detector does, and only when it returns nil: results never come
    with a warning. *)
Theorem warning_means_no_results
    (path : string) (format : string) (err : Json.json_error) :
  In (Warnf format err) (fst (ValidateJibConfig PluginName w path)) ->
  snd (ValidateJibConfig PluginName w path) = []
  /\ format = "failed to parse jib json: %s"
  /\ exists t,
       fst (ValidateJibConfig PluginName w path) = t ++ [Warnf format err]
       /\ forall format' err', ~ In (Warnf format' err') t.
Proof.
  detector_paths path; intros H;
    repeat (destruct H as [H | H]; try discriminate H);
    try contradiction.
  - destruct Hshape as [-> _]. cbn in H. contradiction.
  - destruct Hshape as [err0 ->]. cbn in H.
    destruct H as [H | []]. injection H as <- <-.
    split; [reflexivity | split; [reflexivity |]].
    eexists [ReadFile path; AbsFile _ _; RunCmdOut _].
    split; [reflexivity |]. cbn. intuition discriminate.
Qed.

(** X14: detection is silent about what keeps it from an answer: a file
    that cannot be read, a command that fails and an output without a
    marker block each give nil without a warning; an unreadable file is
    not even followed by the command. *)
Theorem failures_give_nil_silently (path : string) (f : family) :
  classify path = Some f ->
  (forall e,
      ioutil_ReadFile w path = Err e ->
      ValidateJibConfig PluginName w path = ([ReadFile path], []))
  /\ (forall content e,
      ioutil_ReadFile w path = Ok content ->
      Strings.Contains content (searchString f) = true ->
      util_RunCmdOut w (initCommand w f path) = Err e ->
      ValidateJibConfig PluginName w path
      = ([ReadFile path; AbsFile (filepath_Dir w path) (wrapper f);
          RunCmdOut (initCommand w f path)], []))
  /\ (forall content stdout,
      ioutil_ReadFile w path = Ok content ->
      Strings.Contains content (searchString f) = true ->
      util_RunCmdOut w (initCommand w f path) = Ok stdout ->
      Regexp.FindAllSubmatch jibPattern stdout = [] ->
      ValidateJibConfig PluginName w path
      = ([ReadFile path; AbsFile (filepath_Dir w path) (wrapper f);
          RunCmdOut (initCommand w f path)], [])).
Proof.
  intros Hf. repeat split.
  - intros e Hr. unfold ValidateJibConfig. now rewrite Hf, Hr.
  - intros content e Hr Hc Ho. unfold ValidateJibConfig.
    rewrite Hf, Hr, Hc. cbv zeta. cbn [negb]. now rewrite Ho.
  - intros content stdout Hr Hc Ho Hm.
    rewrite (detection_after_gates PluginName w path f content stdout
               Hf Hr Hc Ho).
    now rewrite Hm.
Qed.

(** X15: the detector runs at most one command; it runs it in the
    directory of the probed file, with the init task of the family and
    [-q] as arguments, and as executable the wrapper script of that
    directory when [util.AbsFile] finds one, the bare tool otherwise. *)
Theorem command_prefers_the_wrapper (path : string) (cmd : Cmd) :
  In (RunCmdOut cmd) (fst (ValidateJibConfig PluginName w path)) ->
  (exists f,
     classify path = Some f
     /\ Dir cmd = filepath_Dir w path
     /\ Args cmd
        = [ match util_AbsFile w (filepath_Dir w path) (wrapper f) with
            | Ok wrapperExecutable => wrapperExecutable
            | Err _ => executable f
            end;
            taskName f; "-q" ])
  /\ exists before after,
       fst (ValidateJibConfig PluginName w path)
       = before ++ RunCmdOut cmd :: after
       /\ (forall c, ~ In (RunCmdOut c) before)
       /\ (forall c, ~ In (RunCmdOut c) after).
Proof.
  detector_paths path;
    try (destruct Hshape as [-> _]); try (destruct Hshape as [err0 ->]);
    cbn [app]; intros H;
    repeat (destruct H as [H | H]; try discriminate H);
    try contradiction;
    injection H as <-;
    (split; [exists f; repeat split; reflexivity |]);
    exists [ReadFile path; AbsFile (filepath_Dir w path) (wrapper f)];
    eexists; (split; [reflexivity |]);
    split; intros c; cbn; intuition discriminate.
Qed.

End DetectorResults.

(* ===================================================================== *)
(** * Which files the detector takes for build files *)
(* ===================================================================== *)

Lemma length_append (s t : string) :
  String.length (s +++ t) = String.length s + String.length t.
Proof. induction s as [|c s IH]; cbn; [reflexivity | now rewrite IH]. Qed.

Lemma substring_whole (s : string) :
  substring 0 (String.length s) s = s.
Proof. induction s as [|c s IH]; cbn; [reflexivity | now rewrite IH]. Qed.

Lemma substring_after (p s : string) (n m : nat) :
  substring (String.length p + n) m (p +++ s) = substring n m s.
Proof. induction p as [|c p IH]; cbn; [reflexivity | exact IH]. Qed.

(** Whether a string ends in [suffix] is decided by its last bytes. *)
Lemma HasSuffix_append (p s suffix : string) :
  String.length suffix <= String.length s ->
  Strings.HasSuffix (p +++ s) suffix = Strings.HasSuffix s suffix.
Proof.
  intros H. unfold Strings.HasSuffix. rewrite length_append.
  replace (String.length p + String.length s - String.length suffix)
    with (String.length p + (String.length s - String.length suffix))
    by lia.
  rewrite substring_after.
  replace (Nat.leb (String.length suffix)
             (String.length p + String.length s)) with true
    by (symmetry; apply Nat.leb_le; lia).
  replace (Nat.leb (String.length suffix) (String.length s)) with true
    by (symmetry; apply Nat.leb_le; lia).
  reflexivity.
Qed.

(** X16: the family of a file is read off the end of its path alone,
    whatever comes before it (a directory, or more letters of a file
    name): a path ending in [pom.xml] is probed with Maven, a path ending
    in [build.gradle] or [build.gradle.kts] with Gradle. *)
Theorem family_is_decided_by_the_suffix (dir : string) :
  Jib.classify (dir +++ "pom.xml")
  = Some {| Jib.builderType := Jib.JibMaven;
            Jib.executable := "mvn";
            Jib.wrapper := "mvnw";
            Jib.searchString := "<artifactId>jib-maven-plugin</artifactId>";
            Jib.taskName := "jib:_skaffold-init" |}
  /\ Jib.classify (dir +++ "build.gradle")
     = Some {| Jib.builderType := Jib.JibGradle;
               Jib.executable := "gradle";
               Jib.wrapper := "gradlew";
               Jib.searchString := "com.google.cloud.tools.jib";
               Jib.taskName := "_jibSkaffoldInit" |}
  /\ Jib.classify (dir +++ "build.gradle.kts")
     = Jib.classify (dir +++ "build.gradle").
Proof.
  unfold Jib.classify.
  rewrite (HasSuffix_append dir "pom.xml" "pom.xml") by (cbn; lia).
  rewrite (HasSuffix_append dir "build.gradle" "pom.xml") by (cbn; lia).
  rewrite (HasSuffix_append dir "build.gradle" "build.gradle")
    by (cbn; lia).
  rewrite (HasSuffix_append dir "build.gradle.kts" "pom.xml")
    by (cbn; lia).
  rewrite (HasSuffix_append dir "build.gradle.kts" "build.gradle")
    by (cbn; lia).
  rewrite (HasSuffix_append dir "build.gradle.kts" "build.gradle.kts")
    by (cbn; lia).
  repeat split.
Qed.

(* ===================================================================== *)
(** * The tar stream of a Docker build context *)
(* ===================================================================== *)

Section TarContext.

Import DockerContext.

Variable w : World.

(** The loop appends in order: it is a map. *)
Lemma absolutePaths_map (workspace : string) (paths : list string) :
  absolutePaths w workspace paths = map (filepath_Join w workspace) paths.
Proof.
  unfold absolutePaths.
  assert (G : forall acc,
             fold_left (fun p path => p ++ [filepath_Join w workspace path])
                       paths acc
             = acc ++ map (filepath_Join w workspace) paths).
  { induction paths as [|x paths IH]; intros acc; cbn.
    - now rewrite app_nil_r.
    - rewrite IH. now rewrite <- app_assoc. }
  exact (G []).
Qed.

(** X17: no tar is written when the dependencies cannot be resolved, the
    failure being returned wrapped with "getting relative tar paths";
    otherwise the tar is written once, rooted at the workspace, from one
    path per dependency, in the order of the dependencies, each joined to
    the workspace, and its failure is returned wrapped with
    "creating tar gz". *)
Theorem tar_holds_one_path_per_dependency
    (workspace : string) (a : latest_DockerArtifact) :
  (forall err,
      getDependencies w workspace (DockerfilePath a) (BuildArgs a)
      = Err err ->
      CreateDockerTarContext w workspace a
      = ([GetDependencies workspace (DockerfilePath a) (BuildArgs a)],
         Some (withMessage err "getting relative tar paths")))
  /\ (forall paths,
      getDependencies w workspace (DockerfilePath a) (BuildArgs a)
      = Ok paths ->
      exists p,
        p = map (filepath_Join w workspace) paths
        /\ List.length p = List.length paths
        /\ fst (CreateDockerTarContext w workspace a)
           = [GetDependencies workspace (DockerfilePath a) (BuildArgs a);
              CreateTar workspace p]
        /\ snd (CreateDockerTarContext w workspace a)
           = match util_CreateTar w workspace p with
             | Some err => Some (withMessage err "creating tar gz")
             | None => None
             end).
Proof.
  split.
  - intros err H. unfold CreateDockerTarContext. now rewrite H.
  - intros paths H. exists (map (filepath_Join w workspace) paths).
    unfold CreateDockerTarContext. rewrite H, absolutePaths_map. cbn.
    split; [reflexivity |]. split; [apply length_map |].
    split; [reflexivity |].
    now destruct (util_CreateTar w workspace _).
Qed.

End TarContext.

(* ===================================================================== *)
(** * Turning a detected Jib project into an artifact *)
(* ===================================================================== *)

Section JibArtifacts.

Import JibBuilder.

Variable ArtifactTypeOf : Type.
Variable jibArtifactType : string -> ArtifactTypeOf.
Variable filepath_Dir : string -> string.

(** X18: an update replaces whatever artifact type there was by the Jib
    one of the project, keeps the image name, and moves the workspace to
    the directory of the build file unless that directory is ".", in
    which case the workspace stays as it was, also when it was set by an
    earlier update; updating twice with one project is updating once. *)
Theorem UpdateArtifact_composes
    (j j' : Jib.Jib) (a : Artifact ArtifactTypeOf) :
  UpdateArtifact ArtifactTypeOf jibArtifactType filepath_Dir j
    (UpdateArtifact ArtifactTypeOf jibArtifactType filepath_Dir j' a)
  = {| ImageName := ImageName ArtifactTypeOf a;
       Workspace :=
         if String.eqb (filepath_Dir (Jib.FilePath j)) "."
         then if String.eqb (filepath_Dir (Jib.FilePath j')) "."
              then Workspace ArtifactTypeOf a
              else filepath_Dir (Jib.FilePath j')
         else filepath_Dir (Jib.FilePath j);
       ArtifactType := jibArtifactType (Jib.Project j) |}
  /\ UpdateArtifact ArtifactTypeOf jibArtifactType filepath_Dir j
       (UpdateArtifact ArtifactTypeOf jibArtifactType filepath_Dir j a)
     = UpdateArtifact ArtifactTypeOf jibArtifactType filepath_Dir j a.
Proof.
  unfold UpdateArtifact. cbn.
  destruct (String.eqb (filepath_Dir (Jib.FilePath j)) ".");
    destruct (String.eqb (filepath_Dir (Jib.FilePath j')) ".");
    split; reflexivity.
Qed.

End JibArtifacts.

(* ===================================================================== *)
(** * Payloads with raw backslashes *)
(* ===================================================================== *)

Section RawBackslashes.

Import Json Lex.

Lemma plainByte_facts (c : ascii) :
  plainByte c = true ->
  Ascii.eqb c DQUOTE = false
  /\ N.ltb (N_of_ascii c) 32 = false
  /\ N.ltb (N_of_ascii c) 128 = true.
Proof.
  unfold plainByte. intros H.
  apply andb_true_iff in H as [H Hq]. apply andb_true_iff in H as [Hlo Hhi].
  repeat split.
  - now destruct (Ascii.eqb c DQUOTE).
  - apply N.ltb_ge. now apply N.leb_le.
  - exact Hhi.
Qed.

(** Inside a literal, the scanner reads the doubled form of plain bytes
    and stays where it is. *)
Lemma scan_plain (l : list ascii) (stack : list parseState) (e : bool) :
  forallb plainByte l = true ->
  fold_left scan (flat_map double l)
    {| step := stateInString; parseStack := stack; endTop := e |}
  = {| step := stateInString; parseStack := stack; endTop := e |}.
Proof.
  induction l as [|c l IH]; intros H; [reflexivity |].
  cbn [forallb] in H. apply andb_true_iff in H as [Hc Hl].
  destruct (plainByte_facts c Hc) as (Q & Lo & _).
  cbn [flat_map]. rewrite fold_left_app.
  destruct (Ascii.eqb c BACKSLASH) eqn:B.
  - apply Ascii.eqb_eq in B. subst c.
    change (fold_left scan (double BACKSLASH)
              {| step := stateInString; parseStack := stack; endTop := e |})
      with {| step := stateInString; parseStack := stack; endTop := e |}.
    exact (IH Hl).
  - change (double c)
      with (if Ascii.eqb c BACKSLASH then [BACKSLASH; BACKSLASH] else [c]).
    rewrite B. cbn [fold_left].
    unfold scan at 2. cbn [step]. unfold do_stateInString.
    rewrite Q, B, Lo. exact (IH Hl).
Qed.

(** The literal that holds the doubled form of plain bytes ends at the
    quote that follows them. *)
Lemma stringLit_plain (l rest : list ascii) :
  forallb plainByte l = true ->
  stringLit (flat_map double l ++ DQUOTE :: rest)
  = Some (flat_map double l, rest).
Proof.
  induction l as [|c l IH]; intros H; [reflexivity |].
  cbn [forallb] in H. apply andb_true_iff in H as [Hc Hl].
  destruct (plainByte_facts c Hc) as (Q & _ & _).
  cbn [flat_map]. destruct (Ascii.eqb c BACKSLASH) eqn:B.
  - apply Ascii.eqb_eq in B. subst c.
    change (double BACKSLASH) with [BACKSLASH; BACKSLASH].
    cbn [app stringLit].
    change (Ascii.eqb BACKSLASH DQUOTE) with false.
    change (Ascii.eqb BACKSLASH BACKSLASH) with true.
    cbv beta iota. now rewrite (IH Hl).
  - replace (double c) with [c] by (unfold double; now rewrite B).
    cbn [app stringLit]. now rewrite Q, B, (IH Hl).
Qed.

(** Unquoting the doubled form of plain bytes gives the bytes back. *)
Lemma unquote_plain (l : list ascii) :
  forallb plainByte l = true ->
  unquote (flat_map double l) = Some l.
Proof.
  unfold unquote.
  induction l as [|c l IH]; intros H; [reflexivity |].
  cbn [forallb] in H. apply andb_true_iff in H as [Hc Hl].
  destruct (plainByte_facts c Hc) as (Q & Lo & Hi).
  cbn [flat_map]. destruct (Ascii.eqb c BACKSLASH) eqn:B.
  - apply Ascii.eqb_eq in B. subst c.
    change (double BACKSLASH) with [BACKSLASH; BACKSLASH].
    cbn [app unquoteFrom].
    change (Ascii.eqb BACKSLASH BACKSLASH) with true.
    change (Ascii.eqb BACKSLASH "u") with false.
    change (escaped BACKSLASH) with (Some BACKSLASH).
    cbv beta iota. now rewrite (IH Hl).
  - replace (double c) with [c] by (unfold double; now rewrite B).
    cbn [app unquoteFrom].
    rewrite B, Q, Lo, Hi. cbn [orb]. now rewrite (IH Hl).
Qed.

Lemma stringValue_plain (l rest : list ascii) :
  forallb plainByte l = true ->
  stringValue (flat_map double l ++ DQUOTE :: rest) = Some (Str l, rest).
Proof.
  intros H. unfold stringValue.
  now rewrite (stringLit_plain l rest H), (unquote_plain l H).
Qed.

End RawBackslashes.
Section RawBackslashes2.

Import Json Lex.

(** The text of an object with two string members. *)
Lemma two_members_are_valid (k1 v1 k2 v2 : list ascii) :
  forallb plainByte k1 = true -> forallb plainByte v1 = true ->
  forallb plainByte k2 = true -> forallb plainByte v2 = true ->
  checkValid
    ("{"%char :: DQUOTE :: flat_map double k1
     ++ DQUOTE :: ":"%char :: DQUOTE :: flat_map double v1
     ++ DQUOTE :: ","%char :: DQUOTE :: flat_map double k2
     ++ DQUOTE :: ":"%char :: DQUOTE :: flat_map double v2
     ++ [DQUOTE; "}"%char]) = true.
Proof.
  intros H1 H2 H3 H4. unfold checkValid. cbn [fold_left].
  repeat (rewrite fold_left_app;
          match goal with
          | |- context [fold_left scan (flat_map double ?l) ?s] =>
              let s' := eval vm_compute in s in change s with s'
          end;
          rewrite scan_plain by assumption; cbn [fold_left]).
  reflexivity.
Qed.

Lemma two_members_parse (k1 v1 k2 v2 : list ascii) (fuel : nat) :
  forallb plainByte k1 = true -> forallb plainByte v1 = true ->
  forallb plainByte k2 = true -> forallb plainByte v2 = true ->
  parseValue (S (S (S (S (S fuel)))))
    ("{"%char :: DQUOTE :: flat_map double k1
     ++ DQUOTE :: ":"%char :: DQUOTE :: flat_map double v1
     ++ DQUOTE :: ","%char :: DQUOTE :: flat_map double k2
     ++ DQUOTE :: ":"%char :: DQUOTE :: flat_map double v2
     ++ [DQUOTE; "}"%char])
  = Some (Object [(k1, Str v1); (k2, Str v2)], []).
Proof.
  intros H1 H2 H3 H4.
  cbn -[stringValue].
  rewrite stringValue_plain by assumption. cbn -[stringValue].
  rewrite stringValue_plain by assumption. cbn -[stringValue].
  rewrite stringValue_plain by assumption. cbn -[stringValue].
  rewrite stringValue_plain by assumption. cbn -[stringValue].
  reflexivity.
Qed.

(** A payload of two plain texts unmarshals, once escaped, to these
    texts. *)
Lemma plain_payload_unmarshals (image project : list ascii) :
  forallb plainByte image = true ->
  forallb plainByte project = true ->
  Unmarshal (Jib.escapeSeparators (payloadOf image project)) Jib.jibJSON
  = ([("image", string_of_list_ascii image);
      ("project", string_of_list_ascii project)], None).
Proof.
  intros Hi Hp. rewrite escapeSeparators_doubles. unfold payloadOf.
  rewrite !flat_map_app.
  change (flat_map double (quoted "{'image':'") ++ flat_map double image
          ++ flat_map double (quoted "','project':'")
          ++ flat_map double project ++ flat_map double (quoted "'}"))
    with ("{"%char :: DQUOTE :: flat_map double (bytes "image")
          ++ DQUOTE :: ":"%char :: DQUOTE :: flat_map double image
          ++ DQUOTE :: ","%char :: DQUOTE :: flat_map double (bytes "project")
          ++ DQUOTE :: ":"%char :: DQUOTE :: flat_map double project
          ++ [DQUOTE; "}"%char]).
  assert (Ki : forallb plainByte (bytes "image") = true) by reflexivity.
  assert (Kp : forallb plainByte (bytes "project") = true) by reflexivity.
  unfold Unmarshal.
  rewrite (two_members_are_valid _ _ _ _ Ki Hi Kp Hp).
  match goal with
  | |- context [parseValue (S (List.length ?d)) ?d] =>
      assert (F : exists fuel, List.length d = S (S (S (S fuel))))
  end.
  { cbn [List.length]. rewrite length_app. cbn [List.length].
    rewrite !Nat.add_succ_r. eexists. reflexivity. }
  destruct F as [fuel ->].
  rewrite (two_members_parse _ _ _ _ fuel Ki Hi Kp Hp).
  reflexivity.
Qed.

(** X19: the escaping of line 138 makes raw backslashes safe: when the
    image and the project of a payload are written as they are, in
    printable ASCII without a double quote, backslashes included, the
    escaped payload unmarshals to exactly these two texts. *)
Theorem raw_backslashes_survive (image project : list ascii) :
  forallb plainByte image = true ->
  forallb plainByte project = true ->
  Unmarshal (Jib.escapeSeparators (payloadOf image project)) Jib.jibJSON
  = ([("image", string_of_list_ascii image);
      ("project", string_of_list_ascii project)], None).
Proof. exact (plain_payload_unmarshals image project). Qed.

End RawBackslashes2.

(* ===================================================================== *)
(** * One marker block in the output *)
(* ===================================================================== *)

Section OneBlock.

Import Regexp.

Lemma run_star (R : Type) (s : list ascii) (caps : submatches)
    (k : list ascii -> submatches -> option R) :
  run (Star AnyNotNL) s caps k = starAnyNotNL k (List.length s) s caps.
Proof.
  change (run (Star AnyNotNL) s caps k)
    with ((fix star (fuel : nat) (s : list ascii) (caps : submatches)
             {struct fuel} : option R :=
             match fuel with
             | O => k s caps
             | S fuel' =>
                 match run AnyNotNL s caps
                         (fun s' caps' =>
                            if Nat.ltb (List.length s') (List.length s)
                            then star fuel' s' caps'
                            else None) with
                 | Some m => Some m
                 | None => k s caps
                 end
             end) (List.length s) s caps).
  generalize (List.length s). intros fuel. revert s caps.
  induction fuel as [|fuel IH]; intros s caps; [reflexivity |].
  cbn [starAnyNotNL]. destruct s as [|c s]; [reflexivity |].
  cbn [run]. destruct (Ascii.eqb c LF); [reflexivity |].
  destruct (Nat.ltb (List.length s) (List.length (c :: s)));
    [| reflexivity].
  now rewrite IH.
Qed.

(** On a line that ends in a closing brace, [.*] runs to the end of the
    line and gives back the brace. *)
Lemma star_runs_to_the_brace (R : Type)
    (k : list ascii -> submatches -> option R)
    (rest : list ascii) (res : R) (body : list ascii) :
  (forall caps, k (LF :: rest) caps = None) ->
  oneLine body = true ->
  forall fuel caps,
    List.length body <= fuel ->
    k ("}"%char :: LF :: rest) caps = Some res ->
    starAnyNotNL k fuel (body ++ "}"%char :: LF :: rest) caps = Some res.
Proof.
  intros Hlf. induction body as [|c body IH]; intros Hline fuel caps Hfuel Hk.
  - destruct fuel as [|fuel]; cbn [app starAnyNotNL]; [exact Hk |].
    cbn [run]. change (Ascii.eqb "}" LF) with false. cbv beta iota.
    cbn [List.length]. rewrite (proj2 (Nat.ltb_lt _ _) (Nat.lt_succ_diag_r _)).
    destruct fuel as [|fuel]; cbn [starAnyNotNL run];
      change (Ascii.eqb LF LF) with true; cbv beta iota;
      rewrite ?Hlf; exact Hk.
  - cbn [oneLine forallb] in Hline.
    apply andb_true_iff in Hline as [Hc Hline].
    destruct fuel as [|fuel]; [cbn in Hfuel; lia |].
    cbn [app starAnyNotNL run].
    destruct (Ascii.eqb c LF); [discriminate Hc |].
    cbn [List.length]. rewrite (proj2 (Nat.ltb_lt _ _) (Nat.lt_succ_diag_r _)).
    rewrite (IH Hline fuel caps); [reflexivity | cbn in Hfuel; lia | exact Hk].
Qed.

Lemma run_lits (R : Type) (str : string) (r : re) (s : list ascii)
    (caps : submatches) (k : list ascii -> submatches -> option R) :
  run (lits str r) (bytes str ++ s) caps k = run r s caps k.
Proof.
  induction str as [|c str IH]; [reflexivity |].
  cbn [lits bytes list_ascii_of_string app run].
  rewrite Ascii.eqb_refl. exact IH.
Qed.

Lemma firstn_front {A : Type} (a b : list A) :
  firstn (List.length (a ++ b) - List.length b) (a ++ b) = a.
Proof.
  rewrite length_app, Nat.add_sub.
  rewrite firstn_app, Nat.sub_diag, firstn_all. cbn. apply app_nil_r.
Qed.

Lemma run_seq (R : Type) (r1 r2 : re) (s : list ascii) (caps : submatches)
    (k : list ascii -> submatches -> option R) :
  run (Seq r1 r2) s caps k
  = run r1 s caps (fun s' caps' => run r2 s' caps' k).
Proof. reflexivity. Qed.

Lemma run_lit (R : Type) (c : ascii) (s : list ascii) (caps : submatches)
    (k : list ascii -> submatches -> option R) :
  run (Lit c) (c :: s) caps k = k s caps.
Proof. cbn [run]. now rewrite Ascii.eqb_refl. Qed.

Lemma run_quest_miss (R : Type) (c x : ascii) (s : list ascii)
    (caps : submatches) (k : list ascii -> submatches -> option R) :
  Ascii.eqb x c = false ->
  run (Quest (Lit c)) (x :: s) caps k = k (x :: s) caps.
Proof. intros H. cbn [run]. now rewrite H. Qed.

Lemma run_group (R : Type) (i : nat) (r : re) (s : list ascii)
    (caps : submatches) (k : list ascii -> submatches -> option R) :
  run (Group i r) s caps k
  = run r s caps
      (fun s' caps' =>
         k s' (setNth i (firstn (List.length s - List.length s') s) caps')).
Proof. reflexivity. Qed.

(** The pattern matches a marker line followed by a line that starts and
    ends with a brace, and captures that line. *)
Lemma run_block (R : Type) (body rest : list ascii) (caps : submatches)
    (k : list ascii -> submatches -> option R) (res : R) :
  oneLine body = true ->
  k (LF :: rest) (setNth 1 ("{"%char :: body ++ ["}"%char]) caps)
  = Some res ->
  run Jib.jibPattern
    (bytes "BEGIN JIB JSON" ++ LF :: "{"%char :: body
     ++ "}"%char :: LF :: rest) caps k
  = Some res.
Proof.
  intros Hline Hk. unfold Jib.jibPattern.
  rewrite run_lits, run_seq, run_quest_miss by reflexivity.
  rewrite run_seq, run_lit, run_group, run_seq, run_lit, run_seq, run_star.
  apply star_runs_to_the_brace with (rest := rest);
    [ intros caps'; reflexivity
    | exact Hline
    | rewrite length_app; lia
    | ].
  rewrite run_lit.
  replace ("{"%char :: body ++ "}"%char :: LF :: rest)
    with (("{"%char :: body ++ ["}"%char]) ++ LF :: rest)
    by (cbn [app]; now rewrite <- app_assoc).
  rewrite firstn_front. exact Hk.
Qed.

Lemma matchHere_block (body rest : list ascii) :
  oneLine body = true ->
  matchHere Jib.jibPattern
    (bytes "BEGIN JIB JSON" ++ LF :: "{"%char :: body
     ++ "}"%char :: LF :: rest)
  = Some [bytes "BEGIN JIB JSON" ++ LF :: "{"%char :: body ++ ["}"%char];
          "{"%char :: body ++ ["}"%char]].
Proof.
  intros Hline. unfold matchHere.
  apply run_block; [exact Hline |].
  replace (bytes "BEGIN JIB JSON" ++ LF :: "{"%char :: body
           ++ "}"%char :: LF :: rest)
    with ((bytes "BEGIN JIB JSON" ++ LF :: "{"%char :: body
           ++ ["}"%char]) ++ LF :: rest)
    by (rewrite <- app_assoc; cbn [app]; now rewrite <- app_assoc).
  now rewrite firstn_front.
Qed.

Lemma findAllFrom_skip (r : re) (a b : list ascii) :
  findAllFrom r (List.length a) (a ++ b) = findAllFrom r 0 b.
Proof. induction a as [|c a IH]; [reflexivity | exact IH]. Qed.

(** An output that is one marker block, each of its two lines ended by a
    line feed, has one match, which captures the second line. *)
Lemma one_block_one_match (body : list ascii) :
  oneLine body = true ->
  FindAllSubmatch Jib.jibPattern
    (bytes "BEGIN JIB JSON" ++ LF :: "{"%char :: body ++ ["}"%char; LF])
  = [[bytes "BEGIN JIB JSON" ++ LF :: "{"%char :: body ++ ["}"%char];
      "{"%char :: body ++ ["}"%char]]].
Proof.
  intros Hline. unfold FindAllSubmatch.
  pose proof (matchHere_block body [] Hline) as M.
  set (whole := bytes "BEGIN JIB JSON" ++ LF :: "{"%char :: body
                ++ ["}"%char]) in *.
  assert (W : exists c tail,
             whole = c :: tail
             /\ bytes "BEGIN JIB JSON" ++ LF :: "{"%char :: body
                ++ ["}"%char; LF] = c :: tail ++ [LF]).
  { exists "B"%char. eexists. split; [reflexivity |].
    cbn [bytes list_ascii_of_string app]. do 16 f_equal.
    now rewrite <- app_assoc. }
  destruct W as (c & tail & W1 & W2).
  rewrite W2 in M |- *. cbn [findAllFrom]. rewrite M.
  cbn [nth]. rewrite W1. cbn [List.length Nat.sub]. rewrite Nat.sub_0_r.
  now rewrite findAllFrom_skip.
Qed.

End OneBlock.

Section OneModule.

Import Jib.

Variable PluginName : PluginType -> string.
Variable w : World.

Lemma plain_is_one_line (l : list ascii) :
  forallb plainByte l = true -> oneLine l = true.
Proof.
  unfold oneLine. induction l as [|c l IH]; intros H; [reflexivity |].
  cbn [forallb] in *. apply andb_true_iff in H as [Hc Hl].
  rewrite (IH Hl), andb_true_r.
  destruct (Ascii.eqb c LF) eqn:E; [| reflexivity].
  apply Ascii.eqb_eq in E. subst c. discriminate Hc.
Qed.

(** The payload of a module is one line between braces. *)
Lemma payloadOf_is_a_block (image project : list ascii) :
  forallb plainByte image = true ->
  forallb plainByte project = true ->
  exists body,
    payloadOf image project = "{"%char :: body ++ ["}"%char]
    /\ oneLine body = true.
Proof.
  intros Hi Hp.
  exists (quoted "'image':'" ++ image ++ quoted "','project':'" ++ project
          ++ quoted "'").
  split.
  - unfold payloadOf. cbn [quoted list_ascii_of_string map app].
    repeat (rewrite <- app_assoc; cbn [app]). reflexivity.
  - unfold oneLine. rewrite !forallb_app.
    fold (oneLine image). fold (oneLine project).
    rewrite (plain_is_one_line image Hi), (plain_is_one_line project Hp).
    reflexivity.
Qed.

(** X20: a module is detected with its texts as printed: when the command
    prints one marker block whose image and project are written in
    printable ASCII without a double quote, backslashes included, the
    detector returns one result, with exactly that image and that
    project, and logs no warning. *)
Theorem module_is_detected_as_printed
    (path : string) (f : family) (content : string)
    (image project : list ascii) :
  classify path = Some f ->
  ioutil_ReadFile w path = Ok content ->
  Strings.Contains content (searchString f) = true ->
  forallb plainByte image = true ->
  forallb plainByte project = true ->
  util_RunCmdOut w (initCommand w f path)
  = Ok (bytes "BEGIN JIB JSON" ++ [LF] ++ payloadOf image project ++ [LF]) ->
  ValidateJibConfig PluginName w path
  = ([ReadFile path; AbsFile (filepath_Dir w path) (wrapper f);
      RunCmdOut (initCommand w f path)],
     [ {| BuilderName := PluginName (builderType f);
          Image := string_of_list_ascii image;
          FilePath := path;
          Project := string_of_list_ascii project |} ]).
Proof.
  intros Hf Hr Hc Hi Hp Ho.
  rewrite (detection_after_gates PluginName w path f content _ Hf Hr Hc Ho).
  destruct (payloadOf_is_a_block image project Hi Hp) as (body & E & Hline).
  replace (bytes "BEGIN JIB JSON" ++ [LF] ++ payloadOf image project ++ [LF])
    with (bytes "BEGIN JIB JSON" ++ LF :: "{"%char :: body
          ++ ["}"%char; LF])
    by (rewrite E; cbn [app]; now rewrite <- app_assoc).
  rewrite (one_block_one_match body Hline). rewrite <- E.
  cbn [parseMatches nth].
  rewrite (plain_payload_unmarshals image project Hi Hp).
  reflexivity.
Qed.

End OneModule.

(* ===================================================================== *)
(** * Which payloads the escaping breaks *)
(* ===================================================================== *)

(** X21: for a payload that is valid JSON, the escaped payload is valid
    JSON exactly when the payload holds no escaped double quote: that
    escape is the only one the doubling of backslashes breaks. *)
Theorem escaped_payload_is_valid_iff (payload : list ascii) :
  Json.checkValid payload = true ->
  Json.checkValid (Jib.escapeSeparators payload)
  = negb (Lex.hasEscapedQuote payload).
Proof.
  intros Hv. destruct (Lex.hasEscapedQuote payload) eqn:He; cbn [negb].
  - destruct (Json.checkValid (Jib.escapeSeparators payload)) eqn:V;
      [| reflexivity].
    exfalso. apply checkValid_run in V. apply checkValid_run in Hv.
    rewrite escapeSeparators_doubles in V.
    refine (in_step payload Lex.Outside Lex.Outside _ Hv He V).
    left. split; congruence.
  - exact (escaping_keeps_other_payloads_valid payload Hv He).
Qed.

(* ===================================================================== *)
(** * What the pattern captures *)
(* ===================================================================== *)

Section Captures.

Import Regexp.

Lemma run_lit_inv (R : Type) (c : ascii) (s : list ascii)
    (caps : submatches) (k : list ascii -> submatches -> option R)
    (res : R) :
  run (Lit c) s caps k = Some res ->
  exists s', s = c :: s' /\ k s' caps = Some res.
Proof.
  destruct s as [|x s]; cbn [run]; [discriminate |].
  destruct (Ascii.eqb x c) eqn:E; [| discriminate].
  apply Ascii.eqb_eq in E. subst x. intros H. now exists s.
Qed.

Lemma firstn_prefix {A : Type} (l a b : list A) :
  l = a ++ b -> firstn (List.length l - List.length b) l = a.
Proof. intros ->. apply firstn_front. Qed.

Lemma run_quest (R : Type) (r : re) (s : list ascii) (caps : submatches)
    (k : list ascii -> submatches -> option R) :
  run (Quest r) s caps k
  = match run r s caps k with
    | Some m => Some m
    | None => k s caps
    end.
Proof. reflexivity. Qed.

Lemma run_lits_inv (R : Type) (str : string) (r : re) :
  forall (s : list ascii) (caps : submatches)
         (k : list ascii -> submatches -> option R) (res : R),
    run (lits str r) s caps k = Some res ->
    exists s', s = bytes str ++ s' /\ run r s' caps k = Some res.
Proof.
  induction str as [|c str IH]; intros s caps k res H.
  - now exists s.
  - cbn [lits] in H. rewrite run_seq in H.
    apply run_lit_inv in H as (s1 & -> & H).
    apply IH in H as (s' & -> & H). now exists s'.
Qed.

(** [.*] consumes bytes of one line, and what follows it matches on the
    rest. *)
Lemma star_inv (R : Type) (k : list ascii -> submatches -> option R)
    (res : R) (fuel : nat) :
  forall (s : list ascii) (caps : submatches),
    starAnyNotNL k fuel s caps = Some res ->
    exists body s',
      s = body ++ s' /\ oneLine body = true /\ k s' caps = Some res.
Proof.
  induction fuel as [|fuel IH]; intros s caps H; cbn [starAnyNotNL] in H.
  - now exists [], s.
  - destruct s as [|c s]; cbn [run] in H; [now exists [], [] |].
    destruct (Ascii.eqb c LF) eqn:E; [now exists [], (c :: s) |].
    destruct (Nat.ltb (List.length s) (List.length (c :: s)));
      [| now exists [], (c :: s)].
    destruct (starAnyNotNL k fuel s caps) as [m|] eqn:S;
      [| now exists [], (c :: s)].
    injection H as ->.
    apply IH in S as (body & s' & -> & Hline & Hk).
    exists (c :: body), s'. repeat split; [| exact Hk].
    unfold oneLine in *. cbn [forallb]. now rewrite E, Hline.
Qed.

(** A match of the pattern is the marker, a line end, and a line between
    braces, which is what it captures. *)
Lemma matchHere_inv (s : list ascii) (m : submatches) :
  matchHere Jib.jibPattern s = Some m ->
  exists eol body rest,
    (eol = [LF] \/ eol = [CR; LF])
    /\ oneLine body = true
    /\ s = (bytes "BEGIN JIB JSON" ++ eol ++ "{"%char :: body ++ ["}"%char])
           ++ rest
    /\ m = [bytes "BEGIN JIB JSON" ++ eol ++ "{"%char :: body ++ ["}"%char];
            "{"%char :: body ++ ["}"%char]].
Proof.
  unfold matchHere, Jib.jibPattern. intros H.
  apply run_lits_inv in H as (s1 & E1 & H).
  rewrite run_seq in H.
  assert (Q : exists eol s2,
             (eol = [LF] \/ eol = [CR; LF]) /\ s1 = eol ++ s2
             /\ run (Group 1 (Seq (Lit "{")
                                (Seq (Star AnyNotNL) (Lit "}"))))
                    s2 []
                    (fun s' caps =>
                       Some (setNth 0
                               (firstn (List.length s - List.length s') s)
                               caps))
                = Some m).
  { rewrite run_quest in H.
    destruct (run (Lit CR) s1 []
                (fun s' caps' =>
                   run (Seq (Lit LF)
                          (Group 1 (Seq (Lit "{")
                                      (Seq (Star AnyNotNL) (Lit "}")))))
                       s' caps'
                       (fun s'0 caps =>
                          Some (setNth 0
                                  (firstn (List.length s
                                           - List.length s'0) s) caps))))
      as [m'|] eqn:C.
    - injection H as ->.
      apply run_lit_inv in C as (s1' & -> & C).
      rewrite run_seq in C. apply run_lit_inv in C as (s2 & -> & C).
      exists [CR; LF], s2. repeat split; [now right | exact C].
    - rewrite run_seq in H. apply run_lit_inv in H as (s2 & -> & H).
      exists [LF], s2. repeat split; [now left | exact H]. }
  destruct Q as (eol & s2 & Heol & -> & G).
  rewrite run_group, run_seq in G. apply run_lit_inv in G as (s3 & -> & G).
  rewrite run_seq, run_star in G.
  apply star_inv in G as (body & s4 & -> & Hline & G).
  apply run_lit_inv in G as (rest & -> & G).
  injection G as <-.
  exists eol, body, rest. split; [exact Heol |]. split; [exact Hline |].
  assert (A : bytes "BEGIN JIB JSON" ++ eol ++ "{"%char :: body
              ++ "}"%char :: rest
              = (bytes "BEGIN JIB JSON" ++ eol ++ "{"%char :: body
                 ++ ["}"%char]) ++ rest).
  { rewrite <- !app_assoc. cbn [app]. now rewrite <- !app_assoc. }
  assert (B : "{"%char :: body ++ "}"%char :: rest
              = ("{"%char :: body ++ ["}"%char]) ++ rest).
  { cbn [app]. now rewrite <- app_assoc. }
  subst s. split; [exact A |].
  f_equal; [exact (firstn_prefix _ _ _ A) |].
  f_equal. exact (firstn_prefix _ _ _ B).
Qed.

(** Every match found is a match of the pattern somewhere in the text. *)
Lemma findAllFrom_inv (r : re) (m : submatches) (s : list ascii) :
  forall skip,
    In m (findAllFrom r skip s) ->
    exists before here, s = before ++ here /\ matchHere r here = Some m.
Proof.
  induction s as [|c s IH]; intros skip H; [contradiction |].
  cbn [findAllFrom] in H. destruct skip as [|skip].
  - destruct (matchHere r (c :: s)) as [m'|] eqn:M.
    + destruct H as [-> | H]; [now exists [], (c :: s) |].
      apply IH in H as (before & here & -> & Hm).
      now exists (c :: before), here.
    + apply IH in H as (before & here & -> & Hm).
      now exists (c :: before), here.
  - apply IH in H as (before & here & -> & Hm).
    now exists (c :: before), here.
Qed.

(** X22: whatever the command prints, what the pattern captures for the
    parser is one line of the output, without a line feed, that starts
    with an opening and ends with a closing brace, and that follows the
    marker and one line end, LF or CR LF. *)
Theorem captures_are_single_braced_lines
    (stdout : list ascii) (m : submatches) :
  In m (FindAllSubmatch Jib.jibPattern stdout) ->
  exists before eol body after,
    (eol = [LF] \/ eol = [CR; LF])
    /\ oneLine body = true
    /\ nth 1 m [] = "{"%char :: body ++ ["}"%char]
    /\ stdout = before ++ bytes "BEGIN JIB JSON" ++ eol ++ nth 1 m []
                ++ after.
Proof.
  unfold FindAllSubmatch. intros H.
  apply findAllFrom_inv in H as (before & here & -> & H).
  apply matchHere_inv in H as (eol & body & rest & Heol & Hline & -> & ->).
  exists before, eol, body, rest.
  split; [exact Heol |]. split; [exact Hline |]. split; [reflexivity |].
  cbn [nth]. now rewrite <- !app_assoc.
Qed.

End Captures.

(* ===================================================================== *)
(** * The properties above, on the concrete inputs *)
(* ===================================================================== *)

Lemma context_cleanup_runs_last_witness :
  exists t,
    fst (Kaniko.buildArtifactWithKaniko "info" someBuildArgs kanikoWaitFails
           kanikoBuilder dockerArtifact "gcr.io/p/app:v1")
    = Kaniko.SourceSetup "gcr.io/p/app:v1" :: t ++ [Kaniko.SourceCleanup]
    /\ ~ In Kaniko.SourceCleanup t.
Proof.
  apply (context_cleanup_runs_last "info" someBuildArgs kanikoWaitFails
           kanikoBuilder dockerArtifact "gcr.io/p/app:v1"
           "gs://bucket/context.tar.gz").
  - reflexivity.
  - vm_compute. discriminate.
Defined.

Lemma created_pod_is_deleted_once_witness :
  exists before after,
    fst (Kaniko.buildArtifactWithKaniko "info" someBuildArgs kanikoHappy
           kanikoBuilder dockerArtifact "gcr.io/p/app:v1")
    = before ++ Kaniko.PodsDelete "kaniko-x7f2q" 0 :: after
    /\ In (Kaniko.PodsCreate
             (Kaniko.kanikoArgs "info" someBuildArgs kanikoBuilder
                appDockerfile "gs://bucket/context.tar.gz"
                "gcr.io/p/app:v1")) before
    /\ (forall name grace, ~ In (Kaniko.PodsDelete name grace) before)
    /\ (forall name grace, ~ In (Kaniko.PodsDelete name grace) after)
    /\ (forall name, ~ In (Kaniko.ModifyPod name) after)
    /\ (forall name, ~ In (Kaniko.WaitForPodComplete name) after).
Proof.
  apply (proj2 (created_pod_is_deleted_once "info" someBuildArgs kanikoHappy
                  kanikoBuilder dockerArtifact "gcr.io/p/app:v1")).
  - vm_compute. do 2 right. left. reflexivity.
  - reflexivity.
Defined.

Lemma fatal_deletion_skips_context_cleanup_witness :
  ~ In Kaniko.SourceCleanup
       (fst (Kaniko.buildArtifactWithKaniko "info" someBuildArgs
               kanikoDeleteFails kanikoBuilder dockerArtifact
               "gcr.io/p/app:v1")).
Proof.
  apply (fatal_deletion_skips_context_cleanup "info" someBuildArgs
           kanikoDeleteFails kanikoBuilder dockerArtifact "gcr.io/p/app:v1"
           "gs://bucket/context.tar.gz" "kaniko-x7f2q" appDockerfile
           (New "connection refused")); reflexivity.
Defined.

Lemma clientset_failure_has_no_phase_name_witness :
  Kaniko.buildArtifactWithKaniko "info" someBuildArgs kanikoClientFails
    kanikoBuilder dockerArtifact "gcr.io/p/app:v1"
  = ([Kaniko.SourceSetup "gcr.io/p/app:v1"; Kaniko.GetClientset;
      Kaniko.SourceCleanup],
     Kaniko.Done ("", Some (withMessage (New "no kubeconfig") "")))
  /\ Error (withMessage (New "no kubeconfig") "") = ": no kubeconfig".
Proof.
  apply (clientset_failure_has_no_phase_name "info" someBuildArgs
           kanikoClientFails kanikoBuilder dockerArtifact "gcr.io/p/app:v1"
           "gs://bucket/context.tar.gz" (New "no kubeconfig")); reflexivity.
Defined.

Lemma missing_docker_artifact_panics_witness :
  Kaniko.buildArtifactWithKaniko "info" someBuildArgs kanikoHappy
    kanikoBuilder bazelArtifact "gcr.io/p/bz:v1"
  = ([Kaniko.SourceSetup "gcr.io/p/bz:v1"; Kaniko.GetClientset;
      Kaniko.SourceCleanup], Kaniko.Panic).
Proof.
  apply (missing_docker_artifact_panics "info" someBuildArgs kanikoHappy
           kanikoBuilder bazelArtifact "gcr.io/p/bz:v1"
           "gs://bucket/context.tar.gz"); reflexivity.
Defined.

Lemma nil_error_means_every_phase_went_through_witness :
  Kaniko.fullRemoteReference kanikoHappy "gcr.io/p/app:v1"
  = ("gcr.io/p/app:v1@sha256:0a1b", None)
  /\ exists context da pod,
       Kaniko.sourceSetup kanikoHappy "gcr.io/p/app:v1" = Ok context
       /\ DockerArtifact (ArtifactType dockerArtifact) = Some da
       /\ Kaniko.podsCreate kanikoHappy
            (Kaniko.kanikoArgs "info" someBuildArgs kanikoBuilder da context
               "gcr.io/p/app:v1")
          = Ok pod
       /\ fst (Kaniko.buildArtifactWithKaniko "info" someBuildArgs
                 kanikoHappy kanikoBuilder dockerArtifact "gcr.io/p/app:v1")
          = [Kaniko.SourceSetup "gcr.io/p/app:v1"; Kaniko.GetClientset;
             Kaniko.PodsCreate
               (Kaniko.kanikoArgs "info" someBuildArgs kanikoBuilder da
                  context "gcr.io/p/app:v1");
             Kaniko.ModifyPod pod; Kaniko.StreamLogs pod;
             Kaniko.WaitForPodComplete pod; Kaniko.WaitForLogs;
             Kaniko.FullRemoteReference "gcr.io/p/app:v1";
             Kaniko.PodsDelete pod 0; Kaniko.SourceCleanup].
Proof.
  apply (nil_error_means_every_phase_went_through "info" someBuildArgs
           kanikoHappy kanikoBuilder dockerArtifact "gcr.io/p/app:v1"
           "gcr.io/p/app:v1@sha256:0a1b"). reflexivity.
Defined.

Lemma secret_teardown_follows_the_builds_witness :
  Kaniko.Build "info" someBuildArgs kanikoHappy (string * string) inOrder
    kanikoBuilder [dockerArtifact]
  = (Kaniko.SetupSecret
     :: fst (inOrder [dockerArtifact]
               (Kaniko.buildArtifactWithKaniko "info" someBuildArgs
                  kanikoHappy kanikoBuilder))
     ++ [Kaniko.TeardownSecret],
     Kaniko.Done ([("gcr.io/p/app", "gcr.io/p/app:latest@sha256:0a1b")],
                  None))
  /\ Kaniko.Build "info" someBuildArgs kanikoDeleteFails (string * string)
       inOrder kanikoBuilder [dockerArtifact]
     = (Kaniko.SetupSecret
        :: fst (inOrder [dockerArtifact]
                  (Kaniko.buildArtifactWithKaniko "info" someBuildArgs
                     kanikoDeleteFails kanikoBuilder)),
        Kaniko.Exit).
Proof.
  split.
  - apply (proj1 (secret_teardown_follows_the_builds "info" someBuildArgs
                    kanikoHappy kanikoBuilder (string * string) inOrder
                    [dockerArtifact] eq_refl)).
    vm_compute. discriminate.
  - apply (proj2 (secret_teardown_follows_the_builds "info" someBuildArgs
                    kanikoDeleteFails kanikoBuilder (string * string) inOrder
                    [dockerArtifact] eq_refl)).
    reflexivity.
Defined.




Lemma results_carry_path_and_plugin_witness :
  Jib.FilePath
    {| Jib.BuilderName := "Jib Maven Plugin"; Jib.Image := "b";
       Jib.FilePath := "svc/pom.xml"; Jib.Project := "p2" |}
  = "svc/pom.xml"
  /\ exists f,
       Jib.classify "svc/pom.xml" = Some f
       /\ Jib.BuilderName
            {| Jib.BuilderName := "Jib Maven Plugin"; Jib.Image := "b";
               Jib.FilePath := "svc/pom.xml"; Jib.Project := "p2" |}
          = pluginName (Jib.builderType f).
Proof.
  apply (results_carry_path_and_plugin pluginName (mavenProject twoModules)
           "svc/pom.xml").
  vm_compute. right. left. reflexivity.
Defined.

Lemma one_result_per_block_witness :
  Forall2 (resultOf pluginName Jib.JibMaven "svc/pom.xml")
          (Regexp.FindAllSubmatch Jib.jibPattern twoModulesCRLF)
          (snd (Jib.ValidateJibConfig pluginName
                  (mavenProject twoModulesCRLF) "svc/pom.xml"))
  /\ forall format err,
       ~ In (Jib.Warnf format err)
            (fst (Jib.ValidateJibConfig pluginName
                    (mavenProject twoModulesCRLF) "svc/pom.xml")).
Proof.
  apply (one_result_per_block pluginName (mavenProject twoModulesCRLF)
           "svc/pom.xml" mavenFamily
           "<plugin><artifactId>jib-maven-plugin</artifactId></plugin>"
           twoModulesCRLF); try reflexivity.
  intros m H. vm_compute in H.
  destruct H as [<- | [<- | []]]; vm_compute; reflexivity.
Defined.

Lemma warning_means_no_results_witness :
  snd (Jib.ValidateJibConfig pluginName (mavenProject secondBlockBroken)
         "svc/pom.xml") = []
  /\ "failed to parse jib json: %s" = "failed to parse jib json: %s"
  /\ exists t,
       fst (Jib.ValidateJibConfig pluginName (mavenProject secondBlockBroken)
              "svc/pom.xml")
       = t ++ [Jib.Warnf "failed to parse jib json: %s" Json.SyntaxError]
       /\ forall format' err', ~ In (Jib.Warnf format' err') t.
Proof.
  apply (warning_means_no_results pluginName (mavenProject secondBlockBroken)
           "svc/pom.xml" "failed to parse jib json: %s" Json.SyntaxError).
  vm_compute. do 3 right. left. reflexivity.
Defined.

Lemma failures_give_nil_silently_witness :
  Jib.ValidateJibConfig pluginName unreadableProject "svc/pom.xml"
  = ([Jib.ReadFile "svc/pom.xml"], [])
  /\ Jib.ValidateJibConfig pluginName failingMavenProject "svc/pom.xml"
     = ([Jib.ReadFile "svc/pom.xml"; Jib.AbsFile "svc" "mvnw";
         Jib.RunCmdOut
           (Jib.initCommand failingMavenProject mavenFamily "svc/pom.xml")],
        [])
  /\ Jib.ValidateJibConfig pluginName
       (mavenProject (bytes "BUILD SUCCESS")) "svc/pom.xml"
     = ([Jib.ReadFile "svc/pom.xml"; Jib.AbsFile "svc" "mvnw";
         Jib.RunCmdOut
           (Jib.initCommand (mavenProject (bytes "BUILD SUCCESS"))
              mavenFamily "svc/pom.xml")],
        []).
Proof.
  split; [| split].
  - apply (proj1 (failures_give_nil_silently pluginName unreadableProject
                    "svc/pom.xml" mavenFamily eq_refl)
             (New "permission denied")).
    reflexivity.
  - apply (proj1 (proj2 (failures_give_nil_silently pluginName
                           failingMavenProject "svc/pom.xml" mavenFamily
                           eq_refl))
             "<plugin><artifactId>jib-maven-plugin</artifactId></plugin>"
             (New "exit status 1")); reflexivity.
  - apply (proj2 (proj2 (failures_give_nil_silently pluginName
                           (mavenProject (bytes "BUILD SUCCESS"))
                           "svc/pom.xml" mavenFamily eq_refl))
             "<plugin><artifactId>jib-maven-plugin</artifactId></plugin>"
             (bytes "BUILD SUCCESS")); reflexivity.
Defined.

Lemma command_prefers_the_wrapper_witness :
  (exists f,
     Jib.classify "svc/pom.xml" = Some f
     /\ Jib.Dir {| Jib.Args := ["/src/svc/mvnw"; "jib:_skaffold-init"; "-q"];
                   Jib.Dir := "svc" |}
        = Jib.filepath_Dir wrappedMavenProject "svc/pom.xml"
     /\ Jib.Args {| Jib.Args := ["/src/svc/mvnw"; "jib:_skaffold-init"; "-q"];
                    Jib.Dir := "svc" |}
        = [ match Jib.util_AbsFile wrappedMavenProject
                    (Jib.filepath_Dir wrappedMavenProject "svc/pom.xml")
                    (Jib.wrapper f) with
            | Ok wrapperExecutable => wrapperExecutable
            | Err _ => Jib.executable f
            end;
            Jib.taskName f; "-q" ])
  /\ exists before after,
       fst (Jib.ValidateJibConfig pluginName wrappedMavenProject
              "svc/pom.xml")
       = before
         ++ Jib.RunCmdOut
              {| Jib.Args := ["/src/svc/mvnw"; "jib:_skaffold-init"; "-q"];
                 Jib.Dir := "svc" |}
         :: after
       /\ (forall c, ~ In (Jib.RunCmdOut c) before)
       /\ (forall c, ~ In (Jib.RunCmdOut c) after).
Proof.
  apply (command_prefers_the_wrapper pluginName wrappedMavenProject
           "svc/pom.xml"
           {| Jib.Args := ["/src/svc/mvnw"; "jib:_skaffold-init"; "-q"];
              Jib.Dir := "svc" |}).
  vm_compute. do 2 right. left. reflexivity.
Defined.

Lemma tar_holds_one_path_per_dependency_witness :
  DockerContext.CreateDockerTarContext contextUnresolved "svc" appDockerfile
  = ([DockerContext.GetDependencies "svc" "Dockerfile"
        [("VERSION", Some "1")]],
     Some (withMessage (New "unknown instruction")
             "getting relative tar paths"))
  /\ exists p,
       p = map (DockerContext.filepath_Join contextHappy "svc")
             ["Dockerfile"; "main.go"]
       /\ List.length p = 2
       /\ fst (DockerContext.CreateDockerTarContext contextHappy "svc"
                 appDockerfile)
          = [DockerContext.GetDependencies "svc" "Dockerfile"
               [("VERSION", Some "1")];
             DockerContext.CreateTar "svc" p]
       /\ snd (DockerContext.CreateDockerTarContext contextHappy "svc"
                 appDockerfile)
          = match DockerContext.util_CreateTar contextHappy "svc" p with
            | Some err => Some (withMessage err "creating tar gz")
            | None => None
            end.
Proof.
  split.
  - apply (proj1 (tar_holds_one_path_per_dependency contextUnresolved "svc"
                    appDockerfile) (New "unknown instruction")).
    reflexivity.
  - apply (proj2 (tar_holds_one_path_per_dependency contextHappy "svc"
                    appDockerfile) ["Dockerfile"; "main.go"]).
    reflexivity.
Defined.

Lemma raw_backslashes_survive_witness :
  Json.Unmarshal
    (Jib.escapeSeparators
       (payloadOf (bytes "gcr.io/p/app") (bytes "C:\work\app")))
    Jib.jibJSON
  = ([("image", "gcr.io/p/app"); ("project", "C:\work\app")], None).
Proof.
  apply (raw_backslashes_survive (bytes "gcr.io/p/app")
           (bytes "C:\work\app")); reflexivity.
Defined.

Lemma module_is_detected_as_printed_witness :
  Jib.ValidateJibConfig pluginName (mavenProject windowsOutput) "svc/pom.xml"
  = ([Jib.ReadFile "svc/pom.xml"; Jib.AbsFile "svc" "mvnw";
      Jib.RunCmdOut
        (Jib.initCommand (mavenProject windowsOutput) mavenFamily
           "svc/pom.xml")],
     [ {| Jib.BuilderName := "Jib Maven Plugin";
          Jib.Image := "gcr.io/p/app";
          Jib.FilePath := "svc/pom.xml";
          Jib.Project := "C:\work\app" |} ]).
Proof.
  apply (module_is_detected_as_printed pluginName
           (mavenProject windowsOutput) "svc/pom.xml" mavenFamily
           "<plugin><artifactId>jib-maven-plugin</artifactId></plugin>"
           (bytes "gcr.io/p/app") (bytes "C:\work\app")); reflexivity.
Defined.

Lemma escaped_payload_is_valid_iff_witness :
  Json.checkValid (Jib.escapeSeparators quotePayload) = false
  /\ Json.checkValid (Jib.escapeSeparators backslashPayload) = true.
Proof.
  split.
  - apply (escaped_payload_is_valid_iff quotePayload). reflexivity.
  - apply (escaped_payload_is_valid_iff backslashPayload). reflexivity.
Defined.

Lemma captures_are_single_braced_lines_witness :
  exists before eol body after,
    (eol = [LF] \/ eol = [CR; LF])
    /\ oneLine body = true
    /\ quoted "{'image':'b','project':'p2'}" = "{"%char :: body ++ ["}"%char]
    /\ twoModulesCRLF
       = before ++ bytes "BEGIN JIB JSON" ++ eol
         ++ quoted "{'image':'b','project':'p2'}" ++ after.
Proof.
  apply (captures_are_single_braced_lines twoModulesCRLF
           [bytes "BEGIN JIB JSON" ++ [CR; LF]
            ++ quoted "{'image':'b','project':'p2'}";
            quoted "{'image':'b','project':'p2'}"]).
  vm_compute. right. left. reflexivity.
Defined.
